(** * Recommendation reconciliation: parser, aggregator, miner and resolver

    A shallow embedding of the package-recommendation core of the
    installer: [PackageAnalyzerAgent.parse_llm_recommendations],
    [RecommenderAgent.generate_recommendations], the two
    [build_final_package_list] functions, the popularity ranking of
    [GitHubMCPServer.get_popular_packages_from_repos] with the filter of
    [GitHubResearchAgent.research_similar_projects], and
    [PyPIMCPServer.get_package_description].

    Python strings are modelled as [string], a sequence of code points
    below 256.  Python dictionaries are modelled as association lists in
    insertion order with unique keys, since the resolver iterates over
    them.  Network collaborators (repository search, manifest analysis,
    the language model, the package index) are section variables. *)

From Stdlib Require Import String Ascii List Bool Arith ZArith Lia.
From Stdlib Require Import DecimalString.
From Stdlib Require Import Sorting.Sorted Sorting.Permutation.
Import ListNotations.
Open Scope string_scope.

(** ** Python string primitives *)

Module PyStr.

(** [str.isspace] on one code point below 256. *)
Definition is_space (c : ascii) : bool :=
  let n := nat_of_ascii c in
  (((9 <=? n) && (n <=? 13)) || ((28 <=? n) && (n <=? 32))
   || (n =? 133) || (n =? 160))%nat.

Fixpoint lstrip (s : string) : string :=
  match s with
  | EmptyString => EmptyString
  | String c s' => if is_space c then lstrip s' else s
  end.

Fixpoint rstrip (s : string) : string :=
  match s with
  | EmptyString => EmptyString
  | String c s' =>
      match rstrip s' with
      | EmptyString => if is_space c then EmptyString else String c EmptyString
      | r => String c r
      end
  end.

(** [s.strip()] *)
Definition strip (s : string) : string := rstrip (lstrip s).

(** [s.startswith(p)] *)
Definition startswith (p s : string) : bool := String.prefix p s.

(** [sub in s] *)
Fixpoint contains (sub s : string) : bool :=
  String.prefix sub s
  || match s with
     | EmptyString => false
     | String _ s' => contains sub s'
     end.

(** The scanner behind [s.split(sep)] for a non-empty [sep]: [skip] counts
    the characters of a separator that was just matched and are still to be
    dropped.  It returns the piece being read and the pieces after it. *)
Fixpoint split_go (sep : string) (skip : nat) (s : string)
  : string * list string :=
  match s with
  | EmptyString => (EmptyString, [])
  | String c s' =>
      match skip with
      | S k => split_go sep k s'
      | O =>
          if String.prefix sep s
          then (EmptyString,
                let (p, ps) := split_go sep (String.length sep - 1) s' in
                p :: ps)
          else let (p, ps) := split_go sep 0 s' in (String c p, ps)
      end
  end.

(** [s.split(sep)] *)
Definition split (sep s : string) : list string :=
  let (p, ps) := split_go sep 0 s in p :: ps.

(** [s.replace(old, new)] for a non-empty [old]. *)
Fixpoint replace_go (old new : string) (skip : nat) (s : string) : string :=
  match s with
  | EmptyString => EmptyString
  | String c s' =>
      match skip with
      | S k => replace_go old new k s'
      | O =>
          if String.prefix old s
          then new ++ replace_go old new (String.length old - 1) s'
          else String c (replace_go old new 0 s')
      end
  end.

Definition replace (old new s : string) : string := replace_go old new 0 s.

(** [s.split(sep, 1)] guarded by [sep in s]: the text before and after the
    first occurrence of [sep], or [None] when [sep] does not occur. *)
Fixpoint cut (sep s : string) : option (string * string) :=
  if String.prefix sep s
  then Some (EmptyString, substring (String.length sep)
                                    (String.length s - String.length sep) s)
  else match s with
       | EmptyString => None
       | String c s' =>
           match cut sep s' with
           | Some (a, b) => Some (String c a, b)
           | None => None
           end
       end.

(** [c.lower()] on one code point below 256: the ASCII capitals and the
    Latin-1 capitals (0xC0 to 0xDE without the multiplication sign). *)
Definition lower_char (c : ascii) : ascii :=
  let n := nat_of_ascii c in
  if (((65 <=? n) && (n <=? 90))
      || ((192 <=? n) && (n <=? 222) && negb (n =? 215)))%nat
  then ascii_of_nat (n + 32) else c.

Fixpoint lower (s : string) : string :=
  match s with
  | EmptyString => EmptyString
  | String c s' => String (lower_char c) (lower s')
  end.

(** [s[1:]] *)
Definition drop1 (s : string) : string :=
  match s with
  | EmptyString => EmptyString
  | String _ s' => s'
  end.

(** [s[:n]] for a non-negative [n]. *)
Definition take (n : nat) (s : string) : string := substring 0 n s.

(** Truth value of a string. *)
Definition truthy (s : string) : bool :=
  match s with
  | EmptyString => false
  | _ => true
  end.

(** [sep.join(xs)] *)
Fixpoint join (sep : string) (xs : list string) : string :=
  match xs with
  | [] => EmptyString
  | [x] => x
  | x :: rest => x ++ sep ++ join sep rest
  end.

Definition nl : string := String (ascii_of_nat 10) EmptyString.

(** The scanner behind [s.split()] without argument: the word being read
    and the words after it. *)
Fixpoint words_go (s : string) : string * list string :=
  match s with
  | EmptyString => (EmptyString, [])
  | String c s' =>
      let (p, ps) := words_go s' in
      if is_space c then (EmptyString, if truthy p then p :: ps else ps)
      else (String c p, ps)
  end.

(** A line boundary of [str.splitlines] below 256. *)
Definition is_linebreak (c : ascii) : bool :=
  let n := nat_of_ascii c in
  (((10 <=? n) && (n <=? 13)) || ((28 <=? n) && (n <=? 30))
   || (n =? 133))%nat.

Definition is_cr (c : ascii) : bool := (nat_of_ascii c =? 13)%nat.
Definition is_lf (c : ascii) : bool := (nat_of_ascii c =? 10)%nat.

Definition cons_line (line : option string) (lines : list string)
  : list string :=
  match line with
  | Some l => l :: lines
  | None => lines
  end.

(** The scanner behind [s.splitlines()]: the line being read, if it has
    begun, and the lines after it; [after_cr] tells that the character
    before was a carriage return, so that a line feed belongs to it. *)
Fixpoint splitlines_go (after_cr : bool) (s : string)
  : option string * list string :=
  match s with
  | EmptyString => (None, [])
  | String c s' =>
      if after_cr && is_lf c then splitlines_go false s'
      else if is_linebreak c then
        (Some EmptyString,
         let (p, ps) := splitlines_go (is_cr c) s' in cons_line p ps)
      else
        let (p, ps) := splitlines_go false s' in
        (Some (String c match p with Some l => l | None => EmptyString end),
         ps)
  end.

(** [s.splitlines()] *)
Definition splitlines (s : string) : list string :=
  let (p, ps) := splitlines_go false s in cons_line p ps.

(** [s.split()] *)
Definition words (s : string) : list string :=
  let (p, ps) := words_go s in if truthy p then p :: ps else ps.

End PyStr.

(** ** Python dictionaries with string keys, in insertion order *)

Module PyDict.

Definition dict (V : Type) : Type := list (string * V).

(** [d[k] = v]: an existing key keeps its position. *)
Fixpoint set {V : Type} (k : string) (v : V) (d : dict V) : dict V :=
  match d with
  | [] => [(k, v)]
  | (k', v') :: d' =>
      if String.eqb k k' then (k, v) :: d' else (k', v') :: set k v d'
  end.

(** [d.get(k)] *)
Fixpoint get {V : Type} (k : string) (d : dict V) : option V :=
  match d with
  | [] => None
  | (k', v') :: d' => if String.eqb k k' then Some v' else get k d'
  end.

(** [d.get(k, dflt)] *)
Definition get_default {V : Type} (k : string) (dflt : V) (d : dict V) : V :=
  match get k d with
  | Some v => v
  | None => dflt
  end.

Definition keys {V : Type} (d : dict V) : list string := map fst d.
Definition values {V : Type} (d : dict V) : list V := map snd d.

(** A well-formed dictionary has no repeated key. *)
Definition wf {V : Type} (d : dict V) : Prop := NoDup (keys d).

End PyDict.

Import PyStr PyDict.

(** Outcome of a Python call that may raise. *)
Inductive result (A : Type) : Type :=
| Return (a : A)
| Raise (exn : string).
Arguments Return {A} a.
Arguments Raise {A} exn.

(** [x in xs] for a list (or a set) of strings. *)
Definition mem (x : string) (xs : list string) : bool :=
  existsb (String.eqb x) xs.

(** ** mcp_servers/pypi_server.py *)

Module PyPI.

Record PackageInfo : Type := {
  name : string;
  version : string;
  summary : string;
  description : string;
  author : string;
  home_page : string;
  license : string
}.

Definition no_description : string := "No description available".
Definition not_found : string := "Package not found on PyPI".

Section Server.

(** The [info] object of the index's JSON answer for a package name, with
    the defaults of [info.get] applied; [None] when the request or the
    reading of its answer raises. *)
Variable fetch_info : string -> option PackageInfo.

(** [PyPIMCPServer.get_package_info] *)
Definition get_package_info (package_name : string) : option PackageInfo :=
  match fetch_info package_name with
  | Some info =>
      Some {| name := name info;
              version := version info;
              summary := summary info;
              description := take 500 (description info);
              author := author info;
              home_page := home_page info;
              license := license info |}
  | None => None
  end.

(** [PyPIMCPServer.get_package_description] *)
Definition get_package_description (package_name : string) : string :=
  match get_package_info package_name with
  | Some package_info =>
      if truthy (summary package_info) then summary package_info
      else if truthy (description package_info) then
        let desc := strip (replace nl " " (description package_info)) in
        if (200 <? String.length desc)%nat then take 200 desc ++ "..."
        else desc
      else no_description
  | None => not_found
  end.

End Server.

End PyPI.

(** ** mcp_servers/github_server.py and agents/github_researcher.py *)

Module GitHub.

Record GitHubRepo : Type := {
  name : string;
  full_name : string;
  description : option string;
  stars : Z;
  url : string
}.

(** The dictionary returned by [analyze_repo_dependencies]. *)
Record Dependencies : Type := {
  requirements_txt : list string;
  pyproject_toml : list string;
  source : string
}.

(** One entry of the ranking: [{"package": pkg, "occurrences": count}]. *)
Record Popular : Type := {
  package : string;
  occurrences : nat
}.

(** The dictionary returned by [research_similar_projects]; the display
    text [message] is left out. *)
Record Research : Type := {
  success : bool;
  error : option string;
  packages : list Popular;
  repos_analyzed : nat;
  sample_repos : list (string * Z * option string)
}.

Definition common_base : list string :=
  ["pip"; "setuptools"; "wheel"; "python"].

(** [xs[:n]] for a Python integer [n]: a negative [n] counts from the end. *)
Definition slice_to {A : Type} (n : Z) (xs : list A) : list A :=
  if (n <? 0)%Z
  then firstn (List.length xs - Z.to_nat (- n)) xs
  else firstn (Z.to_nat n) xs.

(** Stable insertion for [sorted(..., key=count, reverse=True)]: [x] comes
    before the entries after it whose count is not larger. *)
Fixpoint insert_desc (x : string * nat) (l : list (string * nat))
  : list (string * nat) :=
  match l with
  | [] => [x]
  | y :: l' =>
      if (snd y <=? snd x)%nat then x :: l else y :: insert_desc x l'
  end.

Fixpoint sorted_desc (l : list (string * nat)) : list (string * nat) :=
  match l with
  | [] => []
  | x :: l' => insert_desc x (sorted_desc l')
  end.

Section Server.

(** [search_repositories(query, language, max_results)]; it returns the
    empty list on any failure. *)
Variable search_repositories : string -> string -> Z -> list GitHubRepo.

(** [analyze_repo_dependencies(full_name)]: the manifests are fetched over
    the network. *)
Variable analyze_repo_dependencies : string -> Dependencies.

(** The order in which a Python [set] built from a list is iterated. *)
Variable set_iter : list string -> list string.

(** The inner loop over [all_packages]. *)
Definition count_packages (package_count : dict nat)
    (all_packages : list string) : dict nat :=
  fold_left
    (fun pc pkg => PyDict.set pkg (get_default pkg 0 pc + 1) pc)
    all_packages package_count.

(** [GitHubMCPServer.get_popular_packages_from_repos] *)
Definition get_popular_packages_from_repos (repos : list GitHubRepo)
    (top_n : Z) : list Popular :=
  let package_count :=
    fold_left
      (fun pc repo =>
         let deps := analyze_repo_dependencies (full_name repo) in
         let all_packages :=
           set_iter (requirements_txt deps ++ pyproject_toml deps)%list in
         count_packages pc all_packages)
      repos [] in
  let sorted_packages := slice_to top_n (sorted_desc package_count) in
  map (fun pc => {| package := fst pc; occurrences := snd pc |})
      sorted_packages.

(** [GitHubResearchAgent.research_similar_projects] *)
Definition research_similar_projects (project_description : string)
    (max_repos : Z) : Research :=
  let repos := search_repositories project_description "Python" max_repos in
  match repos with
  | [] =>
      {| success := false;
         error := Some "No similar repositories found";
         packages := [];
         repos_analyzed := 0;
         sample_repos := [] |}
  | _ =>
      let popular_packages := get_popular_packages_from_repos repos 15 in
      let filtered_packages :=
        filter (fun pkg => negb (mem (lower (package pkg)) common_base))
               popular_packages in
      {| success := true;
         error := None;
         packages := filtered_packages;
         repos_analyzed := List.length repos;
         sample_repos :=
           map (fun repo => (name repo, stars repo, description repo))
               (firstn 3 repos) |}
  end.

(** [GitHubResearchAgent.get_packages_from_description] *)
Definition get_packages_from_description (project_description : string)
  : list string :=
  let result := research_similar_projects project_description 5 in
  if success result then map package (packages result) else [].

End Server.

Section Manifests.

(** The decoded content of a file of a repository; [None] when the request
    does not answer 200 or raises. *)
Variable fetch_content : string -> string -> option string.

Definition file_paths : list string :=
  ["requirements.txt"; "requirements/requirements.txt";
   "requirements/base.txt"; "requirements/production.txt"].

Fixpoint first_found (repo_full_name : string) (paths : list string)
  : option string :=
  match paths with
  | [] => None
  | file_path :: rest =>
      match fetch_content repo_full_name file_path with
      | Some content => Some content
      | None => first_found repo_full_name rest
      end
  end.

(** [GitHubMCPServer.get_requirements_file] *)
Definition get_requirements_file (repo_full_name : string) : option string :=
  first_found repo_full_name file_paths.

(** [GitHubMCPServer.get_pyproject_toml] *)
Definition get_pyproject_toml (repo_full_name : string) : option string :=
  fetch_content repo_full_name "pyproject.toml".

(** [line.split("==")[0].split(">=")[0].split("<=")[0].split("~=")[0].strip()] *)
Definition requirement_name (line : string) : string :=
  strip
    (nth 0 (split "~="
       (nth 0 (split "<="
          (nth 0 (split ">="
             (nth 0 (split "==" line) "")) "")) "")) "").

(** The loop over the lines of requirements.txt. *)
Definition parse_requirements (requirements : string) : list string :=
  fold_left
    (fun acc raw_line =>
       let line := strip raw_line in
       if truthy line && negb (startswith "#" line) then
         let pkg := requirement_name line in
         if truthy pkg then (acc ++ [pkg])%list else acc
       else acc)
    (splitlines requirements) [].

(** The double quote. *)
Definition dq : ascii := ascii_of_nat 34.

(** [s] without the prefix [p], when it has it. *)
Definition drop_prefix (p s : string) : option string :=
  if String.prefix p s
  then Some (substring (String.length p)
                       (String.length s - String.length p) s)
  else None.

(** The group of the pattern [dependencies\s*=\s*\[(.*?)\]] when it
    matches at the start of [s]; the dot matches every character. *)
Definition dependencies_at (s : string) : option string :=
  match drop_prefix "dependencies" s with
  | Some r1 =>
      match drop_prefix "=" (lstrip r1) with
      | Some r2 =>
          match drop_prefix "[" (lstrip r2) with
          | Some r3 =>
              match cut "]" r3 with
              | Some (group, _) => Some group
              | None => None
              end
          | None => None
          end
      | None => None
      end
  | None => None
  end.

(** [re.search] with that pattern: the leftmost match. *)
Fixpoint search_dependencies (s : string) : option string :=
  match dependencies_at s with
  | Some group => Some group
  | None =>
      match s with
      | EmptyString => None
      | String _ s' => search_dependencies s'
      end
  end.

(** The class of the pattern of the names: no double quote, no [>], [=],
    [<] or [~], no white space. *)
Definition name_char (c : ascii) : bool :=
  negb (is_space c)
  && negb (Ascii.eqb c dq) && negb (Ascii.eqb c ">")
  && negb (Ascii.eqb c "=") && negb (Ascii.eqb c "<")
  && negb (Ascii.eqb c "~").

(** The longest run of name characters at the start of [s]. *)
Fixpoint name_run (s : string) : string :=
  match s with
  | EmptyString => EmptyString
  | String c s' => if name_char c then String c (name_run s') else EmptyString
  end.

(** [re.findall] with the pattern of a double quote followed by one or
    more name characters: the runs, from left to right; [skip] counts the
    characters of the last match that are still to be passed. *)
Fixpoint findall_go (skip : nat) (s : string) : list string :=
  match s with
  | EmptyString => []
  | String c s' =>
      match skip with
      | S k => findall_go k s'
      | O =>
          if Ascii.eqb c dq && truthy (name_run s')
          then name_run s' :: findall_go (String.length (name_run s')) s'
          else findall_go 0 s'
      end
  end.

Definition findall_names (deps_str : string) : list string :=
  findall_go 0 deps_str.

(** [GitHubMCPServer.analyze_repo_dependencies] *)
Definition analyze_repo_dependencies (repo_full_name : string)
  : Dependencies :=
  {| requirements_txt :=
       match get_requirements_file repo_full_name with
       | Some requirements =>
           if truthy requirements then parse_requirements requirements
           else []
       | None => []
       end;
     pyproject_toml :=
       match get_pyproject_toml repo_full_name with
       | Some pyproject =>
           if truthy pyproject then
             match search_dependencies pyproject with
             | Some deps_str => findall_names deps_str
             | None => []
             end
           else []
       | None => []
       end;
     source := repo_full_name |}.

End Manifests.

End GitHub.

(** ** agents/package_analyzer.py *)

Module Analyzer.

(** The values of [current_section]. *)
Inductive SectionTag : Type :=
| SecNone
| SecApprove
| SecAlternatives
| SecAdditional.

(** A value of the [alternatives] dictionary built by the parser. *)
Record AltParsed : Type := {
  alternative : string;
  reason : string
}.

(** The dictionary returned by [parse_llm_recommendations]. *)
Record Parsed : Type := {
  approved_packages : list string;
  alternative_suggestions : dict AltParsed;
  additional_packages : dict string
}.

(** The local variables of the parsing loop. *)
Record Loop : Type := {
  approved : list string;
  alternatives : dict AltParsed;
  additional : dict string;
  current_section : SectionTag
}.

Definition loop_init : Loop :=
  {| approved := []; alternatives := []; additional := [];
     current_section := SecNone |}.

Definition with_section (sec : SectionTag) (st : Loop) : Loop :=
  {| approved := approved st; alternatives := alternatives st;
     additional := additional st; current_section := sec |}.

Definition marker : string := "Better alternative is".

(** A bullet of the SUGGEST_ALTERNATIVES section. *)
Definition alternative_bullet (content : string) (st : Loop) : Loop :=
  match cut ":" content with
  | Some (part0, part1) =>
      let original_pkg := strip part0 in
      let reason := strip part1 in
      if contains marker reason then
        let alt_pkg :=
          strip (nth 0 (split "because" (nth 1 (split marker reason) "")) "")
        in
        let reason_text :=
          if contains "because" reason
          then strip (nth 1 (split "because" reason) "")
          else reason in
        {| approved := approved st;
           alternatives :=
             PyDict.set original_pkg
               {| alternative := alt_pkg; reason := reason_text |}
               (alternatives st);
           additional := additional st;
           current_section := current_section st |}
      else st
  | None => st
  end.

(** A bullet of the ADDITIONAL section. *)
Definition additional_bullet (content : string) (st : Loop) : Loop :=
  match cut ":" content with
  | Some (part0, part1) =>
      let pkg_name := strip part0 in
      let reason := strip part1 in
      if contains " or " (lower pkg_name) || contains " and " (lower pkg_name)
      then st
      else if contains " " pkg_name then st
      else
        {| approved := approved st;
           alternatives := alternatives st;
           additional := PyDict.set pkg_name reason (additional st);
           current_section := current_section st |}
  | None => st
  end.

(** The names after [APPROVE:]. *)
Definition approve_items (packages_str : string) : list string :=
  filter truthy (map strip (split "," packages_str)).

(** One iteration of the loop over the lines. *)
Definition parse_line (st : Loop) (raw_line : string) : Loop :=
  let line := strip raw_line in
  if startswith "APPROVE:" line then
    let packages_str := strip (replace "APPROVE:" "" line) in
    {| approved :=
         if truthy packages_str
         then (approved st ++ approve_items packages_str)%list
         else approved st;
       alternatives := alternatives st;
       additional := additional st;
       current_section := SecApprove |}
  else if startswith "SUGGEST_ALTERNATIVES:" line then
    with_section SecAlternatives st
  else if startswith "ADDITIONAL:" line then
    with_section SecAdditional st
  else if startswith "-" line && truthy (strip (drop1 line)) then
    let content := strip (drop1 line) in
    match current_section st with
    | SecAlternatives => alternative_bullet content st
    | SecAdditional => additional_bullet content st
    | _ => st
    end
  else st.

(** The state after the loop over [llm_response.split("\n")]. *)
Definition parse_lines (llm_response : string) : Loop :=
  fold_left parse_line (split nl llm_response) loop_init.

Definition is_empty {A : Type} (l : list A) : bool :=
  match l with
  | [] => true
  | _ => false
  end.

(** [PackageAnalyzerAgent.parse_llm_recommendations] *)
Definition parse_llm_recommendations (llm_response : string)
    (user_packages : list string) : Parsed :=
  let st := parse_lines llm_response in
  let approved' :=
    if is_empty (approved st) && is_empty (alternatives st)
       && is_empty (additional st)
    then user_packages
    else approved st in
  {| approved_packages := approved';
     alternative_suggestions := alternatives st;
     additional_packages := additional st |}.

(** [PackageAnalyzerAgent.parse_user_packages] *)
Definition parse_user_packages (user_input : string) : list string :=
  if negb (truthy user_input) || String.eqb (strip user_input) ""
  then []
  else filter truthy (map strip (words (replace "," " " user_input))).

(** The dictionary returned by [analyze_with_llm]. *)
Record Analysis : Type := {
  success : bool;
  analysis : string;
  error : option string
}.

Section LLM.

(** The text of the system prompt, a constant of the source. *)
Variable system_prompt : string.

(** [self.llm.invoke(messages)]: the content of the answer, or the text of
    the exception it raised. *)
Variable llm_invoke : string -> string -> result string.

Definition user_prompt (user_packages : list string)
    (project_description : string) (github_packages : list string)
  : string :=
  "Project Description: "
  ++ (if truthy project_description then project_description
      else "Not provided")
  ++ nl ++ nl ++ "User's Requested Packages: "
  ++ (if is_empty user_packages then "None specified"
      else join ", " user_packages)
  ++ nl ++ nl ++ "Popular packages from similar GitHub projects: "
  ++ (if is_empty github_packages then "None found"
      else join ", " (firstn 10 github_packages))
  ++ nl ++ nl
  ++ "Analyze the user's package choices and provide recommendations following the rules.".

(** [PackageAnalyzerAgent.analyze_with_llm] *)
Definition analyze_with_llm (user_packages : list string)
    (project_description : string) (github_packages : list string)
  : Analysis :=
  match llm_invoke system_prompt
          (user_prompt user_packages project_description github_packages)
  with
  | Return content =>
      {| success := true; analysis := content; error := None |}
  | Raise e =>
      {| success := false; analysis := "";
         error := Some ("LLM analysis failed: " ++ e) |}
  end.

End LLM.

Section Descriptions.

Variable fetch_info : string -> option PyPI.PackageInfo.

(** [PackageAnalyzerAgent.get_package_descriptions] *)
Definition get_package_descriptions (packages : list string) : dict string :=
  fold_left
    (fun descriptions package =>
       PyDict.set package (PyPI.get_package_description fetch_info package)
                  descriptions)
    packages [].

End Descriptions.

End Analyzer.

(** ** agents/recommender.py *)

Module Recommender.

(** A value of the [alternatives] dictionary of a recommendation. *)
Record AltInfo : Type := {
  alternative : string;
  reason : string;
  description : string
}.

(** A value of the [additional] dictionary of a recommendation. *)
Record AddInfo : Type := {
  add_reason : string;
  add_description : string
}.

Record Insights : Type := {
  packages_found : list string;
  insight_repos_analyzed : nat
}.

(** The dictionary returned by [generate_recommendations]; a key that a
    branch does not set is [None]. *)
Record Recommendations : Type := {
  success : bool;
  final_packages : option (list string);
  has_suggestions : bool;
  approved_packages : list string;
  alternatives : dict AltInfo;
  additional : dict AddInfo;
  error : option string;
  message : option string;
  github_insights : option Insights
}.

(** [seen] and [unique_packages] of the final loop. *)
Fixpoint unique_from (seen : list string) (final_packages : list string)
  : list string :=
  match final_packages with
  | [] => []
  | pkg :: rest =>
      if mem pkg seen then unique_from seen rest
      else pkg :: unique_from (pkg :: seen) rest
  end.

Definition unique (final_packages : list string) : list string :=
  unique_from [] final_packages.

(** The loop over [recommendations["alternatives"].items()]. *)
Definition handle_alternatives (user_choices : dict bool)
    (alts : dict AltInfo) (final_packages : list string) : list string :=
  fold_left
    (fun final item =>
       let original := fst item in
       let alt_pkg := alternative (snd item) in
       if get_default alt_pkg false user_choices
       then (final ++ [alt_pkg])%list
       else if mem original final then final
            else (final ++ [original])%list)
    alts final_packages.

(** The loop over [recommendations["additional"].keys()]. *)
Definition handle_additional (user_choices : dict bool)
    (adds : dict AddInfo) (final_packages : list string) : list string :=
  fold_left
    (fun final pkg =>
       if get_default pkg false user_choices
       then (final ++ [pkg])%list else final)
    (keys adds) final_packages.

(** [final_packages] before the removal of duplicates. *)
Definition collect (recommendations : Recommendations)
    (user_choices : dict bool) : list string :=
  handle_additional user_choices (additional recommendations)
    (handle_alternatives user_choices (alternatives recommendations)
       (approved_packages recommendations)).

(** [RecommenderAgent.build_final_package_list] *)
Definition build_final_package_list (recommendations : Recommendations)
    (user_choices : dict bool) : list string :=
  unique (collect recommendations user_choices).

Section Agent.

Variable search_repositories : string -> string -> Z -> list GitHub.GitHubRepo.
Variable analyze_repo_dependencies : string -> GitHub.Dependencies.
Variable set_iter : list string -> list string.
Variable system_prompt : string.
Variable llm_invoke : string -> string -> result string.
Variable fetch_info : string -> option PyPI.PackageInfo.

(** Whether [project_description and project_description.strip()] holds. *)
Definition researches (project_description : option string) : bool :=
  match project_description with
  | Some d => truthy d && truthy (strip d)
  | None => false
  end.

Definition is_truthy (project_description : option string) : bool :=
  match project_description with
  | Some d => truthy d
  | None => false
  end.

(** [github_result], bound only when the research ran. *)
Definition github_result_of (project_description : option string)
  : option GitHub.Research :=
  match project_description with
  | Some d =>
      if researches project_description
      then Some (GitHub.research_similar_projects
                   search_repositories analyze_repo_dependencies set_iter d 5)
      else None
  | None => None
  end.

Definition decorate_alternatives (descriptions : dict string)
    (alts : dict Analyzer.AltParsed) : dict AltInfo :=
  fold_left
    (fun acc item =>
       let original := fst item in
       let alt_pkg := Analyzer.alternative (snd item) in
       PyDict.set original
         {| alternative := alt_pkg;
            reason := Analyzer.reason (snd item);
            description :=
              get_default alt_pkg PyPI.no_description descriptions |}
         acc)
    alts [].

Definition decorate_additional (descriptions : dict string)
    (adds : dict string) : dict AddInfo :=
  fold_left
    (fun acc item =>
       let pkg := fst item in
       PyDict.set pkg
         {| add_reason := snd item;
            add_description :=
              get_default pkg PyPI.no_description descriptions |}
         acc)
    adds [].

(** [github_packages] when the language model is called. *)
Definition github_packages_of (project_description : option string)
  : list string :=
  match github_result_of project_description with
  | Some r =>
      if GitHub.success r then map GitHub.package (GitHub.packages r)
      else []
  | None => []
  end.

(** [project_description or ""] *)
Definition or_empty (project_description : option string) : string :=
  match project_description with
  | Some d => d
  | None => ""
  end.

(** [RecommenderAgent.generate_recommendations].  The last branch reads
    [github_result] whenever [project_description] is truthy, and that
    variable is unbound when the description is blank. *)
Definition generate_recommendations (user_packages : list string)
    (project_description : option string) : result Recommendations :=
  let github_result := github_result_of project_description in
  let github_packages := github_packages_of project_description in
  let llm_analysis :=
    Analyzer.analyze_with_llm system_prompt llm_invoke user_packages
      (or_empty project_description) github_packages in
  if negb (Analyzer.success llm_analysis) then
    Return {| success := true;
              final_packages := Some user_packages;
              has_suggestions := false;
              approved_packages := user_packages;
              alternatives := [];
              additional := [];
              error := Analyzer.error llm_analysis;
              message := None;
              github_insights := None |}
  else
    let parsed :=
      Analyzer.parse_llm_recommendations (Analyzer.analysis llm_analysis)
        user_packages in
    let has_alternatives :=
      negb (Analyzer.is_empty (Analyzer.alternative_suggestions parsed)) in
    let has_additional :=
      negb (Analyzer.is_empty (Analyzer.additional_packages parsed)) in
    if negb (has_alternatives || has_additional) then
      Return {| success := true;
                final_packages := Some user_packages;
                has_suggestions := false;
                approved_packages := user_packages;
                alternatives := [];
                additional := [];
                error := None;
                message :=
                  Some "No better alternatives found. Proceeding with your packages.";
                github_insights := None |}
    else
      let all_suggested_packages :=
        (map Analyzer.alternative
             (values (Analyzer.alternative_suggestions parsed))
         ++ keys (Analyzer.additional_packages parsed))%list in
      let descriptions :=
        Analyzer.get_package_descriptions fetch_info all_suggested_packages in
      let alternatives_with_desc :=
        decorate_alternatives descriptions
          (Analyzer.alternative_suggestions parsed) in
      let additional_with_desc :=
        decorate_additional descriptions
          (Analyzer.additional_packages parsed) in
      let finish (analyzed : nat) :=
        Return {| success := true;
                  final_packages := None;
                  has_suggestions := true;
                  approved_packages := Analyzer.approved_packages parsed;
                  alternatives := alternatives_with_desc;
                  additional := additional_with_desc;
                  error := None;
                  message := None;
                  github_insights :=
                    Some {| packages_found := firstn 5 github_packages;
                            insight_repos_analyzed := analyzed |} |} in
      if is_truthy project_description then
        match github_result with
        | Some r => finish (GitHub.repos_analyzed r)
        | None => Raise "UnboundLocalError"
        end
      else finish 0.

End Agent.

End Recommender.

(** ** main.py *)

Module Main.

Import Recommender.

(** The loop over [recommendations.get("alternatives", {}).items()]. *)
Definition handle_alternatives (choices : dict bool)
    (alts : dict AltInfo) (final_packages : list string) : list string :=
  fold_left
    (fun final item =>
       let original := fst item in
       let alt_pkg := alternative (snd item) in
       if get_default alt_pkg false choices
       then (final ++ [alt_pkg])%list
       else if mem original final then final
            else (final ++ [original])%list)
    alts final_packages.

(** The loop over [recommendations.get("additional", {}).keys()]. *)
Definition handle_additional (choices : dict bool)
    (adds : dict AddInfo) (final_packages : list string) : list string :=
  fold_left
    (fun final pkg =>
       if get_default pkg false choices
       then (final ++ [pkg])%list else final)
    (keys adds) final_packages.

(** [final_packages] before the fallback. *)
Definition selected (recommendations : Recommendations)
    (choices : dict bool) : list string :=
  handle_additional choices (additional recommendations)
    (handle_alternatives choices (alternatives recommendations)
       (approved_packages recommendations)).

(** The loop that removes duplicates. *)
Fixpoint unique_from (seen : list string) (final_packages : list string)
  : list string :=
  match final_packages with
  | [] => []
  | pkg :: rest =>
      if mem pkg seen then unique_from seen rest
      else pkg :: unique_from (pkg :: seen) rest
  end.

(** [build_final_package_list] of the command line front end; the record
    always carries the keys that the source reads with
    [recommendations.get]. *)
Definition build_final_package_list (recommendations : Recommendations)
    (choices : dict bool) (user_packages : list string) : list string :=
  let final_packages := selected recommendations choices in
  let final_packages :=
    if Analyzer.is_empty final_packages
       && negb (Analyzer.is_empty user_packages)
    then user_packages
    else final_packages in
  unique_from [] final_packages.

Section Prompt.

(** [console.print(text)]: [None] when the text is printed, the text of
    the exception otherwise (the library parses the text as markup before
    it prints). *)
Variable console_print : string -> option string.

(** [Confirm.ask(question, default=True)], for the question that is asked
    as the n-th one: the answer, or the exception that the call raised
    (the library parses the question as markup too). *)
Variable confirm : nat -> string -> result bool.

Definition bind {A B : Type} (m : result A) (f : A -> result B) : result B :=
  match m with
  | Return a => f a
  | Raise e => Raise e
  end.

Definition print (text : string) : result unit :=
  match console_print text with
  | None => Return tt
  | Some e => Raise e
  end.

Definition select_heading : string :=
  nl ++ "[bold]Select packages to install:[/bold]" ++ nl.

Definition alternatives_heading : string :=
  "[yellow]Alternative Suggestions:[/yellow]".

Definition additional_heading : string :=
  nl ++ "[blue]Additional Packages:[/blue]".

Definition alternative_question (alt_pkg original : string) : string :=
  "Use [green]" ++ alt_pkg ++ "[/green] instead of [red]" ++ original
  ++ "[/red]?".

Definition additional_question (pkg : string) : string :=
  "Install [green]" ++ pkg ++ "[/green]?".

(** [choices[key] = Confirm.ask(question, default=True)], with the number
    of questions asked so far. *)
Definition ask (st : nat * dict bool) (key question : string)
  : result (nat * dict bool) :=
  match confirm (fst st) question with
  | Return answer => Return (S (fst st), PyDict.set key answer (snd st))
  | Raise e => Raise e
  end.

(** A loop of questions: it stops at the first call that raises. *)
Fixpoint ask_all {A : Type} (key question : A -> string) (l : list A)
    (st : nat * dict bool) : result (nat * dict bool) :=
  match l with
  | [] => Return st
  | x :: rest =>
      bind (ask st (key x) (question x)) (ask_all key question rest)
  end.

(** [get_user_choices] *)
Definition get_user_choices (recommendations : Recommendations)
  : result (dict bool) :=
  bind (print select_heading) (fun _ =>
  bind (if Analyzer.is_empty (alternatives recommendations)
        then Return (0, [])
        else
          bind (print alternatives_heading) (fun _ =>
          ask_all (fun item => alternative (snd item))
                  (fun item =>
                     alternative_question (alternative (snd item))
                       (fst item))
                  (alternatives recommendations) (0, [])))
       (fun asked =>
  bind (if Analyzer.is_empty (additional recommendations)
        then Return asked
        else
          bind (print additional_heading) (fun _ =>
          ask_all (fun pkg => pkg) additional_question
                  (keys (additional recommendations)) asked))
       (fun asked' => Return (snd asked')))).

End Prompt.

End Main.

(** ** agents/installer.py *)

Module Installer.

(** The outcome of one [subprocess.run]. *)
Inductive Run : Type :=
| Completed (returncode : Z) (stderr : string)
| TimeoutExpired
| OtherException (e : string).

(** An entry of [failed_packages]. *)
Record Failure : Type := {
  package : string;
  error : string
}.

(** The dictionary returned by [install_packages]; the handler around the
    loop is never entered, since the handlers inside catch every
    exception. *)
Record Installed : Type := {
  success : bool;
  message : string;
  installed_packages : list string;
  failed_packages : list Failure
}.



(** [str(n)] *)
Definition str_nat (n : nat) : string :=
  NilZero.string_of_uint (Nat.to_uint n).

Section Agent.

(** The n-th call of [uv pip install], for a package, a project path and
    an environment path. *)
Variable run_uv : nat -> string -> string -> string -> Run.

(** [str(Path(project_path) / "requirements.txt")] *)
Variable requirements_file : string -> string.

(** Opening and writing a file: [None] when it succeeds, the text of the
    exception otherwise. *)
Variable write_file : string -> string -> option string.

(** The local variables of the loop, with the number of calls so far. *)
Definition install_one (project_path venv_path : string)
    (st : nat * list string * list Failure) (pkg : string)
  : nat * list string * list Failure :=
  let '(n, installed, failed) := st in
  match run_uv n pkg project_path venv_path with
  | Completed returncode stderr =>
      if (returncode =? 0)%Z
      then (S n, (installed ++ [pkg])%list, failed)
      else (S n, installed,
            (failed ++ [{| package := pkg; error := stderr |}])%list)
  | TimeoutExpired =>
      (S n, installed,
       (failed ++ [{| package := pkg;
                      error := "Installation timeout (5 minutes exceeded)" |}])
       %list)
  | OtherException e =>
      (S n, installed, (failed ++ [{| package := pkg; error := e |}])%list)
  end.

(** [InstallerAgent.install_packages] *)
Definition install_packages (packages : list string)
    (project_path venv_path : string) : Installed :=
  match packages with
  | [] =>
      {| success := true; message := "No packages to install";
         installed_packages := []; failed_packages := [] |}
  | _ =>
      let '(_, installed, failed) :=
        fold_left (install_one project_path venv_path) packages (0, [], []) in
      {| success := (List.length failed =? 0)%nat;
         message :=
           "Successfully installed " ++ str_nat (List.length installed)
           ++ "/" ++ str_nat (List.length packages) ++ " packages";
         installed_packages := installed;
         failed_packages := failed |}
  end.

(** The text written by the loop of [generate_requirements_file]. *)
Definition requirements_text (packages : list string) : string :=
  fold_right (fun pkg text => pkg ++ nl ++ text) "" packages.



End Agent.

End Installer.

(** ** Statements about the resolution engine *)

Module ResolveSpec.

Import Recommender.

(** A recommendation with the given three parts, as the suggestions branch
    of [generate_recommendations] builds it. *)
Definition recommendation (approved : list string) (alts : dict AltInfo)
    (adds : dict AddInfo) : Recommendations :=
  {| success := true; final_packages := None; has_suggestions := true;
     approved_packages := approved; alternatives := alts;
     additional := adds; error := None; message := None;
     github_insights := None |}.

Definition alt (suggested why : string) : AltInfo :=
  {| alternative := suggested; reason := why; description := "" |}.

Definition add (why : string) : AddInfo :=
  {| add_reason := why; add_description := "" |}.

(** [approved=["numpy"]], [alternatives={"pandas": polars}]. *)
Definition numpy_pandas : Recommendations :=
  recommendation ["numpy"] [("pandas", alt "polars" "faster")] [].

(** The name an alternative entry contributes under the given choices. *)
Definition pick (choices : dict bool) (item : string * AltInfo) : string :=
  if get_default (alternative (snd item)) false choices
  then alternative (snd item) else fst item.

(** The other name of the entry. *)
Definition unpicked (choices : dict bool) (item : string * AltInfo)
  : string :=
  if get_default (alternative (snd item)) false choices
  then fst item else alternative (snd item).

(** [x] enters the list from the approved names, from an alternative entry
    or from an accepted additional key. *)
Definition sourced (rec : Recommendations) (choices : dict bool)
    (x : string) : Prop :=
  In x (approved_packages rec)
  \/ (exists item, In item (alternatives rec) /\ x = pick choices item)
  \/ (In x (keys (additional rec)) /\ get_default x false choices = true).

(** The claim that exactly one name of every alternative entry is in the
    result unless the original is an approved name, and that the result has
    no duplicates. *)
Definition exactly_one_of_each_pair (rec : Recommendations)
    (choices : dict bool) : Prop :=
  let res := build_final_package_list rec choices in
  NoDup res
  /\ forall original info,
       In (original, info) (alternatives rec) ->
       ~ In original (approved_packages rec) ->
       (In original res /\ ~ In (alternative info) res)
       \/ (~ In original res /\ In (alternative info) res).

(** [approved=["polars"]], [alternatives={"pandas": polars}]. *)
Definition polars_twice : Recommendations :=
  recommendation ["polars"] [("pandas", alt "polars" "faster")] [].

(** Nothing approved, no alternative, one additional suggestion. *)
Definition only_seaborn : Recommendations :=
  recommendation [] [] [("seaborn", add "plots")].

(** The claim that the front end falls back to [user_packages] itself. *)
Definition falls_back_verbatim (rec : Recommendations) (choices : dict bool)
    (user_packages : list string) : Prop :=
  Main.selected rec choices = [] ->
  user_packages <> [] ->
  Main.build_final_package_list rec choices user_packages = user_packages.

End ResolveSpec.

(** ** Statements about the parser *)

Module ParseSpec.

Import Analyzer.

(** The words of a name, separated by spaces. *)
Definition tokens (s : string) : list string :=
  filter truthy (split " " s).

(** The claim on a key of [additional]: no space, and neither "or" nor
    "and" among its words. *)
Definition free_of_or_and (k : string) : Prop :=
  contains " " k = false
  /\ ~ In "or" (tokens k) /\ ~ In "and" (tokens k).

(** What the guards of the ADDITIONAL branch establish for a key. *)
Definition passes_guards (k : string) : Prop :=
  contains " " k = false
  /\ contains " or " (lower k) = false
  /\ contains " and " (lower k) = false.

(** The answer of the fourth example of the specification. *)
Definition seaborn_text : string :=
  "APPROVE: numpy, pandas" ++ nl ++ "ADDITIONAL:" ++ nl
  ++ "- seaborn: useful for plotting" ++ nl
  ++ "- matplotlib or plotly: visualization".

(** An answer whose only additional bullet is named "or". *)
Definition or_text : string :=
  "ADDITIONAL:" ++ nl ++ "- or: either one".

(** An answer that names polars as a replacement and as an addition. *)
Definition polars_text : string :=
  "SUGGEST_ALTERNATIVES:" ++ nl
  ++ "- pandas: Better alternative is polars because it is faster" ++ nl
  ++ "ADDITIONAL:" ++ nl ++ "- polars: fast data frames".

(** A line that the loop ignores whatever the section is: it is neither
    an APPROVE line nor a bullet. *)
Definition plain_line (raw_line : string) : Prop :=
  startswith "APPROVE:" (strip raw_line) = false
  /\ startswith "-" (strip raw_line) = false.

(** The fallback result. *)
Definition all_approved (user_packages : list string) : Parsed :=
  {| approved_packages := user_packages;
     alternative_suggestions := [];
     additional_packages := [] |}.

(** What every iteration of the loop keeps: both dictionaries have
    distinct keys, and every key of [additional] passed the guards. *)
Definition loop_inv (st : Loop) : Prop :=
  wf (alternatives st) /\ wf (additional st)
  /\ Forall passes_guards (keys (additional st)).

(** No approved name, no alternative and no additional entry so far. *)
Definition nothing_found (st : Loop) : Prop :=
  approved st = [] /\ alternatives st = [] /\ additional st = [].

End ParseSpec.

(** ** Statements about the popularity ranking *)

Module RankingSpec.

Import GitHub.

(** The occurrence counts never increase along the ranking. *)
Definition non_increasing (ranking : list Popular) : Prop :=
  StronglySorted (fun p q => occurrences q <= occurrences p) ranking.

(** The name is a base package, whatever its letter case. *)
Definition denylisted (pkg : string) : Prop :=
  In (lower pkg) common_base.

Definition repo (full : string) : GitHubRepo :=
  {| name := full; full_name := full; description := None; stars := 0%Z;
     url := "" |}.

(** Project A declares requests and flask, project B requests, django and
    Pip. *)
Definition two_projects (full : string) : Dependencies :=
  if String.eqb full "A"
  then {| requirements_txt := ["requests"; "flask"]; pyproject_toml := [];
          source := full |}
  else {| requirements_txt := ["requests"; "Pip"];
          pyproject_toml := ["django"]; source := full |}.

(** The order on the items of [package_count] that the sort establishes. *)
Definition count_ge (a b : string * nat) : Prop := snd b <= snd a.

End RankingSpec.

(** ** Statements about the aggregator *)

Module AggregateSpec.

Import Recommender.

(** The suggested names of the alternatives of a recommendation. *)
Definition suggested_names (r : Recommendations) : list string :=
  map alternative (values (alternatives r)).

(** The claim that no name is both a suggested alternative and a key of
    [additional]. *)
Definition sections_disjoint (r : Recommendations) : Prop :=
  forall x, In x (suggested_names r) -> ~ In x (keys (additional r)).

(** The recommendation of the failure branch. *)
Definition failure_recommendation (user_packages : list string)
    (e : string) : Recommendations :=
  {| success := true;
     final_packages := Some user_packages;
     has_suggestions := false;
     approved_packages := user_packages;
     alternatives := [];
     additional := [];
     error := Some ("LLM analysis failed: " ++ e);
     message := None;
     github_insights := None |}.

(** Collaborators for concrete runs: a search that finds nothing, sets
    iterated in list order, a model that always gives the same answer or
    always fails, and a package index that knows no package or knows every
    package with an empty summary and a blank description. *)
Definition no_repos (query language : string) (max_results : Z)
  : list GitHub.GitHubRepo := [].

Definition no_deps (full : string) : GitHub.Dependencies :=
  {| GitHub.requirements_txt := []; GitHub.pyproject_toml := [];
     GitHub.source := full |}.

Definition list_order (l : list string) : list string := l.

Definition answers (text : string) (system user : string) : result string :=
  Return text.

Definition llm_down (system user : string) : result string :=
  Raise "connection refused".

Definition index_empty (package_name : string) : option PyPI.PackageInfo :=
  None.

Definition index_blank (package_name : string) : option PyPI.PackageInfo :=
  Some {| PyPI.name := package_name; PyPI.version := "1.0";
          PyPI.summary := ""; PyPI.description := "   ";
          PyPI.author := ""; PyPI.home_page := ""; PyPI.license := "" |}.

(** The descriptions fetched for the suggestions of a parsed answer. *)
Definition descriptions_of (fetch_info : string -> option PyPI.PackageInfo)
    (parsed : Analyzer.Parsed) : dict string :=
  Analyzer.get_package_descriptions fetch_info
    (map Analyzer.alternative
         (values (Analyzer.alternative_suggestions parsed))
     ++ keys (Analyzer.additional_packages parsed))%list.

(** The index has no description for the name: the lookup fails, or the
    summary and the description are both empty. *)
Definition has_no_description
    (index : string -> option PyPI.PackageInfo) (n : string) : Prop :=
  match index n with
  | None => True
  | Some info => PyPI.summary info = "" /\ PyPI.description info = ""
  end.

(** The claim that a suggested alternative without a description in the
    index carries the placeholder. *)
Definition placeholder_when_missing
    (index : string -> option PyPI.PackageInfo) (r : Recommendations)
  : Prop :=
  forall original info,
    In (original, info) (alternatives r) ->
    has_no_description index (alternative info) ->
    description info = PyPI.no_description.

(** What is shown of a description of the index when the summary is
    empty: its first 500 characters with every newline replaced by a space,
    stripped, and cut to 200 characters followed by three dots when longer. *)
Definition shortened (index_description : string) : string :=
  let desc := strip (replace nl " " (take 500 index_description)) in
  if (200 <? String.length desc)%nat then take 200 desc ++ "..." else desc.

(** The run of the aggregator on [polars_text] with an index that answers
    [index]. *)
Definition polars_run (index : string -> option PyPI.PackageInfo)
  : result Recommendations :=
  generate_recommendations no_repos no_deps list_order ""
    (answers ParseSpec.polars_text) index ["pandas"] None.

(** What [polars_run] returns when every attached description is [d]. *)
Definition polars_recommendation (d : string) : Recommendations :=
  {| success := true;
     final_packages := None;
     has_suggestions := true;
     approved_packages := [];
     alternatives :=
       [("pandas", {| alternative := "polars"; reason := "it is faster";
                      description := d |})];
     additional :=
       [("polars", {| add_reason := "fast data frames";
                      add_description := d |})];
     error := None;
     message := None;
     github_insights :=
       Some {| packages_found := []; insight_repos_analyzed := 0 |} |}.

End AggregateSpec.

(** ** Statements about the occurrence counts *)

Module CountSpec.

Import GitHub.

Section Counting.

Variable analyze_repo_dependencies : string -> Dependencies.
Variable set_iter : list string -> list string.

(** [package_count] after the loop over the repositories. *)
Definition package_count_of (repos : list GitHubRepo) : dict nat :=
  fold_left
    (fun pc repo =>
       let deps := analyze_repo_dependencies (full_name repo) in
       count_packages pc
         (set_iter (requirements_txt deps ++ pyproject_toml deps)%list))
    repos [].

(** The names a repository declares in either manifest. *)
Definition declared (repo : GitHubRepo) : list string :=
  (requirements_txt (analyze_repo_dependencies (full_name repo))
   ++ pyproject_toml (analyze_repo_dependencies (full_name repo)))%list.

(** The number of repositories that declare the package. *)
Definition declaring (pkg : string) (repos : list GitHubRepo) : nat :=
  List.length (filter (fun repo => mem pkg (declared repo)) repos).

End Counting.

(** Iteration over a set in the order of first occurrence. *)
Fixpoint first_seen (l : list string) : list string :=
  match l with
  | [] => []
  | x :: l' => x :: filter (fun y => negb (String.eqb y x)) (first_seen l')
  end.

End CountSpec.

(** ** Statements about package names *)

Module NameSpec.

Import Analyzer.

(** The characters of a string. *)
Definition chars (s : string) : list ascii := list_ascii_of_string s.

(** A name as the user types it: not empty, without white space and
    without comma. *)
Definition clean_name (p : string) : Prop :=
  p <> ""
  /\ Forall (fun c => is_space c = false /\ c <> ","%char) (chars p).

(** A name read from an APPROVE line. *)
Definition approved_name (p : string) : Prop :=
  p <> "" /\ strip p = p /\ contains "," p = false.

(** A key read from a bullet. *)
Definition bullet_key (k : string) : Prop :=
  strip k = k /\ contains ":" k = false.

(** The line opens one of the three sections. *)
Definition header_line (raw_line : string) : bool :=
  startswith "APPROVE:" (strip raw_line)
  || startswith "SUGGEST_ALTERNATIVES:" (strip raw_line)
  || startswith "ADDITIONAL:" (strip raw_line).

(** A character of [s] that is not white space. *)
Definition word_char (s : string) (c : ascii) : Prop :=
  is_space c = false /\ In c (chars s).

(** What the loop of the parser keeps for the names it collects. *)
Definition names_inv (st : Loop) : Prop :=
  Forall approved_name (approved st)
  /\ Forall bullet_key (keys (alternatives st))
  /\ Forall bullet_key (keys (additional st)).

(** No header was met and nothing was collected. *)
Definition before_headers (st : Loop) : Prop :=
  current_section st = SecNone /\ ParseSpec.nothing_found st.

End NameSpec.

(** ** Statements about the manifests *)

Module ManifestSpec.

Import GitHub.

(** [t] occurs in [s]. *)
Definition occurs_in (t s : string) : Prop :=
  exists x y, s = x ++ t ++ y.

(** A name read from requirements.txt: not empty, trimmed, without any of
    the four version operators that the parser cuts at, and not a comment. *)
Definition requirement_ok (p : string) : Prop :=
  p <> ""
  /\ strip p = p
  /\ contains "==" p = false /\ contains ">=" p = false
  /\ contains "<=" p = false /\ contains "~=" p = false
  /\ startswith "#" p = false.

(** A name read from the dependency array of pyproject.toml. *)
Definition array_name_ok (p : string) : Prop :=
  p <> "" /\ Forall (fun c => name_char c = true) (NameSpec.chars p).

(** A package name that holds no white space and no equals sign and does
    not start a comment. *)
Definition plain_requirement (p : string) : Prop :=
  p <> ""
  /\ Forall (fun c => is_space c = false /\ c <> "="%char) (NameSpec.chars p)
  /\ startswith "#" p = false.

(** Two entries of a dependency array, written as usual. *)
Definition two_entries (a b : string) : string :=
  String dq a ++ String dq ", " ++ String dq b ++ String dq "".

(** The line cut at the first of each of the four operators in turn. *)
Definition cut_four (line : string) : string :=
  fst (split_go "~=" 0
         (fst (split_go "<=" 0
                 (fst (split_go ">=" 0 (fst (split_go "==" 0 line))))))).

End ManifestSpec.

(** ** Statements about the questions of the front end *)

Module PromptSpec.

(** A console that prints every text. *)
Definition quiet_console (text : string) : option string := None.

(** A user who answers yes to every question. *)
Definition always_yes (n : nat) (question : string) : result bool :=
  Return true.

End PromptSpec.

(** * Properties *)

(** ** String primitives on concrete inputs *)

Example split_lines_example :
  split nl ("a" ++ nl ++ nl ++ "b") = ["a"; ""; "b"].
Proof. reflexivity. Qed.

Example split_marker_example :
  split "because" "x because y because z" = ["x "; " y "; " z"].
Proof. reflexivity. Qed.

Example split_empty_example : split "," "" = [""].
Proof. reflexivity. Qed.

Example replace_example :
  replace "APPROVE:" "" "APPROVE: a, APPROVE:b" = " a, b".
Proof. reflexivity. Qed.

Example cut_example :
  cut ":" "pandas: x: y" = Some ("pandas", " x: y").
Proof. reflexivity. Qed.

Example strip_example : strip "  a b  " = "a b".
Proof. reflexivity. Qed.

Example lower_example : lower "PiP" = "pip".
Proof. reflexivity. Qed.

(** ** Membership and dictionaries *)

Lemma mem_In (x : string) (xs : list string) : mem x xs = true <-> In x xs.
Proof.
  unfold mem. rewrite existsb_exists. split.
  - intros [y [Hy Heq]]. apply String.eqb_eq in Heq. now subst.
  - intros H. exists x. split; [assumption | apply String.eqb_refl].
Qed.

Lemma mem_not_In (x : string) (xs : list string) :
  mem x xs = false <-> ~ In x xs.
Proof.
  rewrite <- mem_In. destruct (mem x xs); split; congruence.
Qed.

Module DictFacts.

Section Facts.
Context {V : Type}.
Implicit Types (d : dict V) (k : string) (v : V).

Lemma get_set k k' v d :
  get k (PyDict.set k' v d) = if String.eqb k k' then Some v else get k d.
Proof.
  induction d as [| [k0 v0] d IH]; simpl.
  - reflexivity.
  - destruct (String.eqb k' k0) eqn:E'; simpl.
    + apply String.eqb_eq in E'. subst k0.
      destruct (String.eqb k k'); reflexivity.
    + rewrite IH. destruct (String.eqb k k0) eqn:E0; [| reflexivity].
      apply String.eqb_eq in E0. subst k0.
      destruct (String.eqb k k') eqn:E; [| reflexivity].
      apply String.eqb_eq in E. subst k'.
      rewrite String.eqb_refl in E'. discriminate.
Qed.

Lemma keys_set_In k v d : In k (keys d) -> keys (PyDict.set k v d) = keys d.
Proof.
  induction d as [| [k0 v0] d IH]; simpl; [tauto |].
  intros H. destruct (String.eqb k k0) eqn:E; simpl.
  - apply String.eqb_eq in E. now subst.
  - f_equal. apply IH. destruct H as [H | H]; [| assumption].
    subst k0. rewrite String.eqb_refl in E. discriminate.
Qed.

Lemma set_fresh k v d :
  ~ In k (keys d) -> PyDict.set k v d = (d ++ [(k, v)])%list.
Proof.
  induction d as [| [k0 v0] d IH]; simpl; [reflexivity |].
  intros H. destruct (String.eqb k k0) eqn:E.
  - apply String.eqb_eq in E. subst. tauto.
  - f_equal. apply IH. tauto.
Qed.

Lemma keys_set k v d :
  keys (PyDict.set k v d)
  = if mem k (keys d) then keys d else (keys d ++ [k])%list.
Proof.
  destruct (mem k (keys d)) eqn:E.
  - apply keys_set_In. now apply mem_In.
  - apply mem_not_In in E. rewrite set_fresh by assumption.
    unfold keys. now rewrite map_app.
Qed.

Lemma wf_set k v d : wf d -> wf (PyDict.set k v d).
Proof.
  unfold wf. rewrite keys_set. intros H.
  destruct (mem k (keys d)) eqn:E; [assumption |].
  apply mem_not_In in E.
  apply NoDup_app; [assumption | repeat constructor; simpl; tauto |].
  intros x Hx [<- | []]. tauto.
Qed.

Lemma get_None_keys k d : get k d = None <-> ~ In k (keys d).
Proof.
  induction d as [| [k0 v0] d IH]; simpl; [tauto |].
  destruct (String.eqb k k0) eqn:E.
  - apply String.eqb_eq in E. subst. split; [discriminate | tauto].
  - rewrite IH. apply String.eqb_neq in E. split; intros H; [| tauto].
    intros [H1 | H1]; [congruence | tauto].
Qed.

End Facts.

End DictFacts.

(** ** The resolution engine *)

Module ResolveFacts.

Import Recommender ResolveSpec.

Lemma get_default_set_absent (choices : dict bool) (name k : string) :
  get name choices = None ->
  get_default k false (PyDict.set name false choices)
  = get_default k false choices.
Proof.
  intros H. unfold get_default. rewrite DictFacts.get_set.
  destruct (String.eqb k name) eqn:E; [| reflexivity].
  apply String.eqb_eq in E. subst. now rewrite H.
Qed.

Lemma fold_left_ext {A B : Type} (f g : A -> B -> A) (l : list B) (a : A) :
  (forall x y, f x y = g x y) -> fold_left f l a = fold_left g l a.
Proof.
  intros H. revert a. induction l as [| y l IH]; intros a; simpl.
  - reflexivity.
  - rewrite H. apply IH.
Qed.

Lemma collect_ext (rec : Recommendations) (c1 c2 : dict bool) :
  (forall k, get_default k false c1 = get_default k false c2) ->
  collect rec c1 = collect rec c2.
Proof.
  intros H. unfold collect, handle_additional, handle_alternatives.
  rewrite (fold_left_ext _
             (fun final pkg =>
                if get_default pkg false c2
                then (final ++ [pkg])%list else final))
    by (intros; now rewrite H).
  f_equal. apply fold_left_ext. intros x y. now rewrite H.
Qed.

(** *** Removal of duplicates *)

Lemma unique_from_In (seen l : list string) (x : string) :
  In x (unique_from seen l) <-> In x l /\ ~ In x seen.
Proof.
  revert seen. induction l as [| y l IH]; intros seen; simpl; [tauto |].
  destruct (mem y seen) eqn:E.
  - apply mem_In in E. rewrite IH. split.
    + tauto.
    + intros [[-> | H] Hn]; tauto.
  - apply mem_not_In in E. simpl. rewrite IH. simpl.
    destruct (string_dec y x) as [-> | Hne]; [tauto |].
    split.
    + intros [H | H]; [congruence | tauto].
    + intros [[H | H] Hn]; [congruence |]. right. tauto.
Qed.

Lemma unique_from_NoDup (seen l : list string) :
  NoDup (unique_from seen l).
Proof.
  revert seen. induction l as [| y l IH]; intros seen; simpl.
  - constructor.
  - destruct (mem y seen); [apply IH |].
    constructor; [| apply IH].
    rewrite unique_from_In. simpl. tauto.
Qed.

Lemma unique_from_fixed (seen l : list string) :
  NoDup l -> (forall x, In x l -> ~ In x seen) -> unique_from seen l = l.
Proof.
  revert seen. induction l as [| y l IH]; intros seen Hnd Hs; simpl.
  - reflexivity.
  - inversion Hnd as [| ? ? Hy Hl]; subst.
    destruct (mem y seen) eqn:E.
    + apply mem_In in E. exfalso. apply (Hs y); simpl; tauto.
    + f_equal. apply IH; [assumption |].
      intros x Hx [<- | Hin]; [tauto |]. apply (Hs x); simpl; tauto.
Qed.

Lemma unique_In (l : list string) (x : string) : In x (unique l) <-> In x l.
Proof. unfold unique. rewrite unique_from_In. simpl. tauto. Qed.

Lemma unique_nil_inv (l : list string) : unique l = [] -> l = [].
Proof.
  destruct l as [| y l]; [reflexivity |].
  intros H. assert (Hin : In y (unique (y :: l)))
    by (apply unique_In; simpl; tauto).
  rewrite H in Hin. destruct Hin.
Qed.

(** *** Membership in the collected list *)

Lemma handle_alternatives_In (choices : dict bool) (alts : dict AltInfo)
    (final : list string) (x : string) :
  In x (handle_alternatives choices alts final)
  <-> In x final \/ exists item, In item alts /\ x = pick choices item.
Proof.
  unfold handle_alternatives. revert final.
  induction alts as [| item alts IH]; intros final; simpl.
  - split; [tauto | intros [H | [i [[] _]]]; exact H].
  - rewrite IH. unfold pick at 2.
    destruct (get_default (alternative (snd item)) false choices) eqn:E.
    + rewrite in_app_iff. simpl. split.
      * intros [[H | [H | []]] | [i [Hi Hx]]].
        -- tauto.
        -- right. exists item. split; [tauto |]. unfold pick. now rewrite E.
        -- right. exists i. tauto.
      * intros [H | [i [[Hi | Hi] Hx]]].
        -- tauto.
        -- subst i. unfold pick in Hx. rewrite E in Hx. left. right. left.
           now symmetry.
        -- right. exists i. tauto.
    + destruct (mem (fst item) final) eqn:M.
      * apply mem_In in M. split.
        -- intros [H | [i [Hi Hx]]]; [tauto |]. right. exists i. tauto.
        -- intros [H | [i [[Hi | Hi] Hx]]].
           ++ tauto.
           ++ subst i. unfold pick in Hx. rewrite E in Hx. subst x. tauto.
           ++ right. exists i. tauto.
      * rewrite in_app_iff. simpl. split.
        -- intros [[H | [H | []]] | [i [Hi Hx]]].
           ++ tauto.
           ++ right. exists item. split; [tauto |]. unfold pick.
              now rewrite E.
           ++ right. exists i. tauto.
        -- intros [H | [i [[Hi | Hi] Hx]]].
           ++ tauto.
           ++ subst i. unfold pick in Hx. rewrite E in Hx. left. right.
              left. now symmetry.
           ++ right. exists i. tauto.
Qed.

Lemma handle_additional_In (choices : dict bool) (adds : dict AddInfo)
    (final : list string) (x : string) :
  In x (handle_additional choices adds final)
  <-> In x final
      \/ (In x (keys adds) /\ get_default x false choices = true).
Proof.
  unfold handle_additional. generalize (keys adds) as ks. intros ks.
  revert final. induction ks as [| k ks IH]; intros final; simpl.
  - tauto.
  - rewrite IH. destruct (get_default k false choices) eqn:E.
    + rewrite in_app_iff. simpl. split.
      * intros [[H | [H | []]] | H]; [tauto | | tauto].
        subst k. tauto.
      * intros [H | [[H | H] Hc]]; [tauto | | tauto].
        subst k. tauto.
    + split; [tauto |].
      intros [H | [[H | H] Hc]]; [tauto | | tauto].
      subst k. congruence.
Qed.

Lemma collect_In (rec : Recommendations) (choices : dict bool) (x : string) :
  In x (collect rec choices) <-> sourced rec choices x.
Proof.
  unfold collect, sourced.
  rewrite handle_additional_In, handle_alternatives_In. tauto.
Qed.

Lemma build_In (rec : Recommendations) (choices : dict bool) (x : string) :
  In x (build_final_package_list rec choices) <-> sourced rec choices x.
Proof.
  unfold build_final_package_list. rewrite unique_In. apply collect_In.
Qed.

(** *** The front end's copy of the loops *)

Lemma main_unique_from (seen l : list string) :
  Main.unique_from seen l = unique_from seen l.
Proof.
  revert seen. induction l as [| y l IH]; intros seen; simpl.
  - reflexivity.
  - rewrite !IH. reflexivity.
Qed.

Lemma main_selected (rec : Recommendations) (choices : dict bool) :
  Main.selected rec choices = collect rec choices.
Proof. reflexivity. Qed.

Lemma main_build_unfold (rec : Recommendations) (choices : dict bool)
    (ups : list string) :
  Main.build_final_package_list rec choices ups
  = unique (if Analyzer.is_empty (collect rec choices)
               && negb (Analyzer.is_empty ups)
            then ups else collect rec choices).
Proof.
  unfold Main.build_final_package_list. rewrite main_unique_from.
  reflexivity.
Qed.

(** *** Claims *)

(** C1: with approved numpy and the alternative pandas to polars, accepting
    polars gives numpy, polars and an empty choice map gives numpy, pandas;
    in general a name that the choice map does not hold is treated as a
    rejected one: adding it with the value False changes no result. *)
Theorem resolve_absent_choice_is_reject :
  build_final_package_list numpy_pandas [("polars", true)]
  = ["numpy"; "polars"]
  /\ build_final_package_list numpy_pandas [] = ["numpy"; "pandas"]
  /\ forall (rec : Recommendations) (choices : dict bool) (name : string),
       get name choices = None ->
       build_final_package_list rec choices
       = build_final_package_list rec (PyDict.set name false choices).
Proof.
  split; [reflexivity |]. split; [reflexivity |].
  intros rec choices name H. unfold build_final_package_list. f_equal.
  apply collect_ext. intros k. symmetry.
  now apply get_default_set_absent.
Qed.

Lemma resolve_absent_choice_is_reject_witness :
  get "polars" ([] : dict bool) = None
  /\ build_final_package_list numpy_pandas []
     = build_final_package_list numpy_pandas [("polars", false)].
Proof.
  split; [reflexivity |].
  apply (proj2 (proj2 resolve_absent_choice_is_reject) numpy_pandas []
           "polars").
  reflexivity.
Defined.

(** C2, as the code has it: in the front end, when the user asked for at
    least one package the final list is never empty; when nothing was
    selected the final list is [user_packages] with later duplicates
    removed, which is [user_packages] itself when it has no duplicate. *)
Theorem front_end_fallback_deduplicates (rec : Recommendations)
    (choices : dict bool) (user_packages : list string) :
  user_packages <> [] ->
  Main.build_final_package_list rec choices user_packages <> []
  /\ (Main.selected rec choices = [] ->
      Main.build_final_package_list rec choices user_packages
      = Main.unique_from [] user_packages)
  /\ (Main.selected rec choices = [] ->
      NoDup user_packages ->
      Main.build_final_package_list rec choices user_packages
      = user_packages).
Proof.
  intros Hne. rewrite main_build_unfold, main_unique_from.
  change (Main.selected rec choices) with (collect rec choices).
  assert (Hups : Analyzer.is_empty user_packages = false)
    by (destruct user_packages; [congruence | reflexivity]).
  rewrite Hups. simpl negb. rewrite andb_true_r.
  split; [| split].
  - intros H. apply unique_nil_inv in H.
    destruct (collect rec choices) eqn:E; simpl in H; congruence.
  - intros ->. reflexivity.
  - intros -> Hnd. simpl. apply unique_from_fixed; [assumption |].
    intros x _ [].
Qed.

Lemma front_end_fallback_deduplicates_witness :
  Main.build_final_package_list only_seaborn [] ["numpy"; "numpy"] <> []
  /\ Main.build_final_package_list only_seaborn [] ["numpy"; "numpy"]
     = Main.unique_from [] ["numpy"; "numpy"].
Proof.
  assert (Hne : ["numpy"; "numpy"] <> ([] : list string)) by discriminate.
  pose proof (front_end_fallback_deduplicates only_seaborn []
                ["numpy"; "numpy"] Hne) as [H1 [H2 _]].
  split; [exact H1 | apply H2; reflexivity].
Defined.

(** C2 fails as stated: nothing is selected, the user asked for numpy
    twice, and the front end returns numpy once. *)
Lemma front_end_fallback_not_verbatim :
  Main.build_final_package_list only_seaborn [("seaborn", false)]
    ["numpy"; "numpy"]
  = ["numpy"]
  /\ ~ falls_back_verbatim only_seaborn [("seaborn", false)]
         ["numpy"; "numpy"].
Proof.
  split; [reflexivity |].
  intros H. unfold falls_back_verbatim in H.
  specialize (H eq_refl). discriminate H. discriminate.
Qed.

(** C3, as the code has it: the result has no duplicate; of every
    alternative entry the chosen name (the suggested one when accepted,
    the original otherwise) is in the result, and the other name is in the
    result exactly when it is an approved name, the chosen name of an
    alternative entry or an accepted additional key. *)
Theorem resolve_pair_membership (rec : Recommendations)
    (choices : dict bool) (item : string * AltInfo) :
  In item (alternatives rec) ->
  NoDup (build_final_package_list rec choices)
  /\ In (pick choices item) (build_final_package_list rec choices)
  /\ (In (unpicked choices item) (build_final_package_list rec choices)
      <-> sourced rec choices (unpicked choices item)).
Proof.
  intros Hin. split; [apply unique_from_NoDup |]. split.
  - apply build_In. right. left. exists item. tauto.
  - apply build_In.
Qed.

Lemma resolve_pair_membership_witness :
  NoDup (build_final_package_list numpy_pandas [("polars", true)])
  /\ In "polars" (build_final_package_list numpy_pandas [("polars", true)]).
Proof.
  assert (Hin : In ("pandas", alt "polars" "faster")
                   (alternatives numpy_pandas)) by (simpl; tauto).
  pose proof (resolve_pair_membership numpy_pandas [("polars", true)]
                ("pandas", alt "polars" "faster") Hin) as [H1 [H2 _]].
  split; [exact H1 | exact H2].
Defined.

(** C3 fails as stated: polars is approved, the replacement of pandas by
    polars is rejected, and both names of the entry are in the result
    although pandas is not an approved name. *)
Lemma resolve_pair_both_present :
  build_final_package_list polars_twice [("polars", false)]
  = ["polars"; "pandas"]
  /\ ~ exactly_one_of_each_pair polars_twice [("polars", false)].
Proof.
  split; [reflexivity |].
  intros [_ H].
  destruct (H "pandas" (alt "polars" "faster")) as [[_ Hn] | [Hn _]].
  - simpl. tauto.
  - simpl. intros [E | []]. discriminate E.
  - apply Hn. simpl. tauto.
  - apply Hn. simpl. tauto.
Qed.

(** C10, as the code has it: the front end and the agent return the same
    list whenever the selection is not empty or the user asked for
    nothing. *)
Theorem front_end_agrees_with_agent (rec : Recommendations)
    (choices : dict bool) (user_packages : list string) :
  collect rec choices <> [] \/ user_packages = [] ->
  Main.build_final_package_list rec choices user_packages
  = build_final_package_list rec choices.
Proof.
  intros H. rewrite main_build_unfold. unfold build_final_package_list.
  destruct H as [H | ->].
  - destruct (collect rec choices); [congruence | reflexivity].
  - simpl. rewrite andb_false_r. reflexivity.
Qed.

Lemma front_end_agrees_with_agent_witness :
  Main.build_final_package_list numpy_pandas [] ["pandas"]
  = build_final_package_list numpy_pandas [].
Proof.
  apply (front_end_agrees_with_agent numpy_pandas [] ["pandas"]).
  left. discriminate.
Defined.

(** Where the two differ: the agent returns the empty list, the front end
    the user's packages without duplicates. *)
Lemma front_end_differs_from_agent (rec : Recommendations)
    (choices : dict bool) (user_packages : list string) :
  collect rec choices = [] ->
  user_packages <> [] ->
  build_final_package_list rec choices = []
  /\ Main.build_final_package_list rec choices user_packages
     = unique user_packages.
Proof.
  intros Hc Hne. rewrite main_build_unfold. unfold build_final_package_list.
  rewrite Hc. split; [reflexivity |].
  destruct user_packages; [congruence | reflexivity].
Qed.

(** C10 fails as stated: with one rejected additional suggestion and the
    user package numpy, the agent returns the empty list and the front end
    returns numpy. *)
Lemma front_end_and_agent_disagree :
  build_final_package_list only_seaborn [("seaborn", false)] = []
  /\ Main.build_final_package_list only_seaborn [("seaborn", false)]
       ["numpy"]
     = ["numpy"].
Proof. split; reflexivity. Qed.

End ResolveFacts.

(** ** The recommendation parser *)

Module ParseFacts.

Import Analyzer ParseSpec.

Ltac case_if :=
  match goal with
  | |- context [if ?b then _ else _] => destruct b eqn:?
  end.

(** *** Invariants of the loop *)

Lemma loop_inv_init : loop_inv loop_init.
Proof. repeat split; simpl; constructor. Qed.

Lemma Forall_keys_set (P : string -> Prop) (k v : string) (d : dict string) :
  P k -> Forall P (keys d) -> Forall P (keys (PyDict.set k v d)).
Proof.
  intros Hk Hd. rewrite DictFacts.keys_set.
  destruct (mem k (keys d)); [assumption |].
  apply Forall_app. split; [assumption | now constructor].
Qed.

Lemma alternative_bullet_inv (content : string) (st : Loop) :
  loop_inv st -> loop_inv (alternative_bullet content st).
Proof.
  intros (Ha & Hb & Hc). unfold alternative_bullet.
  destruct (cut ":" content) as [[part0 part1] |]; [| repeat split; assumption].
  case_if; [| repeat split; assumption].
  repeat split; simpl; try assumption. now apply DictFacts.wf_set.
Qed.

Lemma additional_bullet_inv (content : string) (st : Loop) :
  loop_inv st -> loop_inv (additional_bullet content st).
Proof.
  intros (Ha & Hb & Hc). unfold additional_bullet.
  destruct (cut ":" content) as [[part0 part1] |]; [| repeat split; assumption].
  destruct (contains " or " (lower (strip part0))
            || contains " and " (lower (strip part0))) eqn:Hw;
    [repeat split; assumption |].
  destruct (contains " " (strip part0)) eqn:Hs;
    [repeat split; assumption |].
  apply orb_false_iff in Hw. destruct Hw as [Hor Hand].
  repeat split; simpl; try assumption.
  - now apply DictFacts.wf_set.
  - apply Forall_keys_set; [| assumption]. repeat split; assumption.
Qed.

Lemma parse_line_inv (st : Loop) (raw_line : string) :
  loop_inv st -> loop_inv (parse_line st raw_line).
Proof.
  intros H. pose proof H as (Ha & Hb & Hc). unfold parse_line.
  repeat case_if; try (repeat split; simpl; assumption).
  destruct (current_section st);
    auto using alternative_bullet_inv, additional_bullet_inv.
Qed.

Lemma fold_parse_line_inv (lines : list string) (st : Loop) :
  loop_inv st -> loop_inv (fold_left parse_line lines st).
Proof.
  revert st. induction lines as [| l lines IH]; intros st H; simpl.
  - assumption.
  - apply IH. now apply parse_line_inv.
Qed.

Lemma parse_lines_inv (llm_response : string) :
  loop_inv (parse_lines llm_response).
Proof. apply fold_parse_line_inv, loop_inv_init. Qed.

(** *** Answers without structure *)

Lemma parse_line_plain (st : Loop) (raw_line : string) :
  plain_line raw_line -> nothing_found st ->
  nothing_found (parse_line st raw_line).
Proof.
  intros [H1 H2] H. unfold parse_line. rewrite H1, H2. simpl.
  repeat case_if; exact H.
Qed.

Lemma parse_lines_plain (llm_response : string) :
  Forall plain_line (split nl llm_response) ->
  nothing_found (parse_lines llm_response).
Proof.
  unfold parse_lines.
  assert (G : forall lines st, Forall plain_line lines -> nothing_found st ->
                               nothing_found (fold_left parse_line lines st)).
  { induction lines as [| l lines IH]; intros st Hl Hst; simpl.
    - assumption.
    - inversion Hl; subst. apply IH; [assumption |].
      now apply parse_line_plain. }
  intros H. apply G; [assumption |]. repeat split.
Qed.

(** *** Claims *)

(** C4: when the loop recognised no approved name, no alternative and no
    additional entry, the parser returns the user's packages as approved
    with empty alternatives and additional; the empty answer with the
    packages numpy and pandas is such a case. *)
Theorem parse_without_structure_approves_user_packages
    (llm_response : string) (user_packages : list string) :
  approved (parse_lines llm_response) = [] ->
  alternatives (parse_lines llm_response) = [] ->
  additional (parse_lines llm_response) = [] ->
  parse_llm_recommendations llm_response user_packages
  = all_approved user_packages
  /\ parse_llm_recommendations "" ["numpy"; "pandas"]
     = all_approved ["numpy"; "pandas"].
Proof.
  intros Ha Hb Hc. split; [| reflexivity].
  unfold parse_llm_recommendations, all_approved.
  rewrite Ha, Hb, Hc. reflexivity.
Qed.

Lemma parse_without_structure_approves_user_packages_witness :
  parse_llm_recommendations "I cannot help with that." ["numpy"; "pandas"]
  = all_approved ["numpy"; "pandas"].
Proof.
  apply (parse_without_structure_approves_user_packages
           "I cannot help with that." ["numpy"; "pandas"]); reflexivity.
Defined.

(** An answer made of plain lines only is a case of C4. *)
Lemma parse_plain_answer (llm_response : string)
    (user_packages : list string) :
  Forall plain_line (split nl llm_response) ->
  parse_llm_recommendations llm_response user_packages
  = all_approved user_packages.
Proof.
  intros H. apply parse_lines_plain in H. destruct H as (Ha & Hb & Hc).
  unfold parse_llm_recommendations, all_approved.
  rewrite Ha, Hb, Hc. reflexivity.
Qed.

(** C5, as the code has it: no key of the additional map holds a space, so
    none holds " or " or " and " in any letter case; a bullet whose name
    before the colon holds a space is dropped, as the line "matplotlib or
    plotly" of the example is. *)
Theorem additional_keys_hold_no_space (llm_response : string)
    (user_packages : list string) :
  Forall passes_guards
    (keys (additional_packages
             (parse_llm_recommendations llm_response user_packages)))
  /\ parse_llm_recommendations seaborn_text []
     = {| approved_packages := ["numpy"; "pandas"];
          alternative_suggestions := [];
          additional_packages := [("seaborn", "useful for plotting")] |}
  /\ forall (content part0 part1 : string) (st : Loop),
       cut ":" content = Some (part0, part1) ->
       contains " " (strip part0) = true ->
       additional_bullet content st = st.
Proof.
  split; [| split].
  - apply parse_lines_inv.
  - reflexivity.
  - intros content part0 part1 st Hcut Hsp. unfold additional_bullet.
    rewrite Hcut, Hsp. now case_if.
Qed.

Lemma additional_keys_hold_no_space_witness :
  additional_bullet "matplotlib or plotly: visualization" loop_init
  = loop_init.
Proof.
  apply (proj2 (proj2 (additional_keys_hold_no_space "" []))
           "matplotlib or plotly: visualization" "matplotlib or plotly"
           " visualization" loop_init); reflexivity.
Defined.

(** C5 fails as stated: a bullet named exactly "or" is kept as a key. *)
Lemma additional_key_may_be_or :
  additional_packages (parse_llm_recommendations or_text [])
  = [("or", "either one")]
  /\ ~ Forall free_of_or_and
         (keys (additional_packages (parse_llm_recommendations or_text []))).
Proof.
  split; [reflexivity |].
  intros H. inversion H as [| k ks [_ [Hor _]] _]; subst.
  apply Hor. simpl. tauto.
Qed.

End ParseFacts.

(** ** The popularity ranking *)

Module RankingFacts.

Import GitHub RankingSpec.

Lemma insert_desc_In (x z : string * nat) (l : list (string * nat)) :
  In z (insert_desc x l) <-> z = x \/ In z l.
Proof.
  induction l as [| y l IH]; simpl.
  - intuition.
  - destruct (snd y <=? snd x)%nat; simpl; [intuition |].
    rewrite IH. intuition.
Qed.

Lemma insert_desc_sorted (x : string * nat) (l : list (string * nat)) :
  StronglySorted count_ge l -> StronglySorted count_ge (insert_desc x l).
Proof.
  induction l as [| y l IH]; intros Hs; simpl.
  - constructor; constructor.
  - inversion Hs as [| ? ? Hl Hy]; subst.
    destruct (snd y <=? snd x)%nat eqn:E.
    + apply Nat.leb_le in E. constructor; [assumption |].
      constructor; [exact E |].
      rewrite Forall_forall in Hy |- *. intros z Hz.
      specialize (Hy z Hz). unfold count_ge in *. lia.
    + apply Nat.leb_gt in E. constructor; [now apply IH |].
      rewrite Forall_forall in Hy |- *. intros z Hz.
      apply insert_desc_In in Hz. destruct Hz as [-> | Hz].
      * unfold count_ge. lia.
      * now apply Hy.
Qed.

Lemma sorted_desc_sorted (l : list (string * nat)) :
  StronglySorted count_ge (sorted_desc l).
Proof.
  induction l as [| x l IH]; simpl.
  - constructor.
  - now apply insert_desc_sorted.
Qed.

Section Sublists.
Context {A : Type} (R : A -> A -> Prop).

Lemma firstn_incl (n : nat) (l : list A) (z : A) :
  In z (firstn n l) -> In z l.
Proof.
  revert n. induction l as [| x l IH]; intros n H.
  - now destruct n.
  - destruct n; simpl in H; [contradiction |].
    destruct H as [H | H]; [now left | right; eapply IH; exact H].
Qed.

Lemma sorted_firstn (n : nat) (l : list A) :
  StronglySorted R l -> StronglySorted R (firstn n l).
Proof.
  revert n. induction l as [| x l IH]; intros n Hs.
  - destruct n; constructor.
  - destruct n; simpl; [constructor |].
    inversion Hs as [| ? ? Hl Hx]; subst.
    constructor; [now apply IH |].
    rewrite Forall_forall in Hx |- *. intros z Hz. apply Hx.
    eapply firstn_incl. exact Hz.
Qed.

Lemma sorted_filter (f : A -> bool) (l : list A) :
  StronglySorted R l -> StronglySorted R (filter f l).
Proof.
  induction l as [| x l IH]; intros Hs; simpl.
  - constructor.
  - inversion Hs as [| ? ? Hl Hx]; subst.
    destruct (f x); [| now apply IH].
    constructor; [now apply IH |].
    rewrite Forall_forall in Hx |- *. intros z Hz.
    apply filter_In in Hz. now apply Hx.
Qed.

End Sublists.

Lemma sorted_slice_to (n : Z) (l : list (string * nat)) :
  StronglySorted count_ge l -> StronglySorted count_ge (slice_to n l).
Proof.
  intros H. unfold slice_to. destruct (n <? 0)%Z; now apply sorted_firstn.
Qed.

Lemma sorted_map_popular (l : list (string * nat)) :
  StronglySorted count_ge l ->
  non_increasing
    (map (fun pc => {| package := fst pc; occurrences := snd pc |}) l).
Proof.
  unfold non_increasing. induction l as [| x l IH]; intros Hs; simpl.
  - constructor.
  - inversion Hs as [| ? ? Hl Hx]; subst.
    constructor; [now apply IH |].
    rewrite Forall_forall in Hx |- *. intros z Hz.
    apply in_map_iff in Hz. destruct Hz as [y [<- Hy]]. simpl.
    now apply Hx.
Qed.

Section Server.

Variable search_repositories : string -> string -> Z -> list GitHubRepo.
Variable analyze_repo_dependencies : string -> Dependencies.
Variable set_iter : list string -> list string.

Lemma popular_packages_non_increasing (repos : list GitHubRepo)
    (top_n : Z) :
  non_increasing
    (get_popular_packages_from_repos analyze_repo_dependencies set_iter
       repos top_n).
Proof.
  unfold get_popular_packages_from_repos.
  apply sorted_map_popular, sorted_slice_to, sorted_desc_sorted.
Qed.

(** C6: the ranking that the research returns has occurrence counts that
    never increase along the sequence, and none of its package names is,
    in lower case, one of pip, setuptools, wheel and python. *)
Theorem ranking_sorted_without_base_packages
    (project_description : string) (max_repos : Z) :
  non_increasing
    (packages (research_similar_projects search_repositories
                 analyze_repo_dependencies set_iter project_description
                 max_repos))
  /\ Forall (fun pkg => ~ denylisted (package pkg))
       (packages (research_similar_projects search_repositories
                    analyze_repo_dependencies set_iter project_description
                    max_repos)).
Proof.
  unfold research_similar_projects.
  destruct (search_repositories project_description "Python" max_repos)
    as [| r repos] eqn:E; cbn [packages].
  - split; constructor.
  - split.
    + apply sorted_filter, popular_packages_non_increasing.
    + apply Forall_forall. intros pkg Hp. apply filter_In in Hp.
      destruct Hp as [_ Hp]. apply negb_true_iff, mem_not_In in Hp.
      exact Hp.
Qed.

End Server.

(** Two projects, with the sets iterated in list order: requests is counted
    twice and comes first, and Pip is filtered out. *)
Example two_projects_ranking :
  packages (research_similar_projects
              (fun _ _ _ => [repo "A"; repo "B"]) two_projects
              (fun l => l) "web" 5)
  = [ {| package := "requests"; occurrences := 2 |};
      {| package := "flask"; occurrences := 1 |};
      {| package := "django"; occurrences := 1 |} ].
Proof. reflexivity. Qed.

End RankingFacts.

(** ** The aggregator *)

Module AggregateFacts.

Import Recommender AggregateSpec.

(** *** Dictionaries built in a loop *)

Lemma fold_set_map {V W : Type} (f : string * V -> W) (d : dict V)
    (acc : dict W) :
  NoDup (keys acc ++ keys d) ->
  fold_left (fun acc item => PyDict.set (fst item) (f item) acc) d acc
  = (acc ++ map (fun item => (fst item, f item)) d)%list.
Proof.
  revert acc. induction d as [| item d IH]; intros acc Hnd; simpl.
  - now rewrite app_nil_r.
  - simpl in Hnd. pose proof (NoDup_remove_2 _ _ _ Hnd) as Hfresh.
    rewrite DictFacts.set_fresh
      by (intros Hin; apply Hfresh, in_or_app; now left).
    rewrite IH.
    + now rewrite <- app_assoc.
    + unfold keys at 1. rewrite map_app. simpl.
      rewrite <- app_assoc. exact Hnd.
Qed.

Lemma get_fold_set {V : Type} (f : string -> V) (l : list string)
    (d : dict V) (k : string) :
  get k (fold_left (fun d p => PyDict.set p (f p) d) l d)
  = if mem k l then Some (f k) else get k d.
Proof.
  revert d. induction l as [| p l IH]; intros d; simpl.
  - reflexivity.
  - rewrite IH, DictFacts.get_set.
    destruct (String.eqb k p) eqn:E; simpl.
    + apply String.eqb_eq in E. subst. now destruct (mem p l).
    + reflexivity.
Qed.

Section Agent.

Variable search_repositories : string -> string -> Z -> list GitHub.GitHubRepo.
Variable analyze_repo_dependencies : string -> GitHub.Dependencies.
Variable set_iter : list string -> list string.
Variable system_prompt : string.
Variable llm_invoke : string -> string -> result string.
Variable fetch_info : string -> option PyPI.PackageInfo.

Abbreviation generate :=
  (generate_recommendations search_repositories analyze_repo_dependencies
     set_iter system_prompt llm_invoke fetch_info).
Abbreviation prompt user_packages project_description :=
  (Analyzer.user_prompt user_packages (or_empty project_description)
     (github_packages_of search_repositories analyze_repo_dependencies
        set_iter project_description)).
Abbreviation describe := (PyPI.get_package_description fetch_info).

Lemma described (packages : list string) (k : string) :
  In k packages ->
  get_default k PyPI.no_description
    (Analyzer.get_package_descriptions fetch_info packages)
  = describe k.
Proof.
  intros H. unfold get_default, Analyzer.get_package_descriptions.
  rewrite (get_fold_set describe). apply mem_In in H. now rewrite H.
Qed.

Lemma decorate_alternatives_map (descriptions : dict string)
    (alts : dict Analyzer.AltParsed) :
  wf alts ->
  decorate_alternatives descriptions alts
  = map (fun item =>
           (fst item,
            {| alternative := Analyzer.alternative (snd item);
               reason := Analyzer.reason (snd item);
               description :=
                 get_default (Analyzer.alternative (snd item))
                   PyPI.no_description descriptions |}))
        alts.
Proof.
  intros H. unfold decorate_alternatives.
  now rewrite (fold_set_map
                 (fun item =>
                    {| alternative := Analyzer.alternative (snd item);
                       reason := Analyzer.reason (snd item);
                       description :=
                         get_default (Analyzer.alternative (snd item))
                           PyPI.no_description descriptions |})).
Qed.

Lemma decorate_additional_map (descriptions : dict string)
    (adds : dict string) :
  wf adds ->
  decorate_additional descriptions adds
  = map (fun item =>
           (fst item,
            {| add_reason := snd item;
               add_description :=
                 get_default (fst item) PyPI.no_description descriptions |}))
        adds.
Proof.
  intros H. unfold decorate_additional.
  now rewrite (fold_set_map
                 (fun item =>
                    {| add_reason := snd item;
                       add_description :=
                         get_default (fst item) PyPI.no_description
                           descriptions |})).
Qed.

(** The two shapes of a returned recommendation. *)
Lemma generate_shape (user_packages : list string)
    (project_description : option string) (r : Recommendations) :
  generate user_packages project_description = Return r ->
  (has_suggestions r = false /\ approved_packages r = user_packages
   /\ alternatives r = [] /\ additional r = [])
  \/ exists text,
       llm_invoke system_prompt (prompt user_packages project_description)
       = Return text
       /\ has_suggestions r = true
       /\ approved_packages r
          = Analyzer.approved_packages
              (Analyzer.parse_llm_recommendations text user_packages)
       /\ alternatives r
          = decorate_alternatives
              (descriptions_of fetch_info
                 (Analyzer.parse_llm_recommendations text user_packages))
              (Analyzer.alternative_suggestions
                 (Analyzer.parse_llm_recommendations text user_packages))
       /\ additional r
          = decorate_additional
              (descriptions_of fetch_info
                 (Analyzer.parse_llm_recommendations text user_packages))
              (Analyzer.additional_packages
                 (Analyzer.parse_llm_recommendations text user_packages)).
Proof.
  unfold generate_recommendations, Analyzer.analyze_with_llm.
  destruct (llm_invoke system_prompt (prompt user_packages project_description))
    as [text | e] eqn:E; cbn [Analyzer.success Analyzer.analysis negb].
  - destruct (negb (negb (Analyzer.is_empty
                 (Analyzer.alternative_suggestions
                    (Analyzer.parse_llm_recommendations text user_packages)))
              || negb (Analyzer.is_empty
                 (Analyzer.additional_packages
                    (Analyzer.parse_llm_recommendations text user_packages)))))
      eqn:Hs.
    + intros H. injection H as <-. left. repeat split.
    + intros H. right. exists text. split; [reflexivity |].
      destruct (is_truthy project_description).
      * destruct (github_result_of search_repositories
                    analyze_repo_dependencies set_iter project_description);
          [| discriminate].
        injection H as <-. repeat split.
      * injection H as <-. repeat split.
  - intros H. injection H as <-. left. repeat split.
Qed.

(** The aggregator returns unless the description is not empty and
    blank. *)
Lemma generate_returns (user_packages : list string)
    (project_description : option string) :
  is_truthy project_description = researches project_description ->
  exists r, generate user_packages project_description = Return r.
Proof.
  intros H. unfold generate_recommendations.
  case_eq (negb (Analyzer.success
                   (Analyzer.analyze_with_llm system_prompt llm_invoke
                      user_packages (or_empty project_description)
                      (github_packages_of search_repositories
                         analyze_repo_dependencies set_iter
                         project_description))));
    intros _; [eexists; reflexivity |].
  match goal with
  | |- context [if negb (?a || ?b) then _ else _] =>
      destruct (negb (a || b)); [eexists; reflexivity |]
  end.
  destruct (is_truthy project_description) eqn:T; [| eexists; reflexivity].
  unfold github_result_of. destruct project_description as [d |];
    [| discriminate T].
  rewrite <- H. eexists. reflexivity.
Qed.

Lemma parsed_wf (text : string) (user_packages : list string) :
  wf (Analyzer.alternative_suggestions
        (Analyzer.parse_llm_recommendations text user_packages))
  /\ wf (Analyzer.additional_packages
           (Analyzer.parse_llm_recommendations text user_packages)).
Proof.
  destruct (ParseFacts.parse_lines_inv text) as (Ha & Hb & _).
  split; assumption.
Qed.

(** *** Claims *)

(** C7: when the call of the language model fails, the aggregator returns
    a recommendation whose approved list is the user's packages, whose
    alternatives and additional maps are empty and whose error field holds
    the failure; it does not raise. *)
Theorem llm_failure_keeps_user_packages (user_packages : list string)
    (project_description : option string) (e : string) :
  llm_invoke system_prompt (prompt user_packages project_description)
  = Raise e ->
  generate user_packages project_description
  = Return (failure_recommendation user_packages e).
Proof.
  intros H. unfold generate_recommendations, Analyzer.analyze_with_llm.
  rewrite H. reflexivity.
Qed.

(** C8, as the code has it: in a returned recommendation the keys of the
    alternatives map are pairwise distinct and so are the keys of the
    additional map; when there are suggestions, both maps hold exactly the
    keys and suggested names that the parser read from the answer, with no
    reconciliation between the two sections. *)
Theorem recommendation_keeps_parsed_sections (user_packages : list string)
    (project_description : option string) (r : Recommendations) :
  generate user_packages project_description = Return r ->
  wf (alternatives r) /\ wf (additional r)
  /\ (has_suggestions r = true ->
      exists text,
        llm_invoke system_prompt (prompt user_packages project_description)
        = Return text
        /\ keys (alternatives r)
           = keys (Analyzer.alternative_suggestions
                     (Analyzer.parse_llm_recommendations text user_packages))
        /\ suggested_names r
           = map Analyzer.alternative
               (values (Analyzer.alternative_suggestions
                          (Analyzer.parse_llm_recommendations text
                             user_packages)))
        /\ keys (additional r)
           = keys (Analyzer.additional_packages
                     (Analyzer.parse_llm_recommendations text
                        user_packages))).
Proof.
  intros H. apply generate_shape in H.
  destruct H as [(Hs & _ & Ha & Hb) | (text & Hllm & Hs & _ & Ha & Hb)].
  - rewrite Ha, Hb, Hs. repeat split; try constructor. discriminate.
  - destruct (parsed_wf text user_packages) as [Wa Wb].
    assert (Ka : keys (alternatives r)
                 = keys (Analyzer.alternative_suggestions
                           (Analyzer.parse_llm_recommendations text
                              user_packages))).
    { rewrite Ha, decorate_alternatives_map by assumption.
      unfold keys. now rewrite map_map. }
    assert (Kb : keys (additional r)
                 = keys (Analyzer.additional_packages
                           (Analyzer.parse_llm_recommendations text
                              user_packages))).
    { rewrite Hb, decorate_additional_map by assumption.
      unfold keys. now rewrite map_map. }
    unfold wf. rewrite Ka, Kb.
    split; [exact Wa |]. split; [exact Wb |].
    intros _. exists text. split; [exact Hllm |]. split; [reflexivity |].
    split; [| reflexivity].
    unfold suggested_names, values.
    rewrite Ha, decorate_alternatives_map by assumption.
    now rewrite !map_map.
Qed.

(** C9, as the code has it: every suggested alternative and every key of
    additional in a returned recommendation carries what
    [get_package_description] gives for that name: the summary of the
    index when it is not empty; when the summary is empty and the
    description is not, the first 500 characters of the description with
    newlines replaced by spaces, stripped, and cut to 200 characters and
    three dots when longer; the placeholder "No description available"
    when both are empty; and "Package not found on PyPI" when
    [get_package_info] returns nothing. *)
Theorem attached_description_is_index_lookup (user_packages : list string)
    (project_description : option string) (r : Recommendations) :
  generate user_packages project_description = Return r ->
  Forall (fun item =>
            description (snd item) = describe (alternative (snd item)))
         (alternatives r)
  /\ Forall (fun item => add_description (snd item) = describe (fst item))
            (additional r)
  /\ (forall n info,
        fetch_info n = Some info -> PyPI.summary info <> "" ->
        describe n = PyPI.summary info)
  /\ (forall n info,
        fetch_info n = Some info -> PyPI.summary info = "" ->
        PyPI.description info <> "" ->
        describe n = shortened (PyPI.description info))
  /\ (forall n info,
        fetch_info n = Some info -> PyPI.summary info = "" ->
        PyPI.description info = "" ->
        describe n = PyPI.no_description)
  /\ (forall n, fetch_info n = None -> describe n = PyPI.not_found).
Proof.
  intros H. apply generate_shape in H.
  assert (Hcases :
    (forall n info,
        fetch_info n = Some info -> PyPI.summary info <> "" ->
        describe n = PyPI.summary info)
    /\ (forall n info,
        fetch_info n = Some info -> PyPI.summary info = "" ->
        PyPI.description info <> "" ->
        describe n = shortened (PyPI.description info))
    /\ (forall n info,
        fetch_info n = Some info -> PyPI.summary info = "" ->
        PyPI.description info = "" ->
        describe n = PyPI.no_description)
    /\ (forall n, fetch_info n = None -> describe n = PyPI.not_found)).
  { unfold PyPI.get_package_description, PyPI.get_package_info.
    split; [| split; [| split]].
    - intros n info Hn Hsum. rewrite Hn. simpl.
      destruct (PyPI.summary info); [congruence | reflexivity].
    - intros n info Hn Hsum Hdesc. rewrite Hn.
      cbn [PyPI.summary PyPI.description]. rewrite Hsum. cbn [truthy].
      destruct (PyPI.description info) as [| c d]; [congruence |].
      reflexivity.
    - intros n info Hn Hsum Hdesc. rewrite Hn. simpl.
      rewrite Hsum, Hdesc. reflexivity.
    - intros n Hn. now rewrite Hn. }
  destruct H as [(_ & _ & Ha & Hb) | (text & _ & _ & _ & Ha & Hb)].
  - rewrite Ha, Hb. split; [constructor |]. split; [constructor |].
    exact Hcases.
  - destruct (parsed_wf text user_packages) as [Wa Wb].
    rewrite Ha, Hb, decorate_alternatives_map, decorate_additional_map
      by assumption.
    split; [| split; [| exact Hcases]].
    + apply Forall_forall. intros item Hi. apply in_map_iff in Hi.
      destruct Hi as [[original parsed] [<- Hin]]. simpl.
      apply described, in_or_app. left.
      apply in_map_iff. exists parsed. split; [reflexivity |].
      apply in_map_iff. now exists (original, parsed).
    + apply Forall_forall. intros item Hi. apply in_map_iff in Hi.
      destruct Hi as [[pkg why] [<- Hin]]. simpl.
      apply described, in_or_app. right.
      apply in_map_iff. now exists (pkg, why).
Qed.

End Agent.

Example polars_run_not_found :
  polars_run index_empty = Return (polars_recommendation PyPI.not_found).
Proof. reflexivity. Qed.

(** A description of one space passes the first test of truth and fails
    the second: [github_result] is read unbound. *)
Example blank_description_raises :
  generate_recommendations no_repos no_deps list_order ""
    (answers ParseSpec.polars_text) index_empty ["pandas"] (Some " ")
  = Raise "UnboundLocalError".
Proof. reflexivity. Qed.

Example polars_run_blank :
  polars_run index_blank = Return (polars_recommendation "").
Proof. reflexivity. Qed.

Lemma llm_failure_keeps_user_packages_witness :
  generate_recommendations no_repos no_deps list_order "" llm_down
    index_empty ["numpy"] (Some "web app")
  = Return (failure_recommendation ["numpy"] "connection refused").
Proof.
  apply (llm_failure_keeps_user_packages no_repos no_deps list_order ""
           llm_down index_empty ["numpy"] (Some "web app")
           "connection refused").
  reflexivity.
Defined.

Lemma recommendation_keeps_parsed_sections_witness :
  wf (alternatives (polars_recommendation PyPI.not_found))
  /\ wf (additional (polars_recommendation PyPI.not_found)).
Proof.
  pose proof (recommendation_keeps_parsed_sections no_repos no_deps
                list_order "" (answers ParseSpec.polars_text) index_empty
                ["pandas"] None (polars_recommendation PyPI.not_found)
                polars_run_not_found) as [H1 [H2 _]].
  split; [exact H1 | exact H2].
Defined.

(** C8 fails as stated: the answer names polars as the replacement of
    pandas and as an additional package, and the returned recommendation
    holds polars in both maps. *)
Lemma polars_in_both_sections :
  polars_run index_empty = Return (polars_recommendation PyPI.not_found)
  /\ ~ sections_disjoint (polars_recommendation PyPI.not_found).
Proof.
  split; [reflexivity |].
  intros H. apply (H "polars"); simpl; tauto.
Qed.

Lemma attached_description_is_index_lookup_witness :
  Forall (fun item =>
            description (snd item)
            = PyPI.get_package_description index_empty
                (alternative (snd item)))
         (alternatives (polars_recommendation PyPI.not_found)).
Proof.
  pose proof (attached_description_is_index_lookup no_repos no_deps
                list_order "" (answers ParseSpec.polars_text) index_empty
                ["pandas"] None (polars_recommendation PyPI.not_found)
                polars_run_not_found) as [H _].
  exact H.
Defined.

(** C9 fails as stated: the index knows no package polars, and the
    suggestion carries "Package not found on PyPI", not the placeholder;
    with an index whose description of polars is blank the suggestion
    carries the empty text. *)
Lemma missing_description_not_placeholder :
  polars_run index_empty = Return (polars_recommendation PyPI.not_found)
  /\ ~ placeholder_when_missing index_empty
         (polars_recommendation PyPI.not_found)
  /\ polars_run index_blank = Return (polars_recommendation "").
Proof.
  split; [reflexivity |]. split; [| reflexivity].
  intros H.
  specialize (H "pandas"
                {| alternative := "polars"; reason := "it is faster";
                   description := PyPI.not_found |}).
  simpl in H. discriminate H; [tauto | exact I].
Qed.

End AggregateFacts.

(** ** More on the resolution engine *)

Module ResolveMore.

Import Recommender ResolveSpec ResolveFacts AggregateSpec.

(** *** The loop that removes duplicates *)

Lemma unique_from_ext (seen seen' l : list string) :
  (forall x, In x seen <-> In x seen') ->
  unique_from seen l = unique_from seen' l.
Proof.
  revert seen seen'. induction l as [| y l IH]; intros seen seen' H; simpl.
  - reflexivity.
  - assert (E : mem y seen = mem y seen').
    { destruct (mem y seen) eqn:M, (mem y seen') eqn:M'; try reflexivity.
      - apply mem_In in M. apply mem_not_In in M'. now apply H in M.
      - apply mem_In in M'. apply mem_not_In in M. now apply H in M'. }
    rewrite <- E. destruct (mem y seen).
    + now apply IH.
    + f_equal. apply IH. intros x. simpl. rewrite H. tauto.
Qed.

Lemma unique_from_app (seen l1 l2 : list string) :
  unique_from seen (l1 ++ l2)
  = (unique_from seen l1 ++ unique_from (l1 ++ seen) l2)%list.
Proof.
  revert seen. induction l1 as [| y l1 IH]; intros seen; simpl.
  - reflexivity.
  - destruct (mem y seen) eqn:M.
    + rewrite IH. f_equal. apply unique_from_ext. intros x. simpl.
      apply mem_In in M. rewrite !in_app_iff. split; [tauto |].
      intros [-> | H]; tauto.
    + simpl. f_equal. rewrite IH. f_equal. apply unique_from_ext.
      intros x. simpl. rewrite !in_app_iff. simpl. tauto.
Qed.

Lemma unique_skip_present (seen l1 l2 : list string) (o : string) :
  In o l1 ->
  unique_from seen (l1 ++ o :: l2) = unique_from seen (l1 ++ l2).
Proof.
  intros H. rewrite !unique_from_app. f_equal. simpl.
  assert (M : mem o (l1 ++ seen) = true)
    by (apply mem_In, in_or_app; now left).
  now rewrite M.
Qed.

(** *** The loops only append *)

Lemma handle_alternatives_appends (choices : dict bool)
    (alts : dict AltInfo) (final : list string) :
  exists rest, handle_alternatives choices alts final = (final ++ rest)%list.
Proof.
  unfold handle_alternatives. revert final.
  induction alts as [| item alts IH]; intros final; simpl.
  - exists []. now rewrite app_nil_r.
  - destruct (get_default (alternative (snd item)) false choices).
    + destruct (IH (final ++ [alternative (snd item)])%list) as [rest ->].
      exists (alternative (snd item) :: rest). now rewrite <- app_assoc.
    + destruct (mem (fst item) final).
      * apply IH.
      * destruct (IH (final ++ [fst item])%list) as [rest ->].
        exists (fst item :: rest). now rewrite <- app_assoc.
Qed.

Lemma handle_additional_appends (choices : dict bool)
    (adds : dict AddInfo) (final : list string) :
  exists rest, handle_additional choices adds final = (final ++ rest)%list.
Proof.
  unfold handle_additional. generalize (keys adds) as ks. intros ks.
  revert final. induction ks as [| k ks IH]; intros final; simpl.
  - exists []. now rewrite app_nil_r.
  - destruct (get_default k false choices).
    + destruct (IH (final ++ [k])%list) as [rest ->].
      exists (k :: rest). now rewrite <- app_assoc.
    + apply IH.
Qed.

(** X1: the list of the agent starts with the approved packages, without
    their duplicates and in their order; the names after them are not
    approved names. *)
Theorem approved_packages_come_first (rec : Recommendations)
    (choices : dict bool) :
  exists rest,
    build_final_package_list rec choices
    = (unique (approved_packages rec) ++ rest)%list
    /\ forall x, In x rest -> ~ In x (approved_packages rec).
Proof.
  unfold build_final_package_list, collect.
  destruct (handle_alternatives_appends choices (alternatives rec)
              (approved_packages rec)) as [r1 ->].
  destruct (handle_additional_appends choices (additional rec)
              (approved_packages rec ++ r1)) as [r2 ->].
  rewrite <- app_assoc. unfold unique. rewrite unique_from_app.
  eexists. split; [reflexivity |].
  intros x Hx. apply unique_from_In in Hx. destruct Hx as [_ Hn].
  intros Hin. apply Hn, in_or_app. now left.
Qed.

(** *** Every suggestion rejected, every suggestion accepted *)

Lemma reject_alternatives (choices : dict bool) (alts : dict AltInfo)
    (final : list string) :
  Forall (fun item => get_default (alternative (snd item)) false choices
                      = false) alts ->
  unique (handle_alternatives choices alts final)
  = unique (final ++ keys alts).
Proof.
  unfold handle_alternatives. revert final.
  induction alts as [| item alts IH]; intros final H; simpl.
  - now rewrite app_nil_r.
  - inversion H as [| ? ? Hi Hr]; subst. rewrite Hi.
    destruct (mem (fst item) final) eqn:M.
    + rewrite IH by assumption. unfold unique. symmetry.
      apply unique_skip_present. now apply mem_In.
    + rewrite IH by assumption. now rewrite <- app_assoc.
Qed.

Lemma pass_additional (choices : dict bool) (adds : dict AddInfo)
    (final : list string) (b : bool) :
  Forall (fun k => get_default k false choices = b) (keys adds) ->
  handle_additional choices adds final
  = if b then (final ++ keys adds)%list else final.
Proof.
  unfold handle_additional. generalize (keys adds) as ks. intros ks.
  revert final. induction ks as [| k ks IH]; intros final H; simpl.
  - destruct b; [now rewrite app_nil_r | reflexivity].
  - inversion H as [| ? ? Hk Hr]; subst. rewrite IH by assumption.
    destruct (get_default k false choices); [| reflexivity].
    now rewrite <- app_assoc.
Qed.

Lemma accept_alternatives (choices : dict bool) (alts : dict AltInfo)
    (final : list string) :
  Forall (fun item => get_default (alternative (snd item)) false choices
                      = true) alts ->
  handle_alternatives choices alts final
  = (final ++ map alternative (values alts))%list.
Proof.
  unfold handle_alternatives. revert final.
  induction alts as [| item alts IH]; intros final H; simpl.
  - now rewrite app_nil_r.
  - inversion H as [| ? ? Hi Hr]; subst. rewrite Hi.
    rewrite IH by assumption. now rewrite <- app_assoc.
Qed.

Lemma Forall_suggested (P : string -> Prop) (alts : dict AltInfo) :
  Forall P (map alternative (values alts)) ->
  Forall (fun item => P (alternative (snd item))) alts.
Proof.
  unfold values. rewrite map_map. intros H.
  apply Forall_forall. intros item Hi.
  rewrite Forall_forall in H. apply H.
  apply in_map_iff. now exists item.
Qed.

(** X2: when every suggested alternative and every additional package is
    rejected, the agent returns the approved packages followed by the
    original names of the alternatives, without duplicates. *)
Theorem all_rejected_keeps_originals (rec : Recommendations)
    (choices : dict bool) :
  Forall (fun k => get_default k false choices = false)
         (suggested_names rec ++ keys (additional rec)) ->
  build_final_package_list rec choices
  = unique (approved_packages rec ++ keys (alternatives rec)).
Proof.
  intros H. apply Forall_app in H. destruct H as [Ha Hb].
  unfold build_final_package_list, collect.
  rewrite (pass_additional choices (additional rec) _ false Hb).
  apply reject_alternatives.
  now apply (Forall_suggested
               (fun k => get_default k false choices = false)).
Qed.

Lemma all_rejected_keeps_originals_witness :
  build_final_package_list numpy_pandas []
  = unique (approved_packages numpy_pandas ++ keys (alternatives numpy_pandas)).
Proof.
  apply (all_rejected_keeps_originals numpy_pandas []).
  repeat constructor.
Defined.

(** X3: when every suggested alternative and every additional package is
    accepted, the agent returns the approved packages, then the suggested
    names, then the additional packages, without duplicates; no original
    name is added. *)
Theorem all_accepted_takes_suggestions (rec : Recommendations)
    (choices : dict bool) :
  Forall (fun k => get_default k false choices = true)
         (suggested_names rec ++ keys (additional rec)) ->
  build_final_package_list rec choices
  = unique (approved_packages rec ++ suggested_names rec
            ++ keys (additional rec)).
Proof.
  intros H. apply Forall_app in H. destruct H as [Ha Hb].
  unfold build_final_package_list, collect.
  rewrite (pass_additional choices (additional rec) _ true Hb).
  rewrite accept_alternatives
    by now apply (Forall_suggested
                    (fun k => get_default k false choices = true)).
  now rewrite <- app_assoc.
Qed.

Lemma all_accepted_takes_suggestions_witness :
  build_final_package_list numpy_pandas [("polars", true)]
  = unique (approved_packages numpy_pandas ++ suggested_names numpy_pandas
            ++ keys (additional numpy_pandas)).
Proof.
  apply (all_accepted_takes_suggestions numpy_pandas [("polars", true)]).
  repeat constructor.
Defined.

(** X4: the list of the front end has no duplicate, and each of its names
    is an approved package, the original or the suggested name of an
    alternative, a key of additional or one of the user's packages. *)
Theorem front_end_names_come_from_inputs (rec : Recommendations)
    (choices : dict bool) (user_packages : list string) :
  NoDup (Main.build_final_package_list rec choices user_packages)
  /\ Forall (fun x =>
               In x (approved_packages rec)
               \/ In x (keys (alternatives rec))
               \/ In x (suggested_names rec)
               \/ In x (keys (additional rec))
               \/ In x user_packages)
            (Main.build_final_package_list rec choices user_packages).
Proof.
  rewrite main_build_unfold. split; [apply unique_from_NoDup |].
  apply Forall_forall. intros x Hx. cbv beta. rewrite unique_In in Hx.
  revert Hx.
  destruct (Analyzer.is_empty (collect rec choices)
            && negb (Analyzer.is_empty user_packages)); intros Hx;
    [tauto |].
  apply collect_In in Hx.
  destruct Hx as [H | [[item [Hi Hp]] | [H _]]]; [tauto | | tauto].
  unfold pick in Hp.
  destruct (get_default (alternative (snd item)) false choices); subst x.
  - right. right. left. unfold suggested_names, values.
    rewrite map_map. apply in_map_iff. now exists item.
  - right. left. apply in_map_iff. now exists item.
Qed.

End ResolveMore.

(** ** More on the aggregator *)

Module AggregateMore.

Import Recommender AggregateSpec AggregateFacts.

Section Agent.

Variable search_repositories : string -> string -> Z -> list GitHub.GitHubRepo.
Variable analyze_repo_dependencies : string -> GitHub.Dependencies.
Variable set_iter : list string -> list string.
Variable system_prompt : string.
Variable llm_invoke : string -> string -> result string.
Variable fetch_info : string -> option PyPI.PackageInfo.

Abbreviation generate :=
  (generate_recommendations search_repositories analyze_repo_dependencies
     set_iter system_prompt llm_invoke fetch_info).
Abbreviation prompt user_packages project_description :=
  (Analyzer.user_prompt user_packages (or_empty project_description)
     (github_packages_of search_repositories analyze_repo_dependencies
        set_iter project_description)).

Lemma decorate_alternatives_nil (descriptions : dict string)
    (alts : dict Analyzer.AltParsed) :
  Analyzer.is_empty (decorate_alternatives descriptions alts)
  = Analyzer.is_empty alts.
Proof.
  destruct alts as [| item alts]; [reflexivity |].
  unfold decorate_alternatives. simpl.
  match goal with
  | |- Analyzer.is_empty (fold_left ?f alts ?acc) = false =>
      assert (G : forall l a, Analyzer.is_empty a = false ->
                              Analyzer.is_empty (fold_left f l a) = false)
  end.
  { induction l as [| x l IH]; intros a Ha; simpl; [assumption |].
    apply IH. destruct a as [| [k v] a]; [discriminate |].
    simpl. now destruct (String.eqb (fst x) k). }
  now apply G.
Qed.

Lemma decorate_additional_nil (descriptions : dict string)
    (adds : dict string) :
  Analyzer.is_empty (decorate_additional descriptions adds)
  = Analyzer.is_empty adds.
Proof.
  destruct adds as [| item adds]; [reflexivity |].
  unfold decorate_additional. simpl.
  match goal with
  | |- Analyzer.is_empty (fold_left ?f adds ?acc) = false =>
      assert (G : forall l a, Analyzer.is_empty a = false ->
                              Analyzer.is_empty (fold_left f l a) = false)
  end.
  { induction l as [| x l IH]; intros a Ha; simpl; [assumption |].
    apply IH. destruct a as [| [k v] a]; [discriminate |].
    simpl. now destruct (String.eqb (fst x) k). }
  now apply G.
Qed.

(** X5: a returned recommendation always reports success; it has
    suggestions exactly when its alternatives or its additional map is not
    empty; without suggestions its approved packages and its final
    packages are the user's packages. *)
Theorem returned_recommendation_is_consistent (user_packages : list string)
    (project_description : option string) (r : Recommendations) :
  generate user_packages project_description = Return r ->
  success r = true
  /\ has_suggestions r
     = negb (Analyzer.is_empty (alternatives r))
       || negb (Analyzer.is_empty (additional r))
  /\ (has_suggestions r = false ->
      approved_packages r = user_packages
      /\ final_packages r = Some user_packages).
Proof.
  unfold generate_recommendations, Analyzer.analyze_with_llm.
  destruct (llm_invoke system_prompt (prompt user_packages project_description))
    as [text | e]; cbn [Analyzer.success Analyzer.analysis negb].
  - match goal with
    | |- context [if negb (?a || ?b) then _ else _] =>
        destruct (negb (a || b)) eqn:Hs
    end.
    + intros H. injection H as <-. repeat split.
    + apply negb_false_iff in Hs.
      assert (G : forall analyzed,
        Return
          {| success := true; final_packages := None;
             has_suggestions := true;
             approved_packages :=
               Analyzer.approved_packages
                 (Analyzer.parse_llm_recommendations text user_packages);
             alternatives :=
               decorate_alternatives
                 (descriptions_of fetch_info
                    (Analyzer.parse_llm_recommendations text user_packages))
                 (Analyzer.alternative_suggestions
                    (Analyzer.parse_llm_recommendations text user_packages));
             additional :=
               decorate_additional
                 (descriptions_of fetch_info
                    (Analyzer.parse_llm_recommendations text user_packages))
                 (Analyzer.additional_packages
                    (Analyzer.parse_llm_recommendations text user_packages));
             error := None; message := None;
             github_insights :=
               Some {| packages_found :=
                         firstn 5 (github_packages_of search_repositories
                                     analyze_repo_dependencies set_iter
                                     project_description);
                       insight_repos_analyzed := analyzed |} |}
        = Return r ->
        success r = true
        /\ has_suggestions r
           = negb (Analyzer.is_empty (alternatives r))
             || negb (Analyzer.is_empty (additional r))
        /\ (has_suggestions r = false ->
            approved_packages r = user_packages
            /\ final_packages r = Some user_packages)).
      { intros analyzed H. injection H as <-.
        cbn [success has_suggestions alternatives additional
             approved_packages final_packages].
        rewrite decorate_alternatives_nil, decorate_additional_nil.
        split; [reflexivity |].
        split; [symmetry; exact Hs | discriminate]. }
      destruct (is_truthy project_description).
      * destruct (github_result_of search_repositories
                    analyze_repo_dependencies set_iter project_description);
          [apply G | discriminate].
      * apply G.
  - intros H. injection H as <-. repeat split.
Qed.

(** X6: the aggregator raises exactly when the description is not empty
    but blank, the model answers and the answer holds a suggestion: the
    research did not run and its result is read. *)
Theorem raises_on_blank_description (user_packages : list string)
    (project_description : option string) (e : string) :
  generate user_packages project_description = Raise e
  <-> e = "UnboundLocalError"
      /\ is_truthy project_description = true
      /\ researches project_description = false
      /\ exists text,
           llm_invoke system_prompt
             (prompt user_packages project_description) = Return text
           /\ negb (Analyzer.is_empty
                      (Analyzer.alternative_suggestions
                         (Analyzer.parse_llm_recommendations text
                            user_packages)))
              || negb (Analyzer.is_empty
                         (Analyzer.additional_packages
                            (Analyzer.parse_llm_recommendations text
                               user_packages)))
              = true.
Proof.
  unfold generate_recommendations, Analyzer.analyze_with_llm.
  destruct (llm_invoke system_prompt (prompt user_packages project_description))
    as [text | e']; cbn [Analyzer.success Analyzer.analysis negb].
  - match goal with
    | |- context [if negb (?a || ?b) then _ else _] =>
        destruct (a || b) eqn:Hs
    end; cbn [negb].
    + destruct (is_truthy project_description) eqn:T.
      * unfold github_result_of.
        destruct project_description as [d |]; [| discriminate T].
        destruct (researches (Some d)) eqn:R.
        -- split; [discriminate |].
           intros (_ & _ & HR & _). discriminate HR.
        -- split.
           ++ intros H. injection H as <-. repeat split.
              exists text. split; [reflexivity | exact Hs].
           ++ intros (-> & _). reflexivity.
      * split; [discriminate |]. intros (_ & HT & _). discriminate HT.
    + split; [discriminate |].
      intros (_ & _ & _ & text' & Ht & Hs').
      injection Ht as <-. congruence.
  - split; [discriminate |].
    intros (_ & _ & _ & text' & Ht & _). discriminate Ht.
Qed.

End Agent.

(** X7: without a description, or with an empty or blank one, the
    aggregator does not use the repository search: its outcome is the same
    for any search, manifest analysis and set order, and the prompt lists
    no popular package. *)
Theorem no_description_no_research
    (search1 search2 : string -> string -> Z -> list GitHub.GitHubRepo)
    (analyze1 analyze2 : string -> GitHub.Dependencies)
    (iter1 iter2 : list string -> list string)
    (system_prompt : string) (llm_invoke : string -> string -> result string)
    (fetch_info : string -> option PyPI.PackageInfo)
    (user_packages : list string) (project_description : option string) :
  researches project_description = false ->
  generate_recommendations search1 analyze1 iter1 system_prompt llm_invoke
    fetch_info user_packages project_description
  = generate_recommendations search2 analyze2 iter2 system_prompt llm_invoke
      fetch_info user_packages project_description
  /\ github_packages_of search1 analyze1 iter1 project_description = [].
Proof.
  intros H.
  assert (G : forall s a i,
             github_result_of s a i project_description = None).
  { intros s a i. unfold github_result_of.
    destruct project_description; [now rewrite H | reflexivity]. }
  unfold generate_recommendations, github_packages_of.
  rewrite !G. split; reflexivity.
Qed.

Lemma returned_recommendation_is_consistent_witness :
  success (polars_recommendation PyPI.not_found) = true.
Proof.
  apply (returned_recommendation_is_consistent no_repos no_deps list_order
           "" (answers ParseSpec.polars_text) index_empty ["pandas"] None
           (polars_recommendation PyPI.not_found)).
  exact polars_run_not_found.
Defined.

Lemma no_description_no_research_witness :
  github_packages_of no_repos no_deps list_order (Some " ") = [].
Proof.
  apply (no_description_no_research no_repos no_repos no_deps no_deps
           list_order list_order "" llm_down index_empty [] (Some " ")).
  reflexivity.
Defined.

End AggregateMore.

(** ** More on the popularity ranking *)

Module RankingMore.

Import GitHub RankingSpec RankingFacts CountSpec.

(** *** The sort *)

Lemma insert_desc_perm (x : string * nat) (l : list (string * nat)) :
  Permutation (insert_desc x l) (x :: l).
Proof.
  induction l as [| y l IH]; simpl.
  - apply Permutation_refl.
  - destruct (snd y <=? snd x)%nat.
    + apply Permutation_refl.
    + eapply Permutation_trans; [apply perm_skip, IH | apply perm_swap].
Qed.

Lemma sorted_desc_perm (l : list (string * nat)) :
  Permutation (sorted_desc l) l.
Proof.
  induction l as [| x l IH]; simpl.
  - apply Permutation_refl.
  - eapply Permutation_trans; [apply insert_desc_perm |].
    now apply perm_skip.
Qed.

Lemma insert_desc_ties (c : nat) (x : string * nat)
    (l : list (string * nat)) :
  filter (fun kv => (snd kv =? c)%nat) (insert_desc x l)
  = filter (fun kv => (snd kv =? c)%nat) (x :: l).
Proof.
  induction l as [| y l IH]; [reflexivity |].
  cbn [insert_desc]. destruct (snd y <=? snd x)%nat eqn:E; [reflexivity |].
  apply Nat.leb_gt in E. cbn [filter] in *. rewrite IH.
  destruct (snd x =? c)%nat eqn:Ex; [| reflexivity].
  apply Nat.eqb_eq in Ex.
  assert (Ey : (snd y =? c)%nat = false) by (apply Nat.eqb_neq; lia).
  now rewrite Ey.
Qed.

Lemma sorted_desc_ties (c : nat) (l : list (string * nat)) :
  filter (fun kv => (snd kv =? c)%nat) (sorted_desc l)
  = filter (fun kv => (snd kv =? c)%nat) l.
Proof.
  induction l as [| x l IH]; [reflexivity |].
  cbn [sorted_desc]. rewrite insert_desc_ties. cbn [filter].
  now rewrite IH.
Qed.

Lemma slice_to_incl {A : Type} (n : Z) (l : list A) (x : A) :
  In x (slice_to n l) -> In x l.
Proof.
  unfold slice_to. destruct (n <? 0)%Z; apply firstn_incl.
Qed.

Lemma NoDup_firstn {A : Type} (n : nat) (l : list A) :
  NoDup l -> NoDup (firstn n l).
Proof.
  revert n. induction l as [| x l IH]; intros n H.
  - destruct n; constructor.
  - destruct n; simpl; [constructor |].
    inversion H as [| ? ? Hx Hl]; subst. constructor; [| now apply IH].
    intros Hin. apply Hx. eapply firstn_incl. exact Hin.
Qed.

Lemma firstn_map_fst {A B : Type} (n : nat) (l : list (A * B)) :
  map fst (firstn n l) = firstn n (map fst l).
Proof. symmetry. apply firstn_map. Qed.

(** *** The counting loops *)

Lemma In_get {V : Type} (d : dict V) (k : string) (v : V) :
  wf d -> In (k, v) d -> get k d = Some v.
Proof.
  unfold wf. induction d as [| [k0 v0] d IH]; simpl; [tauto |].
  intros Hnd [H | H].
  - injection H as -> ->. now rewrite String.eqb_refl.
  - inversion Hnd as [| ? ? Hk Hd]; subst.
    destruct (String.eqb k k0) eqn:E.
    + apply String.eqb_eq in E. subst. exfalso. apply Hk.
      apply in_map_iff. now exists (k0, v).
    + now apply IH.
Qed.

Lemma get_default_set (k p : string) (v : nat) (pc : dict nat) :
  get_default k 0 (PyDict.set p v pc)
  = if String.eqb k p then v else get_default k 0 pc.
Proof.
  unfold get_default. rewrite DictFacts.get_set. now destruct (String.eqb k p).
Qed.

Lemma count_packages_get (pc : dict nat) (l : list string) (k : string) :
  NoDup l ->
  get_default k 0 (count_packages pc l)
  = get_default k 0 pc + (if mem k l then 1 else 0).
Proof.
  unfold count_packages. revert pc.
  induction l as [| p l IH]; intros pc Hnd; simpl.
  - lia.
  - inversion Hnd as [| ? ? Hp Hl]; subst. rewrite IH by assumption.
    rewrite get_default_set. destruct (String.eqb k p) eqn:E; simpl.
    + apply String.eqb_eq in E. subst.
      apply mem_not_In in Hp. rewrite Hp. lia.
    + reflexivity.
Qed.

Lemma count_packages_wf (pc : dict nat) (l : list string) :
  wf pc -> wf (count_packages pc l).
Proof.
  unfold count_packages. revert pc.
  induction l as [| p l IH]; intros pc H; simpl; [assumption |].
  apply IH. now apply DictFacts.wf_set.
Qed.

Section Server.

Variable search_repositories : string -> string -> Z -> list GitHubRepo.
Variable analyze_repo_dependencies : string -> Dependencies.
Variable set_iter : list string -> list string.

Abbreviation counts := (package_count_of analyze_repo_dependencies set_iter).
Abbreviation popular :=
  (get_popular_packages_from_repos analyze_repo_dependencies set_iter).

Lemma popular_unfold (repos : list GitHubRepo) (top_n : Z) :
  popular repos top_n
  = map (fun pc => {| package := fst pc; occurrences := snd pc |})
        (slice_to top_n (sorted_desc (counts repos))).
Proof. reflexivity. Qed.

Lemma counts_wf_from (repos : list GitHubRepo) (pc : dict nat) :
  wf pc ->
  wf (fold_left
        (fun pc repo =>
           let deps := analyze_repo_dependencies (full_name repo) in
           count_packages pc
             (set_iter (requirements_txt deps ++ pyproject_toml deps)%list))
        repos pc).
Proof.
  revert pc. induction repos as [| r repos IH]; intros pc H; simpl.
  - assumption.
  - apply IH. now apply count_packages_wf.
Qed.

Lemma counts_wf (repos : list GitHubRepo) : wf (counts repos).
Proof. apply counts_wf_from. constructor. Qed.

Lemma popular_entry (repos : list GitHubRepo) (top_n : Z) (e : Popular) :
  In e (popular repos top_n) ->
  get (package e) (counts repos) = Some (occurrences e).
Proof.
  rewrite popular_unfold. intros H. apply in_map_iff in H.
  destruct H as [[k v] [<- H]]. simpl.
  apply slice_to_incl in H.
  apply (Permutation_in _ (sorted_desc_perm _)) in H.
  apply In_get; [apply counts_wf | assumption].
Qed.

Lemma popular_distinct_bounded (repos : list GitHubRepo) (top_n : Z) :
  NoDup (map package (popular repos top_n))
  /\ ((0 <= top_n)%Z ->
      (Z.of_nat (List.length (popular repos top_n)) <= top_n)%Z).
Proof.
  rewrite popular_unfold. split.
  - rewrite map_map. cbn [package].
    change (map (fun x : string * nat => fst x)) with (@map (string * nat) _ fst).
    assert (Hs : NoDup (map fst (sorted_desc (counts repos)))).
    { eapply Permutation_NoDup.
      - apply Permutation_map. apply Permutation_sym, sorted_desc_perm.
      - apply counts_wf. }
    unfold slice_to. destruct (top_n <? 0)%Z;
      rewrite firstn_map_fst; now apply NoDup_firstn.
  - intros H. rewrite length_map. unfold slice_to.
    destruct (top_n <? 0)%Z eqn:E; [apply Z.ltb_lt in E; lia |].
    pose proof (firstn_le_length (Z.to_nat top_n)
                  (sorted_desc (counts repos))). lia.
Qed.

(** X8: the package names of a ranking are pairwise distinct, and for a
    non-negative [top_n] the ranking has at most [top_n] entries. *)
Theorem ranking_distinct_and_bounded (repos : list GitHubRepo) (top_n : Z) :
  NoDup (map package (popular repos top_n))
  /\ ((0 <= top_n)%Z ->
      (Z.of_nat (List.length (popular repos top_n)) <= top_n)%Z).
Proof. apply popular_distinct_bounded. Qed.

(** X9: when the ranking is not cut short, the packages with the same
    count stand in the order in which they were first counted. *)
Theorem ranking_ties_in_first_seen_order (repos : list GitHubRepo)
    (top_n : Z) (c : nat) :
  (Z.of_nat (List.length (counts repos)) <= top_n)%Z ->
  map package
      (filter (fun e => (occurrences e =? c)%nat) (popular repos top_n))
  = keys (filter (fun kv => (snd kv =? c)%nat) (counts repos)).
Proof.
  intros H. rewrite popular_unfold.
  assert (Hall : slice_to top_n (sorted_desc (counts repos))
                 = sorted_desc (counts repos)).
  { unfold slice_to. destruct (top_n <? 0)%Z eqn:E;
      [apply Z.ltb_lt in E; lia |].
    apply firstn_all2.
    rewrite (Permutation_length (sorted_desc_perm (counts repos))). lia. }
  rewrite Hall, <- (sorted_desc_ties c (counts repos)).
  generalize (sorted_desc (counts repos)) as l.
  induction l as [| [k v] l IH]; [reflexivity |].
  cbn [map filter occurrences snd].
  destruct (v =? c)%nat; [| exact IH].
  cbn [map keys package fst]. f_equal. exact IH.
Qed.

Section Sets.

(** The iteration over a set yields each element of the list once. *)
Hypothesis set_iter_NoDup : forall l, NoDup (set_iter l).
Hypothesis set_iter_In : forall l x, In x (set_iter l) <-> In x l.

Lemma mem_set_iter (k : string) (l : list string) :
  mem k (set_iter l) = mem k l.
Proof.
  destruct (mem k l) eqn:M.
  - apply mem_In. apply set_iter_In. now apply mem_In.
  - apply mem_not_In. rewrite set_iter_In. now apply mem_not_In.
Qed.

Lemma counts_get_from (repos : list GitHubRepo) (pc : dict nat)
    (k : string) :
  get_default k 0
    (fold_left
       (fun pc repo =>
          let deps := analyze_repo_dependencies (full_name repo) in
          count_packages pc
            (set_iter (requirements_txt deps ++ pyproject_toml deps)%list))
       repos pc)
  = get_default k 0 pc + declaring analyze_repo_dependencies k repos.
Proof.
  unfold declaring, declared. revert pc.
  induction repos as [| r repos IH]; intros pc; simpl.
  - lia.
  - rewrite IH, count_packages_get by apply set_iter_NoDup.
    rewrite mem_set_iter.
    destruct (mem k _); simpl; lia.
Qed.

(** X10: the count of every entry of a ranking is the number of analysed
    repositories that declare the package in one of their manifests; it is
    at least one. *)
Theorem ranking_counts_declaring_repositories (repos : list GitHubRepo)
    (top_n : Z) (e : Popular) :
  In e (popular repos top_n) ->
  occurrences e = declaring analyze_repo_dependencies (package e) repos
  /\ 1 <= occurrences e <= List.length repos.
Proof.
  intros H. apply popular_entry in H.
  assert (E : occurrences e
              = declaring analyze_repo_dependencies (package e) repos).
  { pose proof (counts_get_from repos [] (package e)) as G.
    unfold get_default in G at 1.
    change (fold_left _ repos []) with (counts repos) in G.
    rewrite H in G. simpl in G. exact G. }
  split; [exact E |]. split.
  - rewrite E. unfold declaring.
    destruct (filter _ repos) eqn:F; simpl; [| lia].
    exfalso.
    assert (G : forall rs pc, get (package e) pc = None ->
              filter (fun repo => mem (package e)
                        (declared analyze_repo_dependencies repo)) rs = [] ->
              get (package e)
                (fold_left
                   (fun pc repo =>
                      let deps := analyze_repo_dependencies (full_name repo) in
                      count_packages pc
                        (set_iter (requirements_txt deps
                                   ++ pyproject_toml deps)%list))
                   rs pc) = None).
    { induction rs as [| r rs IH]; intros pc Hpc Hf; simpl; [assumption |].
      simpl in Hf.
      destruct (mem (package e) (declared analyze_repo_dependencies r))
        eqn:M; [discriminate |].
      apply IH; [| assumption].
      unfold count_packages.
      rewrite <- mem_set_iter in M. unfold declared in M.
      revert pc Hpc M.
      generalize (set_iter
                    (requirements_txt
                       (analyze_repo_dependencies (full_name r))
                     ++ pyproject_toml
                          (analyze_repo_dependencies (full_name r)))%list)
        as l0.
      induction l0 as [| p l0 IHl]; intros pc Hpc M; simpl; [assumption |].
      simpl in M. apply orb_false_iff in M. destruct M as [Mp Ml].
      apply IHl; [| assumption].
      rewrite DictFacts.get_set, Mp. assumption. }
    specialize (G repos [] eq_refl F).
    change (fold_left _ repos []) with (counts repos) in G. congruence.
  - rewrite E. unfold declaring. apply filter_length_le.
Qed.

End Sets.

(** X11: the names that [get_packages_from_description] returns are
    pairwise distinct, at most fifteen, and none of them is a base package
    in any letter case. *)
Theorem description_packages_are_clean (project_description : string) :
  NoDup (get_packages_from_description search_repositories
           analyze_repo_dependencies set_iter project_description)
  /\ List.length (get_packages_from_description search_repositories
                    analyze_repo_dependencies set_iter project_description)
     <= 15
  /\ Forall (fun pkg => ~ denylisted pkg)
       (get_packages_from_description search_repositories
          analyze_repo_dependencies set_iter project_description).
Proof.
  unfold get_packages_from_description, research_similar_projects.
  destruct (search_repositories project_description "Python" 5)
    as [| r repos]; cbn [success packages].
  - repeat split; simpl; try constructor. lia.
  - destruct (popular_distinct_bounded (r :: repos) 15) as [Hnd Hlen].
    split; [| split].
    + revert Hnd. generalize (popular (r :: repos) 15) as l.
      induction l as [| e l IH]; intros Hnd; cbn [filter map];
        [constructor |].
      cbn [map] in Hnd. inversion Hnd as [| ? ? He Hl]; subst.
      destruct (negb (mem (lower (package e)) common_base)); cbn [map];
        [| now apply IH].
      constructor; [| now apply IH].
      intros Hin. apply He. apply in_map_iff in Hin.
      destruct Hin as [e' [Ee Hin]]. apply filter_In in Hin.
      apply in_map_iff. exists e'. tauto.
    + rewrite length_map.
      pose proof (filter_length_le
                    (fun pkg => negb (mem (lower (package pkg)) common_base))
                    (popular (r :: repos) 15)).
      specialize (Hlen ltac:(lia)). lia.
    + apply Forall_forall. intros pkg Hp. apply in_map_iff in Hp.
      destruct Hp as [e [<- He]]. apply filter_In in He.
      destruct He as [_ He]. apply negb_true_iff, mem_not_In in He.
      exact He.
Qed.

End Server.

Lemma first_seen_In (l : list string) (x : string) :
  In x (first_seen l) <-> In x l.
Proof.
  induction l as [| y l IH]; simpl; [tauto |].
  rewrite filter_In, IH. destruct (String.eqb x y) eqn:E.
  - apply String.eqb_eq in E. subst. tauto.
  - apply String.eqb_neq in E. simpl. split; [tauto |].
    intros [H | H]; [congruence | tauto].
Qed.

Lemma first_seen_NoDup (l : list string) : NoDup (first_seen l).
Proof.
  induction l as [| y l IH]; simpl; constructor.
  - rewrite filter_In. rewrite String.eqb_refl. simpl. intros [_ H].
    discriminate.
  - now apply NoDup_filter.
Qed.

Lemma ranking_counts_declaring_repositories_witness :
  occurrences {| package := "requests"; occurrences := 2 |}
  = declaring two_projects "requests" [repo "A"; repo "B"].
Proof.
  apply (ranking_counts_declaring_repositories two_projects first_seen
           first_seen_NoDup first_seen_In [repo "A"; repo "B"] 15
           {| package := "requests"; occurrences := 2 |}).
  simpl. tauto.
Defined.

Lemma ranking_ties_in_first_seen_order_witness :
  map package
    (filter (fun e => (occurrences e =? 1)%nat)
       (get_popular_packages_from_repos two_projects first_seen
          [repo "A"; repo "B"] 15))
  = keys (filter (fun kv => (snd kv =? 1)%nat)
            (package_count_of two_projects first_seen
               [repo "A"; repo "B"])).
Proof.
  apply (ranking_ties_in_first_seen_order two_projects first_seen
           [repo "A"; repo "B"] 15 1).
  vm_compute. discriminate.
Defined.

End RankingMore.

(** ** Strings: facts used for names *)

Module StrFacts.

Import NameSpec.

Example words_example :
  words "  numpy   pandas requests " = ["numpy"; "pandas"; "requests"].
Proof. reflexivity. Qed.

Example parse_user_packages_examples :
  Analyzer.parse_user_packages "numpy, pandas, requests"
  = ["numpy"; "pandas"; "requests"]
  /\ Analyzer.parse_user_packages "numpy pandas requests"
     = ["numpy"; "pandas"; "requests"]
  /\ Analyzer.parse_user_packages "numpy, pandas requests"
     = ["numpy"; "pandas"; "requests"]
  /\ Analyzer.parse_user_packages "" = []
  /\ Analyzer.parse_user_packages " , " = [].
Proof. repeat split. Qed.

(** *** Stripping *)

Lemma lstrip_head (s : string) :
  lstrip s = EmptyString
  \/ exists c t, lstrip s = String c t /\ is_space c = false.
Proof.
  induction s as [| c s IH]; simpl; [now left |].
  destruct (is_space c) eqn:E; [exact IH |].
  right. now exists c, s.
Qed.

Lemma lstrip_fixed (c : ascii) (s : string) :
  is_space c = false -> lstrip (String c s) = String c s.
Proof. intros H. simpl. now rewrite H. Qed.

Lemma rstrip_head (c : ascii) (s : string) :
  is_space c = false -> exists t, rstrip (String c s) = String c t.
Proof.
  intros H. simpl. destruct (rstrip s) as [| d r].
  - rewrite H. now exists EmptyString.
  - now exists (String d r).
Qed.

Lemma rstrip_cons (c : ascii) (s : string) :
  rstrip (String c s)
  = match rstrip s with
    | EmptyString => if is_space c then EmptyString else String c EmptyString
    | r => String c r
    end.
Proof. reflexivity. Qed.

Lemma rstrip_rstrip (s : string) : rstrip (rstrip s) = rstrip s.
Proof.
  induction s as [| c s IH]; [reflexivity |].
  rewrite rstrip_cons. destruct (rstrip s) as [| d r] eqn:E.
  - destruct (is_space c) eqn:Ec; [reflexivity |].
    rewrite rstrip_cons. simpl. now rewrite Ec.
  - rewrite rstrip_cons, IH. reflexivity.
Qed.

Lemma strip_strip (s : string) : strip (strip s) = strip s.
Proof.
  unfold strip. destruct (lstrip_head s) as [E | (c & t & E & Hc)].
  - rewrite E. reflexivity.
  - rewrite E. destruct (rstrip_head c t Hc) as [r Er]. rewrite Er.
    rewrite lstrip_fixed by assumption. rewrite <- Er.
    apply rstrip_rstrip.
Qed.

Lemma strip_nonblank (c : ascii) (s : string) :
  is_space c = false -> strip (String c s) <> EmptyString.
Proof.
  intros H. unfold strip. rewrite lstrip_fixed by assumption.
  destruct (rstrip_head c s H) as [t ->]. discriminate.
Qed.

Lemma chars_lstrip (s : string) (c : ascii) :
  In c (chars (lstrip s)) -> In c (chars s).
Proof.
  induction s as [| d s IH]; simpl; [tauto |].
  destruct (is_space d); simpl; tauto.
Qed.

Lemma chars_rstrip (s : string) (c : ascii) :
  In c (chars (rstrip s)) -> In c (chars s).
Proof.
  induction s as [| d s IH]; [tauto |].
  cbn [rstrip]. destruct (rstrip s) as [| e r].
  - destruct (is_space d); simpl; tauto.
  - simpl in *. tauto.
Qed.

Lemma chars_strip (s : string) (c : ascii) :
  In c (chars (strip s)) -> In c (chars s).
Proof. intros H. now apply chars_lstrip, chars_rstrip. Qed.

Lemma rstrip_no_space (s : string) :
  Forall (fun c => is_space c = false) (chars s) -> rstrip s = s.
Proof.
  induction s as [| c s IH]; [reflexivity |].
  intros H. inversion H as [| ? ? Hc Hs]; subst.
  cbn [rstrip]. rewrite IH by assumption.
  destruct s; [now rewrite Hc | reflexivity].
Qed.

Lemma strip_no_space (s : string) :
  Forall (fun c => is_space c = false) (chars s) -> strip s = s.
Proof.
  intros H. unfold strip.
  destruct s as [| c s]; [reflexivity |].
  inversion H as [| ? ? Hc Hs]; subst.
  rewrite lstrip_fixed by assumption. now apply rstrip_no_space.
Qed.

(** *** One character as a substring *)

Lemma prefix_char (o c : ascii) (s : string) :
  String.prefix (String o EmptyString) (String c s)
  = if ascii_dec o c then true else false.
Proof.
  cbn [String.prefix]. destruct (ascii_dec o c); [| reflexivity].
  now destruct s.
Qed.

Lemma contains_char (o : ascii) (s : string) :
  contains (String o EmptyString) s = false <-> ~ In o (chars s).
Proof.
  induction s as [| c s IH]; [simpl; tauto |].
  cbn [contains]. rewrite prefix_char.
  destruct (ascii_dec o c) as [-> | Hne]; simpl.
  - split; [discriminate | tauto].
  - rewrite IH. split; [| tauto]. intros H [E | E]; [congruence | tauto].
Qed.

Lemma contains_char_strip (o : ascii) (s : string) :
  contains (String o EmptyString) s = false ->
  contains (String o EmptyString) (strip s) = false.
Proof.
  rewrite !contains_char. intros H Hin. now apply H, chars_strip.
Qed.

Lemma split_char_pieces (o : ascii) (s : string) :
  Forall (fun p => contains (String o EmptyString) p = false)
         (split (String o EmptyString) s).
Proof.
  unfold split.
  assert (G : forall p ps, split_go (String o EmptyString) 0 s = (p, ps) ->
              Forall (fun p => contains (String o EmptyString) p = false)
                     (p :: ps)).
  { induction s as [| c s IH]; intros p ps H.
    - injection H as <- <-. repeat constructor.
    - cbn [split_go] in H. rewrite prefix_char in H.
      cbn [String.length Nat.sub] in H.
      destruct (split_go (String o EmptyString) 0 s) as [q qs].
      specialize (IH q qs eq_refl).
      destruct (ascii_dec o c) as [-> | Hne].
      + injection H as <- <-. constructor; [reflexivity | exact IH].
      + injection H as <- <-. inversion IH as [| ? ? Hq Hqs]; subst.
        constructor; [| assumption].
        apply contains_char. apply contains_char in Hq.
        simpl. intros [E | E]; [congruence | tauto]. }
  destruct (split_go (String o EmptyString) 0 s) as [p ps].
  now apply G.
Qed.

Lemma cut_char_before (o : ascii) (s a b : string) :
  cut (String o EmptyString) s = Some (a, b) ->
  contains (String o EmptyString) a = false.
Proof.
  revert a b. induction s as [| c s IH]; intros a b H.
  - simpl in H. discriminate.
  - cbn [cut] in H. rewrite prefix_char in H.
    destruct (ascii_dec o c) as [-> | Hne].
    + injection H as <- _. reflexivity.
    + destruct (cut (String o EmptyString) s) as [[a' b'] |];
        [| discriminate].
      injection H as <- <-. specialize (IH a' b' eq_refl).
      apply contains_char. apply contains_char in IH.
      simpl. intros [E | E]; [congruence | tauto].
Qed.

End StrFacts.

(** ** The user's package list *)

Module UserPackagesFacts.

Import Analyzer NameSpec StrFacts.

Lemma word_char_cons (d : ascii) (s : string) (c : ascii) :
  word_char s c -> word_char (String d s) c.
Proof. intros [H1 H2]. split; [assumption | simpl; tauto]. Qed.

Lemma words_go_chars (s : string) :
  Forall (word_char s) (chars (fst (words_go s)))
  /\ Forall (fun w => w <> EmptyString /\ Forall (word_char s) (chars w))
            (snd (words_go s)).
Proof.
  induction s as [| c s [IHp IHps]]; [split; constructor |].
  cbn [words_go]. destruct (words_go s) as [p ps]. simpl in IHp, IHps.
  assert (Hp : Forall (word_char (String c s)) (chars p))
    by (eapply Forall_impl; [apply word_char_cons | exact IHp]).
  assert (Hps : Forall (fun w => w <> EmptyString
                                 /\ Forall (word_char (String c s)) (chars w))
                       ps).
  { eapply Forall_impl; [| exact IHps]. intros w [Hw Hc]. split; [assumption |].
    eapply Forall_impl; [apply word_char_cons | exact Hc]. }
  destruct (is_space c) eqn:E; simpl.
  - split; [constructor |].
    destruct p; simpl; [assumption |].
    constructor; [| assumption]. split; [discriminate | assumption].
  - split; [| assumption].
    constructor; [| assumption]. split; [assumption | simpl; tauto].
Qed.

Lemma words_chars (s : string) :
  Forall (fun w => w <> EmptyString /\ Forall (word_char s) (chars w))
         (words s).
Proof.
  unfold words. destruct (words_go_chars s) as [Hp Hps].
  destruct (words_go s) as [p ps]. simpl in Hp, Hps.
  destruct p; simpl; [assumption |].
  constructor; [| assumption]. split; [discriminate | assumption].
Qed.

Lemma replace_comma_chars (s : string) :
  ~ In ","%char (chars (replace "," " " s)).
Proof.
  unfold replace. induction s as [| c s IH]; [simpl; tauto |].
  cbn [replace_go]. rewrite prefix_char. cbn [String.length Nat.sub].
  destruct (ascii_dec "," c) as [<- | Hne]; simpl.
  - intros [E | E]; [discriminate | tauto].
  - intros [E | E]; [congruence | tauto].
Qed.

Lemma clean_words (ws : list string) :
  Forall clean_name ws -> filter truthy (map strip ws) = ws.
Proof.
  induction ws as [| w ws IH]; intros H; [reflexivity |].
  inversion H as [| ? ? [Hne Hc] Hr]; subst. cbn [map filter].
  rewrite strip_no_space
    by (eapply Forall_impl; [| exact Hc]; intros a Ha; apply Ha).
  destruct w; [congruence |]. simpl. f_equal. now apply IH.
Qed.

(** X12: every name that [parse_user_packages] returns is not empty and
    holds neither white space nor a comma. *)
Theorem user_packages_are_clean (user_input : string) :
  Forall clean_name (parse_user_packages user_input).
Proof.
  unfold parse_user_packages.
  destruct (negb (truthy user_input) || String.eqb (strip user_input) "");
    [constructor |].
  assert (H : Forall clean_name (words (replace "," " " user_input))).
  { eapply Forall_impl; [| apply words_chars].
    intros w [Hne Hc]. split; [assumption |].
    eapply Forall_impl; [| exact Hc]. intros a [Ha Hin].
    split; [assumption |]. intros ->.
    now apply (replace_comma_chars user_input). }
  now rewrite clean_words.
Qed.

(** *** Reading back a joined list *)

Lemma append_empty (s : string) : s ++ "" = s.
Proof. induction s as [| c s IH]; simpl; [reflexivity | now rewrite IH]. Qed.

Lemma append_assoc (a b c : string) : (a ++ b) ++ c = a ++ b ++ c.
Proof. induction a as [| x a IH]; simpl; [reflexivity | now rewrite IH]. Qed.

Lemma words_go_word (w s : string) :
  Forall (fun c => is_space c = false) (chars w) ->
  words_go (w ++ s) = (w ++ fst (words_go s), snd (words_go s)).
Proof.
  induction w as [| c w IH]; intros H; simpl.
  - now destruct (words_go s).
  - inversion H as [| ? ? Hc Hw]; subst. rewrite IH by assumption.
    now rewrite Hc.
Qed.

Lemma words_go_gap (g s : string) :
  g <> EmptyString ->
  Forall (fun c => is_space c = true) (chars g) ->
  words_go (g ++ s) = (EmptyString, words s).
Proof.
  induction g as [| c g IH]; intros Hne H; [congruence |].
  inversion H as [| ? ? Hc Hg]; subst. cbn [append words_go].
  destruct g as [| d g].
  - simpl. unfold words. destruct (words_go s) as [p ps]. now rewrite Hc.
  - rewrite IH by (assumption || discriminate). now rewrite Hc.
Qed.

Lemma words_join (gap : string) (names : list string) :
  gap <> EmptyString ->
  Forall (fun c => is_space c = true) (chars gap) ->
  Forall clean_name names ->
  words (join gap names) = names.
Proof.
  intros Hne Hgap. induction names as [| x names IH]; intros H.
  - reflexivity.
  - inversion H as [| ? ? [Hx Hc] Hr]; subst.
    assert (Hsp : Forall (fun c => is_space c = false) (chars x))
      by (eapply Forall_impl; [| exact Hc]; intros a Ha; apply Ha).
    destruct names as [| y names].
    + cbn [join]. unfold words.
      rewrite <- (append_empty x) at 1. rewrite words_go_word by assumption.
      simpl. rewrite append_empty. destruct x; [congruence | reflexivity].
    + change (join gap (x :: y :: names))
        with (x ++ gap ++ join gap (y :: names)).
      unfold words at 1. rewrite words_go_word by assumption.
      rewrite words_go_gap by assumption. cbn [fst snd].
      rewrite append_empty, IH by assumption.
      destruct x; [congruence | reflexivity].
Qed.

Lemma replace_comma_app (a b : string) :
  replace "," " " (a ++ b) = replace "," " " a ++ replace "," " " b.
Proof.
  unfold replace. induction a as [| c a IH]; [reflexivity |].
  cbn [append replace_go]. rewrite !prefix_char. cbn [String.length Nat.sub].
  destruct (ascii_dec "," c); simpl; now rewrite IH.
Qed.

Lemma replace_comma_clean (a : string) :
  ~ In ","%char (chars a) -> replace "," " " a = a.
Proof.
  unfold replace. induction a as [| c a IH]; intros H; [reflexivity |].
  cbn [replace_go]. rewrite prefix_char. cbn [String.length Nat.sub].
  destruct (ascii_dec "," c) as [<- | Hne].
  - exfalso. apply H. simpl. tauto.
  - f_equal. apply IH. intros Hin. apply H. simpl. tauto.
Qed.

Lemma replace_comma_join (sep : string) (names : list string) :
  Forall clean_name names ->
  replace "," " " (join sep names) = join (replace "," " " sep) names.
Proof.
  induction names as [| x names IH]; intros H; [reflexivity |].
  inversion H as [| ? ? [Hx Hc] Hr]; subst.
  assert (Ex : replace "," " " x = x).
  { apply replace_comma_clean. intros Hin.
    rewrite Forall_forall in Hc. now destruct (Hc _ Hin). }
  destruct names as [| y names]; [exact Ex |].
  change (join sep (x :: y :: names)) with (x ++ sep ++ join sep (y :: names)).
  rewrite !replace_comma_app, Ex, IH by assumption. reflexivity.
Qed.

Lemma parse_joined (sep : string) (names : list string) :
  replace "," " " sep <> EmptyString ->
  Forall (fun c => is_space c = true) (chars (replace "," " " sep)) ->
  Forall clean_name names ->
  parse_user_packages (join sep names) = names.
Proof.
  intros Hne Hgap H. unfold parse_user_packages.
  destruct names as [| x names]; [reflexivity |].
  assert (Hhead : exists c t, join sep (x :: names) = String c t
                              /\ is_space c = false).
  { inversion H as [| ? ? [Hx Hc] Hr]; subst.
    destruct x as [| c x]; [congruence |].
    inversion Hc as [| ? ? [Hsp _] _]; subst.
    destruct names; simpl; eauto. }
  destruct Hhead as (c & t & E & Hc). rewrite E.
  assert (B : String.eqb (strip (String c t)) "" = false)
    by (apply String.eqb_neq; now apply strip_nonblank).
  rewrite B. cbn [truthy negb orb]. rewrite <- E.
  rewrite replace_comma_join, words_join by assumption.
  now apply clean_words.
Qed.

(** X13: a list of names that are not empty and hold neither white space
    nor a comma is read back unchanged when it is written with commas and
    spaces, with single spaces or with commas alone between the names. *)
Theorem user_packages_round_trip (names : list string) :
  Forall clean_name names ->
  parse_user_packages (join ", " names) = names
  /\ parse_user_packages (join " " names) = names
  /\ parse_user_packages (join "," names) = names.
Proof.
  intros H. repeat split; apply parse_joined; try assumption;
    try discriminate; repeat constructor.
Qed.

Lemma user_packages_round_trip_witness :
  parse_user_packages (join ", " ["numpy"; "pandas"]) = ["numpy"; "pandas"].
Proof.
  apply (user_packages_round_trip ["numpy"; "pandas"]).
  repeat constructor; discriminate.
Defined.

End UserPackagesFacts.

(** ** More on the recommendation parser *)

Module ParseMore.

Import Analyzer ParseSpec NameSpec StrFacts ParseFacts.

Lemma Forall_keys_set_any {V : Type} (P : string -> Prop) (k : string)
    (v : V) (d : dict V) :
  P k -> Forall P (keys d) -> Forall P (keys (PyDict.set k v d)).
Proof.
  intros Hk Hd. rewrite DictFacts.keys_set.
  destruct (mem k (keys d)); [assumption |].
  apply Forall_app. split; [assumption | now constructor].
Qed.

Lemma approve_items_names (packages_str : string) :
  Forall approved_name (approve_items packages_str).
Proof.
  unfold approve_items. apply Forall_forall. intros p Hp.
  apply filter_In in Hp. destruct Hp as [Hin Ht].
  apply in_map_iff in Hin. destruct Hin as [q [<- Hq]].
  repeat split.
  - intros E. rewrite E in Ht. discriminate.
  - apply strip_strip.
  - apply contains_char_strip.
    pose proof (split_char_pieces ","%char packages_str) as G.
    rewrite Forall_forall in G. now apply G.
Qed.

Lemma bullet_key_of_cut (content part0 part1 : string) :
  cut ":" content = Some (part0, part1) -> bullet_key (strip part0).
Proof.
  intros H. split; [apply strip_strip |].
  apply contains_char_strip. eapply cut_char_before. exact H.
Qed.

Lemma alternative_bullet_names (content : string) (st : Loop) :
  names_inv st -> names_inv (alternative_bullet content st).
Proof.
  intros (Ha & Hb & Hc). unfold alternative_bullet.
  destruct (cut ":" content) as [[part0 part1] |] eqn:E;
    [| repeat split; assumption].
  case_if; [| repeat split; assumption].
  repeat split; simpl; try assumption.
  apply Forall_keys_set_any; [| assumption].
  eapply bullet_key_of_cut. exact E.
Qed.

Lemma additional_bullet_names (content : string) (st : Loop) :
  names_inv st -> names_inv (additional_bullet content st).
Proof.
  intros (Ha & Hb & Hc). unfold additional_bullet.
  destruct (cut ":" content) as [[part0 part1] |] eqn:E;
    [| repeat split; assumption].
  repeat case_if; try (repeat split; assumption).
  repeat split; simpl; try assumption.
  apply Forall_keys_set_any; [| assumption].
  eapply bullet_key_of_cut. exact E.
Qed.

Lemma parse_line_names (st : Loop) (raw_line : string) :
  names_inv st -> names_inv (parse_line st raw_line).
Proof.
  intros H. pose proof H as (Ha & Hb & Hc). unfold parse_line.
  case_if.
  - repeat split; simpl; try assumption.
    case_if; [| assumption].
    apply Forall_app. split; [assumption | apply approve_items_names].
  - repeat case_if; try (repeat split; simpl; assumption).
    destruct (current_section st);
      auto using alternative_bullet_names, additional_bullet_names.
Qed.

Lemma parse_lines_names (llm_response : string) :
  names_inv (parse_lines llm_response).
Proof.
  unfold parse_lines.
  assert (G : forall lines st, names_inv st ->
                               names_inv (fold_left parse_line lines st)).
  { induction lines as [| l lines IH]; intros st H; simpl; [assumption |].
    apply IH. now apply parse_line_names. }
  apply G. repeat split; constructor.
Qed.

(** X14: unless the parser falls back to the user's packages, every
    approved name it returns is not empty, has no white space at its ends
    and holds no comma. *)
Theorem approved_names_are_trimmed (llm_response : string)
    (user_packages : list string) :
  parse_llm_recommendations llm_response user_packages
  = all_approved user_packages
  \/ Forall approved_name
       (approved_packages
          (parse_llm_recommendations llm_response user_packages)).
Proof.
  unfold parse_llm_recommendations.
  destruct (parse_lines_names llm_response) as (Ha & _ & _).
  destruct (approved (parse_lines llm_response)) as [| a l] eqn:Ea;
    [| right; exact Ha].
  destruct (alternatives (parse_lines llm_response)) as [| b m] eqn:Eb;
    [| right; constructor].
  destruct (additional (parse_lines llm_response)) as [| c n] eqn:Ec;
    [| right; constructor].
  left. reflexivity.
Qed.

(** X15: every key of the alternatives and of the additional map that the
    parser returns has no white space at its ends and holds no colon. *)
Theorem bullet_keys_are_trimmed (llm_response : string)
    (user_packages : list string) :
  Forall bullet_key
    (keys (alternative_suggestions
             (parse_llm_recommendations llm_response user_packages)))
  /\ Forall bullet_key
       (keys (additional_packages
                (parse_llm_recommendations llm_response user_packages))).
Proof.
  destruct (parse_lines_names llm_response) as (_ & Hb & Hc).
  split; assumption.
Qed.

Lemma parse_line_before_headers (st : Loop) (raw_line : string) :
  header_line raw_line = false -> before_headers st ->
  before_headers (parse_line st raw_line).
Proof.
  unfold header_line. intros H [Hs Hn].
  apply orb_false_iff in H. destruct H as [H H3].
  apply orb_false_iff in H. destruct H as [H1 H2].
  unfold parse_line. rewrite H1, H2, H3, Hs.
  case_if; split; assumption.
Qed.

(** X16: an answer without any header line gives the fallback, whatever
    bullets it holds: a bullet met before a header is ignored. *)
Theorem bullets_without_header_are_ignored (llm_response : string)
    (user_packages : list string) :
  Forall (fun l => header_line l = false) (split nl llm_response) ->
  parse_llm_recommendations llm_response user_packages
  = all_approved user_packages.
Proof.
  intros H.
  assert (G : forall lines st,
             Forall (fun l => header_line l = false) lines ->
             before_headers st ->
             before_headers (fold_left parse_line lines st)).
  { induction lines as [| l lines IH]; intros st Hl Hst; simpl;
      [assumption |].
    inversion Hl; subst. apply IH; [assumption |].
    now apply parse_line_before_headers. }
  destruct (G (split nl llm_response) loop_init H) as [_ (Ha & Hb & Hc)].
  { split; [reflexivity | repeat split]. }
  unfold parse_llm_recommendations, all_approved, parse_lines.
  rewrite Ha, Hb, Hc. reflexivity.
Qed.

Lemma bullets_without_header_are_ignored_witness :
  parse_llm_recommendations "- seaborn: useful for plotting" ["numpy"]
  = all_approved ["numpy"].
Proof.
  apply (bullets_without_header_are_ignored
           "- seaborn: useful for plotting" ["numpy"]).
  repeat constructor.
Defined.

End ParseMore.

(** ** More on the package index *)

Module IndexFacts.

Import NameSpec StrFacts AggregateSpec.

Lemma chars_app (a b : string) : chars (a ++ b) = (chars a ++ chars b)%list.
Proof.
  unfold chars. induction a as [| c a IH]; simpl; [reflexivity |].
  now rewrite IH.
Qed.

Lemma length_app (a b : string) :
  String.length (a ++ b) = String.length a + String.length b.
Proof. induction a as [| c a IH]; simpl; [reflexivity | now rewrite IH]. Qed.

Lemma take_length (n : nat) (s : string) : String.length (take n s) <= n.
Proof.
  unfold take. revert s. induction n as [| n IH]; intros s.
  - destruct s; simpl; lia.
  - destruct s as [| c s]; simpl; [lia |]. specialize (IH s). lia.
Qed.

Lemma take_chars (n : nat) (s : string) (c : ascii) :
  In c (chars (take n s)) -> In c (chars s).
Proof.
  unfold take. revert s. induction n as [| n IH]; intros s.
  - destruct s; simpl; tauto.
  - destruct s as [| d s]; simpl; [tauto |].
    intros [H | H]; [now left | right; now apply IH].
Qed.

Lemma replace_char_chars (o : ascii) (new s : string) :
  ~ In o (chars new) ->
  ~ In o (chars (replace (String o EmptyString) new s)).
Proof.
  intros Hnew. unfold replace. induction s as [| c s IH]; [simpl; tauto |].
  cbn [replace_go]. rewrite prefix_char. cbn [String.length Nat.sub].
  destruct (ascii_dec o c) as [<- | Hne].
  - rewrite chars_app, in_app_iff. tauto.
  - simpl. intros [E | E]; [congruence | tauto].
Qed.

Section Server.

Variable fetch_info : string -> option PyPI.PackageInfo.

Abbreviation describe := (PyPI.get_package_description fetch_info).

(** X17: for a package that the index does not know, or knows with an
    empty summary, the description that is shown holds no line break
    character and at most 203 characters. *)
Theorem description_without_summary_is_one_short_line
    (package_name : string) :
  (forall info,
      fetch_info package_name = Some info -> PyPI.summary info = "") ->
  String.length (describe package_name) <= 203
  /\ ~ In (ascii_of_nat 10) (chars (describe package_name)).
Proof.
  intros H. unfold PyPI.get_package_description, PyPI.get_package_info.
  destruct (fetch_info package_name) as [info |] eqn:E;
    [| split; [simpl; lia | vm_compute; intuition discriminate]].
  specialize (H info eq_refl). cbn [PyPI.summary PyPI.description].
  rewrite H. cbn [truthy].
  destruct (truthy (take 500 (PyPI.description info)));
    [| split; [simpl; lia | vm_compute; intuition discriminate]].
  set (desc := strip (replace nl " " (take 500 (PyPI.description info)))).
  assert (Hnl : ~ In (ascii_of_nat 10) (chars desc)).
  { intros Hin. apply chars_strip in Hin. revert Hin.
    apply (replace_char_chars (ascii_of_nat 10) " ").
    simpl. intros [E1 | []]. discriminate E1. }
  destruct (200 <? String.length desc)%nat eqn:L.
  - split.
    + rewrite length_app. pose proof (take_length 200 desc). simpl. lia.
    + rewrite chars_app, in_app_iff. intros [Hin | Hin].
      * apply Hnl. now apply take_chars in Hin.
      * revert Hin. vm_compute. intuition discriminate.
  - apply Nat.ltb_ge in L. split; [lia | exact Hnl].
Qed.

(** X18: the dictionary of [get_package_descriptions] has pairwise
    distinct keys, its keys are the requested names, and it maps every
    requested name to its description from the index. *)
Theorem descriptions_cover_requested_names (packages : list string) :
  wf (Analyzer.get_package_descriptions fetch_info packages)
  /\ (forall k,
        In k (keys (Analyzer.get_package_descriptions fetch_info packages))
        <-> In k packages)
  /\ Forall (fun k =>
               get k (Analyzer.get_package_descriptions fetch_info packages)
               = Some (describe k))
            packages.
Proof.
  unfold Analyzer.get_package_descriptions.
  assert (G : forall k,
            get k (fold_left
                     (fun d p => PyDict.set p (describe p) d) packages [])
            = if mem k packages then Some (describe k) else None)
    by (intros k; apply (AggregateFacts.get_fold_set describe)).
  split; [| split].
  - assert (W : forall l d, wf d ->
                 wf (fold_left (fun d p => PyDict.set p (describe p) d) l d)).
    { induction l as [| p l IH]; intros d Hd; simpl; [assumption |].
      apply IH. now apply DictFacts.wf_set. }
    apply W. constructor.
  - intros k. destruct (mem k packages) eqn:M.
    + split; [intros _; now apply mem_In |]. intros _.
      destruct (in_dec string_dec k
                  (keys (fold_left
                           (fun d p => PyDict.set p (describe p) d)
                           packages []))) as [Hin | Hout]; [assumption |].
      apply DictFacts.get_None_keys in Hout. rewrite G, M in Hout.
      discriminate.
    + apply mem_not_In in M as M'. split; [| tauto].
      intros Hin. exfalso. revert Hin. apply DictFacts.get_None_keys.
      now rewrite G, M.
  - apply Forall_forall. intros k Hk. rewrite G.
    apply mem_In in Hk. now rewrite Hk.
Qed.

End Server.

Lemma description_without_summary_is_one_short_line_witness :
  String.length (PyPI.get_package_description index_blank "polars") <= 203.
Proof.
  apply (description_without_summary_is_one_short_line index_blank "polars").
  intros info H. injection H as <-. reflexivity.
Defined.

End IndexFacts.

(** ** The installer *)

Module InstallerFacts.

Import Installer.

Section Agent.

Variable run_uv : nat -> string -> string -> string -> Run.
Variable requirements_file : string -> string.
Variable write_file : string -> string -> option string.

Lemma install_loop (project_path venv_path : string)
    (packages : list string) (n : nat) (installed : list string)
    (failed : list Failure) :
  exists n' installed' failed',
    fold_left (install_one run_uv project_path venv_path) packages
      (n, installed, failed)
    = (n', installed', failed')
    /\ Permutation (installed' ++ map package failed')
         ((installed ++ map package failed) ++ packages)
    /\ (failed' = [] ->
        failed = [] /\ installed' = (installed ++ packages)%list).
Proof.
  revert n installed failed.
  induction packages as [| pkg packages IH]; intros n installed failed.
  - exists n, installed, failed. simpl. rewrite app_nil_r.
    repeat split; auto using Permutation_refl. now rewrite app_nil_r.
  - cbn [fold_left].
    assert (Hfail : forall e,
      exists n' installed' failed',
        fold_left (install_one run_uv project_path venv_path) packages
          (S n, installed,
           (failed ++ [{| package := pkg; error := e |}])%list)
        = (n', installed', failed')
        /\ Permutation (installed' ++ map package failed')
             ((installed ++ map package failed) ++ pkg :: packages)
        /\ (failed' = [] ->
            failed = [] /\ installed' = (installed ++ pkg :: packages)%list)).
    { intros e.
      destruct (IH (S n) installed
                  (failed ++ [{| package := pkg; error := e |}])%list)
        as (n' & i' & f' & E & P & F).
      exists n', i', f'. split; [exact E |]. split.
      - eapply Permutation_trans; [exact P |].
        rewrite map_app. cbn [map package].
        rewrite <- !app_assoc. apply Permutation_app_head.
        apply Permutation_app_head. apply Permutation_refl.
      - intros H. destruct (F H) as [Hnil _].
        destruct failed; discriminate Hnil. }
    unfold install_one at 2.
    destruct (run_uv n pkg project_path venv_path) as [rc err | | e];
      [| apply Hfail | apply Hfail].
    destruct (rc =? 0)%Z; [| apply Hfail].
    destruct (IH (S n) (installed ++ [pkg])%list failed)
      as (n' & i' & f' & E & P & F).
    exists n', i', f'. split; [exact E |]. split.
    + eapply Permutation_trans; [exact P |].
      rewrite <- !app_assoc. apply Permutation_app_head.
      cbn [app]. apply Permutation_middle.
    + intros H. destruct (F H) as [Hnil Hi]. split; [exact Hnil |].
      rewrite Hi, <- app_assoc. reflexivity.
Qed.

(** X19: [install_packages] reports every requested package once, as
    installed or as failed; it reports success exactly when no package
    failed, and then the installed packages are the requested ones in
    their order. *)
Theorem every_package_is_reported (packages : list string)
    (project_path venv_path : string) :
  Permutation
    (installed_packages
       (install_packages run_uv packages project_path venv_path)
     ++ map package
          (failed_packages
             (install_packages run_uv packages project_path venv_path)))
    packages
  /\ success (install_packages run_uv packages project_path venv_path)
     = Analyzer.is_empty
         (failed_packages
            (install_packages run_uv packages project_path venv_path))
  /\ (success (install_packages run_uv packages project_path venv_path)
      = true ->
      installed_packages
        (install_packages run_uv packages project_path venv_path)
      = packages).
Proof.
  unfold install_packages. destruct packages as [| pkg packages].
  - simpl. repeat split; constructor.
  - destruct (install_loop project_path venv_path (pkg :: packages) 0 [] [])
      as (n' & i' & f' & E & P & F).
    rewrite E. cbn [installed_packages failed_packages success].
    split; [exact P |]. split.
    + now destruct f'.
    + intros H. destruct f'; [| discriminate H]. now destruct (F eq_refl).
Qed.


End Agent.

End InstallerFacts.

(** ** The questions of the front end *)

Module PromptFacts.

Import Recommender ResolveSpec ResolveFacts AggregateSpec Main PromptSpec.

Lemma In_keys_set {V : Type} (k k' : string) (v : V) (d : dict V) :
  In k (keys (PyDict.set k' v d)) <-> k = k' \/ In k (keys d).
Proof.
  rewrite DictFacts.keys_set. destruct (mem k' (keys d)) eqn:M.
  - apply mem_In in M. split; [tauto |]. intros [-> | H]; assumption.
  - rewrite in_app_iff. simpl. intuition.
Qed.

Lemma get_In {V : Type} (k : string) (v : V) (d : dict V) :
  get k d = Some v -> In (k, v) d.
Proof.
  induction d as [| [k0 v0] d IH]; simpl; [discriminate |].
  destruct (String.eqb k k0) eqn:E.
  - apply String.eqb_eq in E. subst. intros H. injection H as ->. now left.
  - intros H. right. now apply IH.
Qed.

Lemma set_values (b : bool) (k : string) (d : dict bool) :
  Forall (fun kv => snd kv = b) d ->
  Forall (fun kv => snd kv = b) (PyDict.set k b d).
Proof.
  induction d as [| [k0 v0] d IH]; intros H.
  - repeat constructor.
  - inversion H as [| ? ? H0 Hd]; subst. simpl.
    destruct (String.eqb k k0); constructor; auto.
Qed.

Section Prompt.

Variable console_print : string -> option string.
Variable confirm : nat -> string -> result bool.

Abbreviation questions := (ask_all confirm).
Abbreviation choices_of := (get_user_choices console_print confirm).

Lemma ask_all_keys {A : Type} (key question : A -> string) (l : list A)
    (st st' : nat * dict bool) :
  questions key question l st = Return st' ->
  (wf (snd st) -> wf (snd st'))
  /\ forall k,
       In k (keys (snd st')) <-> In k (keys (snd st)) \/ In k (map key l).
Proof.
  revert st. induction l as [| x l IH]; intros st H; cbn [ask_all] in H.
  - injection H as <-. split; [tauto |]. intros k. simpl. tauto.
  - unfold ask in H at 1.
    destruct (confirm (fst st) (question x)) as [answer | e];
      [| discriminate H].
    cbn [bind] in H. destruct (IH _ H) as [Hw Hk]. cbn [snd] in Hw, Hk.
    split.
    + intros W. apply Hw. now apply DictFacts.wf_set.
    + intros k. rewrite Hk, In_keys_set. simpl. intuition.
Qed.

Lemma ask_all_yes {A : Type} (key question : A -> string) (l : list A)
    (st : nat * dict bool) :
  (forall n x, In x l -> confirm n (question x) = Return true) ->
  Forall (fun kv => snd kv = true) (snd st) ->
  exists st',
    questions key question l st = Return st'
    /\ Forall (fun kv => snd kv = true) (snd st').
Proof.
  revert st. induction l as [| x l IH]; intros st Hyes Hst; cbn [ask_all].
  - now exists st.
  - unfold ask at 1. rewrite Hyes by (simpl; tauto). cbn [bind].
    apply IH.
    + intros n y Hy. apply Hyes. simpl. tauto.
    + cbn [snd]. now apply set_values.
Qed.

Lemma choices_shape (rec : Recommendations) (choices : dict bool) :
  choices_of rec = Return choices ->
  exists asked asked',
    questions (fun item => alternative (snd item))
      (fun item => alternative_question (alternative (snd item)) (fst item))
      (alternatives rec) (0, []) = Return asked
    /\ questions (fun pkg => pkg) additional_question
         (keys (additional rec)) asked = Return asked'
    /\ choices = snd asked'.
Proof.
  unfold get_user_choices, print.
  destruct (console_print select_heading); [discriminate |]. cbn [bind].
  destruct (alternatives rec) as [| item alts] eqn:Ea.
  - cbn [Analyzer.is_empty bind].
    destruct (additional rec) as [| item' adds] eqn:Eb.
    + cbn [Analyzer.is_empty bind]. intros H. injection H as <-.
      exists (0, []), (0, []). repeat split.
    + cbn [Analyzer.is_empty].
      destruct (console_print additional_heading); [discriminate |].
      cbn [bind].
      destruct (questions (fun pkg => pkg) additional_question
                  (keys (item' :: adds)) (0, [])) as [asked' | e] eqn:Q;
        [| discriminate].
      cbn [bind]. intros H. injection H as <-.
      exists (0, []), asked'. repeat split. exact Q.
  - cbn [Analyzer.is_empty].
    destruct (console_print alternatives_heading); [discriminate |].
    cbn [bind].
    destruct (questions (fun item => alternative (snd item))
                (fun item =>
                   alternative_question (alternative (snd item)) (fst item))
                (item :: alts) (0, [])) as [asked | e] eqn:Q1;
      [| discriminate].
    cbn [bind].
    destruct (additional rec) as [| item' adds] eqn:Eb.
    + cbn [Analyzer.is_empty bind]. intros H. injection H as <-.
      exists asked, asked. repeat split.
    + cbn [Analyzer.is_empty].
      destruct (console_print additional_heading); [discriminate |].
      cbn [bind].
      destruct (questions (fun pkg => pkg) additional_question
                  (keys (item' :: adds)) asked) as [asked' | e] eqn:Q2;
        [| discriminate].
      cbn [bind]. intros H. injection H as <-.
      exists asked, asked'. repeat split. exact Q2.
Qed.

Lemma choices_keys (rec : Recommendations) (choices : dict bool) :
  choices_of rec = Return choices ->
  wf choices
  /\ forall k,
       In k (keys choices)
       <-> In k (suggested_names rec) \/ In k (keys (additional rec)).
Proof.
  intros H. apply choices_shape in H.
  destruct H as (asked & asked' & Q1 & Q2 & ->).
  apply ask_all_keys in Q1. apply ask_all_keys in Q2.
  destruct Q1 as [W1 K1], Q2 as [W2 K2]. split.
  - apply W2, W1. constructor.
  - intros k. rewrite K2, K1, map_id. unfold suggested_names, values.
    rewrite map_map. simpl. tauto.
Qed.

(** X21: when [get_user_choices] returns, that is when no print and no
    question raised, its dictionary has distinct keys and holds an answer
    for every suggested alternative and every additional package, and for
    no other name. *)
Theorem every_suggestion_is_asked (rec : Recommendations)
    (choices : dict bool) :
  choices_of rec = Return choices ->
  wf choices
  /\ forall k,
       get k choices <> None
       <-> In k (suggested_names rec) \/ In k (keys (additional rec)).
Proof.
  intros H. destruct (choices_keys rec choices H) as [W K].
  split; [exact W |]. intros k. rewrite <- K, DictFacts.get_None_keys.
  destruct (in_dec string_dec k (keys choices)); tauto.
Qed.

(** X23: when the three headings are printed and every question that is
    asked is answered yes, [get_user_choices] returns, and with its
    answers and at least one suggestion [build_final_package_list] of the
    front end gives the approved packages, then the suggested
    alternatives, then the additional packages, without duplicates and
    without any original name of an alternative. *)
Theorem yes_to_all_installs_suggestions (rec : Recommendations)
    (user_packages : list string) :
  console_print select_heading = None ->
  console_print alternatives_heading = None ->
  console_print additional_heading = None ->
  (forall n item,
      In item (alternatives rec) ->
      confirm n (alternative_question (alternative (snd item)) (fst item))
      = Return true) ->
  (forall n pkg,
      In pkg (keys (additional rec)) ->
      confirm n (additional_question pkg) = Return true) ->
  (suggested_names rec ++ keys (additional rec))%list <> [] ->
  exists choices,
    choices_of rec = Return choices
    /\ build_final_package_list rec choices user_packages
       = unique (approved_packages rec ++ suggested_names rec
                 ++ keys (additional rec)).
Proof.
  intros P0 P1 P2 Y1 Y2 Hne.
  destruct (ask_all_yes (fun item => alternative (snd item))
              (fun item =>
                 alternative_question (alternative (snd item)) (fst item))
              (alternatives rec) (0, []) Y1) as (asked & Q1 & V1);
    [constructor |].
  destruct (ask_all_yes (fun pkg => pkg) additional_question
              (keys (additional rec)) asked Y2 V1) as (asked' & Q2 & V2).
  assert (R : choices_of rec = Return (snd asked')).
  { unfold get_user_choices, print. rewrite P0, P1, P2. cbn [bind].
    rewrite Q1.
    destruct (alternatives rec) as [| item alts] eqn:Ea.
    - cbn [ask_all] in Q1. injection Q1 as <-.
      cbn [Analyzer.is_empty bind]. rewrite Q2.
      destruct (additional rec) as [| item' adds] eqn:Eb.
      + cbn [keys map ask_all] in Q2. injection Q2 as <-. reflexivity.
      + reflexivity.
    - cbn [Analyzer.is_empty bind]. rewrite Q2.
      destruct (additional rec) as [| item' adds] eqn:Eb.
      + cbn [keys map ask_all] in Q2. injection Q2 as <-. reflexivity.
      + reflexivity. }
  exists (snd asked'). split; [exact R |].
  destruct (choices_keys rec (snd asked') R) as [_ K].
  assert (Hall : forall k,
             In k (suggested_names rec) \/ In k (keys (additional rec)) ->
             get_default k false (snd asked') = true).
  { intros k Hk. apply K in Hk. unfold get_default.
    destruct (get k (snd asked')) as [v |] eqn:G.
    - apply get_In in G. rewrite Forall_forall in V2. exact (V2 _ G).
    - apply DictFacts.get_None_keys in G. contradiction. }
  rewrite main_build_unfold.
  assert (Hc : collect rec (snd asked')
               = (approved_packages rec ++ suggested_names rec
                  ++ keys (additional rec))%list).
  { unfold collect.
    rewrite (ResolveMore.pass_additional _ (additional rec) _ true)
      by (apply Forall_forall; intros k Hk; apply Hall; now right).
    rewrite ResolveMore.accept_alternatives.
    - now rewrite <- app_assoc.
    - apply (ResolveMore.Forall_suggested
               (fun k => get_default k false (snd asked') = true)).
      apply Forall_forall. intros k Hk. apply Hall. now left. }
  rewrite Hc.
  destruct (approved_packages rec ++ suggested_names rec
            ++ keys (additional rec))%list as [| x l] eqn:E;
    [| reflexivity].
  apply app_eq_nil in E. destruct E as [_ E]. contradiction.
Qed.

End Prompt.

Lemma every_suggestion_is_asked_witness :
  wf [("polars", true)].
Proof.
  apply (every_suggestion_is_asked quiet_console always_yes numpy_pandas
           [("polars", true)]).
  reflexivity.
Defined.

Lemma yes_to_all_installs_suggestions_witness :
  exists choices,
    get_user_choices quiet_console always_yes numpy_pandas = Return choices
    /\ build_final_package_list numpy_pandas choices ["numpy"; "pandas"]
       = unique (approved_packages numpy_pandas
                 ++ suggested_names numpy_pandas
                 ++ keys (additional numpy_pandas)).
Proof.
  apply (yes_to_all_installs_suggestions quiet_console always_yes
           numpy_pandas ["numpy"; "pandas"]); try reflexivity.
  discriminate.
Defined.

End PromptFacts.

(** ** Substrings *)

Module SubstringFacts.

Import NameSpec StrFacts ManifestSpec UserPackagesFacts IndexFacts.

Lemma prefix_iff (p s : string) :
  String.prefix p s = true <-> exists b, s = p ++ b.
Proof.
  revert s. induction p as [| c p IH]; intros s.
  - split; [intros _; now exists s |]. intros _. now destruct s.
  - destruct s as [| d s]; simpl.
    + split; [discriminate | intros [b H]; discriminate H].
    + destruct (ascii_dec c d) as [-> | Hne].
      * rewrite IH. split; intros [b H]; exists b.
        -- now rewrite H.
        -- now injection H.
      * split; [discriminate |]. intros [b H]. injection H as H1 H2.
        congruence.
Qed.

Lemma contains_iff (sub s : string) :
  contains sub s = true <-> occurs_in sub s.
Proof.
  unfold occurs_in. induction s as [| c s IH].
  - cbn [contains]. rewrite orb_false_r, prefix_iff. split.
    + intros [b H]. exists EmptyString, b. exact H.
    + intros (x & y & H). destruct x; [now exists y |]. discriminate H.
  - cbn [contains]. rewrite orb_true_iff, prefix_iff, IH. split.
    + intros [[b H] | (x & y & H)].
      * exists EmptyString, b. exact H.
      * exists (String c x), y. simpl. now rewrite H.
    + intros (x & y & H). destruct x as [| d x].
      * left. now exists y.
      * right. injection H as _ H. now exists x, y.
Qed.

Lemma occurs_in_trans (a b c : string) :
  occurs_in a b -> occurs_in b c -> occurs_in a c.
Proof.
  intros (x & y & H1) (u & v & H2). subst.
  exists (u ++ x), (y ++ v). now rewrite !append_assoc.
Qed.

Lemma absent_in_part (sub t s : string) :
  contains sub s = false -> occurs_in t s -> contains sub t = false.
Proof.
  intros H Ht. destruct (contains sub t) eqn:E; [| reflexivity].
  apply contains_iff in E.
  assert (G : contains sub s = true)
    by (apply contains_iff; eapply occurs_in_trans; eassumption).
  congruence.
Qed.

Lemma lstrip_occurs (s : string) : exists a, s = a ++ lstrip s.
Proof.
  induction s as [| c s [a IH]]; [now exists EmptyString |].
  simpl. destruct (is_space c).
  - exists (String c a). simpl. now rewrite <- IH.
  - now exists EmptyString.
Qed.

Lemma rstrip_occurs (s : string) : exists b, s = rstrip s ++ b.
Proof.
  induction s as [| c s [b IH]]; [now exists EmptyString |].
  rewrite rstrip_cons. destruct (rstrip s) as [| d r].
  - destruct (is_space c).
    + now exists (String c s).
    + exists b. simpl in *. now rewrite <- IH.
  - exists b. simpl in *. now rewrite <- IH.
Qed.

Lemma strip_occurs (s : string) : occurs_in (strip s) s.
Proof.
  unfold strip. destruct (lstrip_occurs s) as [a Ha].
  destruct (rstrip_occurs (lstrip s)) as [b Hb].
  exists a, b. now rewrite <- Hb.
Qed.

(** *** The first piece of a split *)

Lemma split_first (sep s : string) :
  nth 0 (split sep s) EmptyString = fst (split_go sep 0 s).
Proof. unfold split. now destruct (split_go sep 0 s). Qed.

Lemma split_first_prefix (sep s : string) :
  exists rest, s = fst (split_go sep 0 s) ++ rest.
Proof.
  induction s as [| c s [rest IH]]; [now exists EmptyString |].
  cbn [split_go]. destruct (String.prefix sep (String c s)).
  - now exists (String c s).
  - destruct (split_go sep 0 s) as [p ps]. simpl in *.
    exists rest. now rewrite <- IH.
Qed.

Lemma split_first_absent (sep s : string) :
  sep <> EmptyString -> contains sep (fst (split_go sep 0 s)) = false.
Proof.
  intros Hsep. induction s as [| c s IH].
  - simpl. destruct sep; [congruence | reflexivity].
  - cbn [split_go]. destruct (String.prefix sep (String c s)) eqn:E.
    + simpl. destruct sep; [congruence | reflexivity].
    + destruct (split_first_prefix sep s) as [rest Hr].
      destruct (split_go sep 0 s) as [p ps]. cbn [fst] in *.
      cbn [contains]. rewrite IH, orb_false_r.
      destruct (String.prefix sep (String c p)) eqn:P; [| reflexivity].
      apply prefix_iff in P. destruct P as [b Hb].
      assert (G : String.prefix sep (String c s) = true).
      { apply prefix_iff. exists (b ++ rest).
        rewrite Hr, <- append_assoc, <- Hb. reflexivity. }
      congruence.
Qed.

Lemma split_first_occurs (sep s : string) :
  occurs_in (fst (split_go sep 0 s)) s.
Proof.
  destruct (split_first_prefix sep s) as [rest H].
  exists EmptyString, rest. exact H.
Qed.

Lemma split_absent (sep s : string) :
  contains sep s = false -> split_go sep 0 s = (s, []).
Proof.
  induction s as [| c s IH]; [reflexivity |].
  cbn [contains split_go]. intros H. apply orb_false_iff in H.
  destruct H as [H1 H2]. rewrite H1, IH by assumption. reflexivity.
Qed.

Lemma contains_chars (sub s : string) (c : ascii) :
  contains sub s = true -> In c (chars sub) -> In c (chars s).
Proof.
  intros H Hc. apply contains_iff in H. destruct H as (x & y & ->).
  rewrite !chars_app, !in_app_iff. tauto.
Qed.

End SubstringFacts.

(** ** The manifests of a repository *)

Module ManifestFacts.

Import GitHub NameSpec StrFacts ManifestSpec UserPackagesFacts IndexFacts.
Import SubstringFacts.

Example parse_requirements_example :
  parse_requirements
    ("# pinned" ++ nl ++ "requests==2.0" ++ nl ++ "  flask >= 1.0 " ++ nl
     ++ nl ++ "numpy~=1.2" ++ nl ++ "django<=3" ++ nl ++ "pandas>1")
  = ["requests"; "flask"; "numpy"; "django"; "pandas>1"].
Proof. reflexivity. Qed.

Example splitlines_example :
  splitlines ("a" ++ String (ascii_of_nat 13) nl ++ nl ++ "b" ++ nl)
  = ["a"; ""; "b"].
Proof. reflexivity. Qed.

(** *** Names of requirements.txt *)

Lemma strip_first_char (s t : string) (c : ascii) :
  strip s = String c t -> is_space c = false.
Proof.
  unfold strip. destruct (lstrip_head s) as [E | (d & u & E & Hd)].
  - rewrite E. discriminate.
  - rewrite E. destruct (rstrip_head d u Hd) as [r ->].
    intros H. injection H as <- _. exact Hd.
Qed.

Lemma requirement_name_unfold (line : string) :
  requirement_name line = strip (cut_four line).
Proof. unfold requirement_name, cut_four. now rewrite !split_first. Qed.

Lemma cut_four_prefix (line : string) :
  exists rest, line = cut_four line ++ rest.
Proof.
  unfold cut_four.
  destruct (split_first_prefix "==" line) as [r1 H1].
  destruct (split_first_prefix ">=" (fst (split_go "==" 0 line)))
    as [r2 H2].
  destruct (split_first_prefix "<="
              (fst (split_go ">=" 0 (fst (split_go "==" 0 line)))))
    as [r3 H3].
  destruct (split_first_prefix "~="
              (fst (split_go "<=" 0
                      (fst (split_go ">=" 0 (fst (split_go "==" 0 line)))))))
    as [r4 H4].
  exists (r4 ++ r3 ++ r2 ++ r1).
  rewrite H1 at 1. rewrite H2 at 1. rewrite H3 at 1. rewrite H4 at 1.
  now rewrite !append_assoc.
Qed.

Lemma requirement_name_ok (line : string) :
  strip line = line ->
  startswith "#" line = false ->
  requirement_name line <> EmptyString ->
  requirement_ok (requirement_name line).
Proof.
  intros Hl Hc Hne. rewrite requirement_name_unfold in *.
  set (h1 := fst (split_go "==" 0 line)).
  set (h2 := fst (split_go ">=" 0 h1)).
  set (h3 := fst (split_go "<=" 0 h2)).
  assert (E4 : cut_four line = fst (split_go "~=" 0 h3)) by reflexivity.
  assert (O4 : occurs_in (strip (cut_four line)) (cut_four line))
    by apply strip_occurs.
  assert (O3 : occurs_in (cut_four line) h3)
    by (rewrite E4; apply split_first_occurs).
  assert (O2 : occurs_in h3 h2) by apply split_first_occurs.
  assert (O1 : occurs_in h2 h1) by apply split_first_occurs.
  repeat split.
  - exact Hne.
  - apply strip_strip.
  - apply (absent_in_part _ _ h1);
      [apply split_first_absent; discriminate |].
    eauto using occurs_in_trans.
  - apply (absent_in_part _ _ h2);
      [apply split_first_absent; discriminate |].
    eauto using occurs_in_trans.
  - apply (absent_in_part _ _ h3);
      [apply split_first_absent; discriminate |].
    eauto using occurs_in_trans.
  - apply (absent_in_part _ _ (cut_four line)); [| assumption].
    rewrite E4. apply split_first_absent. discriminate.
  - destruct (cut_four_prefix line) as [rest Hr].
    destruct (cut_four line) as [| c h] eqn:E; [now elim Hne |].
    assert (Hsp : is_space c = false).
    { apply (strip_first_char line (h ++ rest)). rewrite Hl, Hr.
      reflexivity. }
    unfold strip. rewrite lstrip_fixed by assumption.
    destruct (rstrip_head c h Hsp) as [t ->].
    unfold startswith in *. rewrite Hr in Hc.
    change (String c h ++ rest) with (String c (h ++ rest)) in Hc.
    rewrite prefix_char in Hc. rewrite prefix_char. exact Hc.
Qed.

Lemma parse_requirements_bare (requirements : string) :
  Forall requirement_ok (parse_requirements requirements).
Proof.
  unfold parse_requirements.
  assert (G : forall lines acc, Forall requirement_ok acc ->
    Forall requirement_ok
      (fold_left
         (fun acc raw_line =>
            let line := strip raw_line in
            if truthy line && negb (startswith "#" line) then
              let pkg := requirement_name line in
              if truthy pkg then (acc ++ [pkg])%list else acc
            else acc)
         lines acc)).
  { induction lines as [| raw lines IH]; intros acc H; simpl; [assumption |].
    apply IH.
    destruct (truthy (strip raw) && negb (startswith "#" (strip raw)))
      eqn:E; [| assumption].
    apply andb_true_iff in E. destruct E as [_ E].
    apply negb_true_iff in E.
    destruct (truthy (requirement_name (strip raw))) eqn:T; [| assumption].
    apply Forall_app. split; [assumption |]. constructor; [| constructor].
    apply requirement_name_ok; [apply strip_strip | assumption |].
    intros Hn. rewrite Hn in T. discriminate T. }
  apply G. constructor.
Qed.

(** *** Names of the dependency array *)

Lemma name_run_chars (s : string) :
  Forall (fun c => name_char c = true) (chars (name_run s)).
Proof.
  induction s as [| c s IH]; simpl; [constructor |].
  destruct (name_char c) eqn:E; simpl; [| constructor].
  constructor; assumption.
Qed.

Lemma findall_names_bare (deps_str : string) :
  Forall array_name_ok (findall_names deps_str).
Proof.
  unfold findall_names. generalize 0 as skip.
  induction deps_str as [| c s IH]; intros skip; simpl; [constructor |].
  destruct skip as [| k]; [| apply IH].
  destruct (Ascii.eqb c dq && truthy (name_run s)) eqn:E; [| apply IH].
  apply andb_true_iff in E. destruct E as [_ E].
  constructor; [| apply IH]. split; [| apply name_run_chars].
  intros Hn. rewrite Hn in E. discriminate E.
Qed.

(** X24: every name that [analyze_repo_dependencies] reads from
    requirements.txt is not empty, has no white space at its ends, holds
    none of the operators [==], [>=], [<=] and [~=], and does not start
    with the comment sign. *)
Theorem requirement_names_are_bare
    (fetch_content : string -> string -> option string)
    (repo_full_name : string) :
  Forall requirement_ok
    (requirements_txt (analyze_repo_dependencies fetch_content
                         repo_full_name)).
Proof.
  unfold analyze_repo_dependencies. cbn [requirements_txt].
  destruct (get_requirements_file fetch_content repo_full_name)
    as [requirements |]; [| constructor].
  destruct (truthy requirements); [| constructor].
  apply parse_requirements_bare.
Qed.

(** X25: every name that [analyze_repo_dependencies] reads from the
    dependency array of pyproject.toml is not empty and holds no double
    quote, no white space and none of the characters [>], [=], [<] and
    [~]. *)
Theorem array_names_are_bare
    (fetch_content : string -> string -> option string)
    (repo_full_name : string) :
  Forall array_name_ok
    (pyproject_toml (analyze_repo_dependencies fetch_content
                       repo_full_name)).
Proof.
  unfold analyze_repo_dependencies. cbn [pyproject_toml].
  destruct (get_pyproject_toml fetch_content repo_full_name)
    as [pyproject |]; [| constructor].
  destruct (truthy pyproject); [| constructor].
  destruct (search_dependencies pyproject); [| constructor].
  apply findall_names_bare.
Qed.

Lemma name_run_stop (a t : string) (c : ascii) :
  Forall (fun c => name_char c = true) (chars a) ->
  name_char c = false ->
  name_run (a ++ String c t) = a.
Proof.
  intros Ha Hc. induction a as [| d a IH]; simpl.
  - now rewrite Hc.
  - inversion Ha as [| ? ? Hd Hr]; subst. rewrite Hd. f_equal.
    now apply IH.
Qed.

Lemma findall_skip (a t : string) :
  findall_go (String.length a) (a ++ t) = findall_go 0 t.
Proof.
  induction a as [| d a IH]; simpl; [reflexivity |]. exact IH.
Qed.

(** X26: in a dependency array written in the usual way, the closing quote
    of an entry and the comma after it are read as one more name: two
    entries give three names, the second of which is a comma. *)
Theorem closing_quote_and_comma_give_a_name (a b : string) :
  array_name_ok a -> array_name_ok b ->
  findall_names (two_entries a b) = [a; ","; b].
Proof.
  intros [Ha Hca] [Hb Hcb]. unfold findall_names, two_entries.
  cbn [append findall_go].
  change (Ascii.eqb dq dq) with true. cbn [andb].
  rewrite (name_run_stop a _ dq Hca eq_refl).
  destruct a as [| a0 a']; [congruence |]. cbn [truthy].
  rewrite findall_skip. cbn [findall_go name_run].
  change (Ascii.eqb dq dq) with true.
  change (name_char ",") with true. change (name_char " ") with false.
  cbn [andb truthy String.length findall_go].
  change (Ascii.eqb "," dq) with false.
  change (Ascii.eqb " " dq) with false. cbn [andb].
  change (Ascii.eqb dq dq) with true. cbn [andb].
  rewrite (name_run_stop b _ dq Hcb eq_refl).
  destruct b as [| b0 b']; [congruence |]. cbn [truthy].
  rewrite findall_skip. reflexivity.
Qed.

Lemma closing_quote_and_comma_give_a_name_witness :
  findall_names (two_entries "requests" "flask")
  = ["requests"; ","; "flask"].
Proof.
  apply (closing_quote_and_comma_give_a_name "requests" "flask");
    (split; [discriminate | repeat constructor]).
Defined.

(** *** Reading back a written requirements file *)

Lemma linebreak_is_space (c : ascii) :
  is_linebreak c = true -> is_space c = true.
Proof.
  destruct c as [b0 b1 b2 b3 b4 b5 b6 b7].
  destruct b0, b1, b2, b3, b4, b5, b6, b7;
    (reflexivity || (intros H; discriminate H)).
Qed.

Lemma splitlines_go_line (p rest : string) :
  Forall (fun c => is_space c = false) (chars p) ->
  splitlines_go false (p ++ nl ++ rest)
  = (Some p, splitlines rest).
Proof.
  induction p as [| c p IH]; intros H.
  - reflexivity.
  - inversion H as [| ? ? Hc Hp]; subst.
    cbn [append splitlines_go andb].
    destruct (is_linebreak c) eqn:L;
      [apply linebreak_is_space in L; congruence |].
    fold (p ++ nl ++ rest). rewrite IH by assumption. reflexivity.
Qed.

Lemma splitlines_written (names : list string) :
  Forall (fun p => Forall (fun c => is_space c = false) (chars p)) names ->
  splitlines (Installer.requirements_text names) = names.
Proof.
  induction names as [| p names IH]; intros H; [reflexivity |].
  inversion H as [| ? ? Hp Hr]; subst.
  cbn [Installer.requirements_text fold_right].
  unfold splitlines at 1. rewrite splitlines_go_line by assumption.
  cbn [cons_line]. f_equal. now apply IH.
Qed.

Lemma plain_requirement_name (p : string) :
  plain_requirement p -> strip p = p /\ requirement_name p = p.
Proof.
  intros (Hne & Hc & Hs).
  assert (Hsp : strip p = p).
  { apply strip_no_space. eapply Forall_impl; [| exact Hc].
    intros a Ha. apply Ha. }
  split; [exact Hsp |].
  assert (Habs : forall op, In "="%char (chars op) ->
                            contains op p = false).
  { intros op Hop. destruct (contains op p) eqn:E; [| reflexivity].
    pose proof (contains_chars op p "="%char E Hop) as Hin.
    rewrite Forall_forall in Hc. destruct (Hc _ Hin) as [_ Hq].
    congruence. }
  unfold requirement_name.
  rewrite (split_first "==" p), (split_absent "==" p)
    by (apply Habs; simpl; tauto).
  cbn [fst].
  rewrite (split_first ">=" p), (split_absent ">=" p)
    by (apply Habs; simpl; tauto).
  cbn [fst].
  rewrite (split_first "<=" p), (split_absent "<=" p)
    by (apply Habs; simpl; tauto).
  cbn [fst].
  rewrite (split_first "~=" p), (split_absent "~=" p)
    by (apply Habs; simpl; tauto).
  exact Hsp.
Qed.

(** X27: the requirements file that the installer writes is read back by
    the parser of requirements.txt as the same list of packages, when no
    package name is empty, holds white space or an equals sign, or starts
    with the comment sign. *)
Theorem written_requirements_read_back (names : list string) :
  Forall plain_requirement names ->
  parse_requirements (Installer.requirements_text names) = names.
Proof.
  intros H. unfold parse_requirements.
  rewrite splitlines_written.
  - assert (G : forall l acc, Forall plain_requirement l ->
      fold_left
        (fun acc raw_line =>
           let line := strip raw_line in
           if truthy line && negb (startswith "#" line) then
             let pkg := requirement_name line in
             if truthy pkg then (acc ++ [pkg])%list else acc
           else acc)
        l acc = (acc ++ l)%list).
    { induction l as [| p l IH]; intros acc Hl; simpl.
      - now rewrite app_nil_r.
      - inversion Hl as [| ? ? Hp Hr]; subst.
        destruct (plain_requirement_name p Hp) as [Es En].
        destruct Hp as (Hne & _ & Hs).
        rewrite Es, En, Hs.
        destruct p; [congruence |]. cbn [truthy andb negb].
        rewrite IH by assumption. now rewrite <- app_assoc. }
    now apply G.
  - eapply Forall_impl; [| exact H]. intros p (_ & Hc & _).
    eapply Forall_impl; [| exact Hc]. intros a Ha. apply Ha.
Qed.

Lemma written_requirements_read_back_witness :
  parse_requirements (Installer.requirements_text ["numpy"; "polars"])
  = ["numpy"; "polars"].
Proof.
  apply (written_requirements_read_back ["numpy"; "polars"]).
  repeat constructor; discriminate.
Defined.

End ManifestFacts.

(** ** The dependency array and the flow without suggestions *)

Module FlowFacts.

Import NameSpec StrFacts ManifestSpec UserPackagesFacts IndexFacts.
Import SubstringFacts GitHub.

Lemma substring_all (s : string) : substring 0 (String.length s) s = s.
Proof. induction s as [| c s IH]; simpl; [reflexivity | now rewrite IH]. Qed.

Lemma substring_after (p b : string) :
  substring (String.length p)
    (String.length (p ++ b) - String.length p) (p ++ b) = b.
Proof.
  induction p as [| c p IH]; simpl.
  - rewrite Nat.sub_0_r. apply substring_all.
  - exact IH.
Qed.

Lemma drop_prefix_eq (p s r : string) :
  drop_prefix p s = Some r -> s = p ++ r.
Proof.
  unfold drop_prefix. destruct (String.prefix p s) eqn:E; [| discriminate].
  apply prefix_iff in E. destruct E as [b ->].
  rewrite substring_after. intros H. now injection H as <-.
Qed.

Lemma cut_eq (sep s a b : string) :
  cut sep s = Some (a, b) -> s = a ++ sep ++ b.
Proof.
  revert a b. induction s as [| c s IH]; intros a b.
  - cbn [cut]. destruct (String.prefix sep EmptyString) eqn:E;
      [| discriminate].
    apply prefix_iff in E. destruct E as [r Hr].
    intros H. injection H as <- <-.
    destruct sep; [reflexivity | discriminate Hr].
  - cbn [cut]. destruct (String.prefix sep (String c s)) eqn:E.
    + apply prefix_iff in E. destruct E as [r Hr]. rewrite Hr.
      rewrite substring_after. intros H. now injection H as <- <-.
    + destruct (cut sep s) as [[a' b'] |]; [| discriminate].
      intros H. injection H as <- <-. simpl.
      now rewrite (IH a' b' eq_refl) at 1.
Qed.

Lemma dependencies_at_occurs (s g : string) :
  dependencies_at s = Some g ->
  contains "]" g = false /\ occurs_in ("[" ++ g ++ "]") s.
Proof.
  unfold dependencies_at.
  destruct (drop_prefix "dependencies" s) as [r1 |] eqn:E1; [| discriminate].
  destruct (drop_prefix "=" (lstrip r1)) as [r2 |] eqn:E2; [| discriminate].
  destruct (drop_prefix "[" (lstrip r2)) as [r3 |] eqn:E3; [| discriminate].
  destruct (cut "]" r3) as [[group rest] |] eqn:E4; [| discriminate].
  intros H. injection H as <-. split.
  - eapply cut_char_before. exact E4.
  - apply drop_prefix_eq in E1, E2, E3. apply cut_eq in E4.
    destruct (lstrip_occurs r1) as [w1 H1].
    destruct (lstrip_occurs r2) as [w2 H2].
    exists ("dependencies" ++ w1 ++ "=" ++ w2), rest.
    rewrite E1, H1, E2, H2, E3, E4. now rewrite !append_assoc.
Qed.

(** X29: the text that the search for the dependency array returns holds
    no closing bracket, and it stands in the manifest between an opening
    and a closing bracket. *)
Theorem dependency_array_is_bracketed (pyproject deps_str : string) :
  search_dependencies pyproject = Some deps_str ->
  contains "]" deps_str = false
  /\ occurs_in ("[" ++ deps_str ++ "]") pyproject.
Proof.
  induction pyproject as [| c s IH]; cbn [search_dependencies].
  - destruct (dependencies_at EmptyString) eqn:E; [| discriminate].
    intros H. injection H as ->. now apply dependencies_at_occurs.
  - destruct (dependencies_at (String c s)) eqn:E.
    + intros H. injection H as ->. now apply dependencies_at_occurs.
    + intros H. destruct (IH H) as [H1 (x & y & H2)].
      split; [exact H1 |]. exists (String c x), y. simpl. now rewrite H2.
Qed.

Lemma dependency_array_is_bracketed_witness :
  contains "]" " 1, 2 " = false.
Proof.
  apply (dependency_array_is_bracketed "x dependencies = [ 1, 2 ] y"
           " 1, 2 ").
  reflexivity.
Defined.

Section Flow.

Import Recommender AggregateSpec.

Variable search_repositories : string -> string -> Z -> list GitHub.GitHubRepo.
Variable analyze : string -> GitHub.Dependencies.
Variable set_iter : list string -> list string.
Variable system_prompt : string.
Variable llm_invoke : string -> string -> result string.
Variable fetch_info : string -> option PyPI.PackageInfo.

(** X28: when the call of the language model fails, or its answer holds
    neither an alternative nor an additional package, the aggregator
    returns, also for a blank description, and its recommendation has no
    suggestion, empty maps, and the user's packages as approved and as
    final packages. *)
Theorem without_suggestions_user_packages_are_kept
    (user_packages : list string) (project_description : option string) :
  (exists e,
      llm_invoke system_prompt
        (Analyzer.user_prompt user_packages (or_empty project_description)
           (github_packages_of search_repositories analyze set_iter
              project_description))
      = Raise e)
  \/ (exists text,
        llm_invoke system_prompt
          (Analyzer.user_prompt user_packages (or_empty project_description)
             (github_packages_of search_repositories analyze set_iter
                project_description))
        = Return text
        /\ Analyzer.alternative_suggestions
             (Analyzer.parse_llm_recommendations text user_packages) = []
        /\ Analyzer.additional_packages
             (Analyzer.parse_llm_recommendations text user_packages) = []) ->
  exists r,
    generate_recommendations search_repositories analyze set_iter
      system_prompt llm_invoke fetch_info user_packages project_description
    = Return r
    /\ has_suggestions r = false
    /\ approved_packages r = user_packages
    /\ final_packages r = Some user_packages
    /\ alternatives r = [] /\ additional r = [].
Proof.
  unfold generate_recommendations, Analyzer.analyze_with_llm.
  intros [[e H] | (text & H & Ha & Hb)]; rewrite H;
    cbn [Analyzer.success Analyzer.analysis negb].
  - eexists. split; [reflexivity |]. repeat split.
  - rewrite Ha, Hb. cbn [Analyzer.is_empty negb orb].
    eexists. split; [reflexivity |]. repeat split.
Qed.

End Flow.

Lemma without_suggestions_user_packages_are_kept_witness :
  exists r,
    Recommender.generate_recommendations AggregateSpec.no_repos
      AggregateSpec.no_deps AggregateSpec.list_order ""
      (AggregateSpec.answers "APPROVE: numpy") AggregateSpec.index_empty
      ["numpy"; "numpy"] (Some " ")
    = Return r
    /\ Recommender.has_suggestions r = false
    /\ Recommender.approved_packages r = ["numpy"; "numpy"]
    /\ Recommender.final_packages r = Some ["numpy"; "numpy"]
    /\ Recommender.alternatives r = [] /\ Recommender.additional r = [].
Proof.
  apply (without_suggestions_user_packages_are_kept
           AggregateSpec.no_repos AggregateSpec.no_deps
           AggregateSpec.list_order "" (AggregateSpec.answers "APPROVE: numpy")
           AggregateSpec.index_empty ["numpy"; "numpy"] (Some " ")).
  right. exists "APPROVE: numpy". repeat split.
Defined.

End FlowFacts.
